(** * Gecko Lambda: the configuration reconciliation engine

    A shallow embedding of the manifest store (TemplateManager,
    ConfigManager), the function registry (LambdaDetector), the build
    freshness oracle (BuildUtils.needsRebuild), the migration, validation
    and repair commands of the extension and the two flows that
    configure a function (the wizard of ConfigCommand, the
    auto-configuration of RunCommand), followed by the properties of the
    specification that concern them and by further properties of the
    code.

    Conventions of the embedding:
    - a parsed YAML document is a tree of JavaScript values ([value]);
      mappings keep the order in which [Object.keys] enumerates them;
    - an exception is the [Throw] case of [result]; [try]/[catch] is
      [catch];
    - the file system is a finite map from path to node; a text file is
      represented by the tree that its text means, and writing
      [yaml.dump t] stores [t] (js-yaml is a collaborator that round-trips
      documents);
    - the object graph that [yaml.load] builds from a text with anchors
      and aliases, where an anchored node and its aliases are one object,
      is the subject of [Shared]: the writers of the private metadata are
      also given on it, as they assign in place, and they agree with the
      writers on trees when Metadata is a node of its own;
    - an [error] is the kind of the failure that came first: messages, and
      the wrapping of a caught error in a new Error, are not represented;
    - [new Date().toISOString()] is the [iso] field of an explicit clock
      reading; Node's [path] module is the [Path] interface;
    - a function that touches the file system more than once is a
      computation of [io], which threads the file system and stops at
      the first exception. *)

From Stdlib Require Import ZArith String Ascii List Bool Lia.
From stdpp Require Import base option list strings pretty gmap.

Set Warnings "-register-all".
Open Scope Z_scope.
Open Scope string_scope.

#[global] Arguments String.eqb !s1 !s2 : simpl nomatch.

(** ** Exceptions *)

Inductive error :=
| NotFound          (* a file that is expected to exist does not *)
| ParseError        (* yaml.load (or readFileSync) failed *)
| MissingResource   (* no AWS::Serverless::Function resource *)
| TypeError         (* property access or assignment on a non-object *)
| DumpError         (* yaml.dump met a value it cannot serialise *)
| IOError.          (* any other failure of a file-system call *)

Inductive result (A : Type) :=
| Ok (a : A)
| Throw (e : error).
Arguments Ok {A} a.
Arguments Throw {A} e.

#[global] Instance result_ret : MRet result := fun A a => Ok a.
#[global] Instance result_bind : MBind result := fun A B f m =>
  match m with
  | Ok a => f a
  | Throw e => Throw e
  end.

Definition catch {A} (m : result A) (handler : error → result A) : result A :=
  match m with
  | Ok a => Ok a
  | Throw e => handler e
  end.

Definition is_ok {A} (m : result A) : bool :=
  match m with Ok _ => true | Throw _ => false end.

(** ** JavaScript values as produced by yaml.load *)

Module JS.

Inductive value :=
| VUndef
| VNull
| VBool (b : bool)
| VNum (n : Z)
| VStr (s : string)
| VArr (items : list value)
| VObj (fields : list (string * value)).

(** ToBoolean. Numbers are integers in this model, so there is no NaN. *)
Definition truthy (v : value) : bool :=
  match v with
  | VUndef | VNull => false
  | VBool b => b
  | VNum n => negb (n =? 0)%Z
  | VStr s => negb (String.eqb s "")
  | VArr _ | VObj _ => true
  end.

(** [a || b] *)
Definition or (a b : value) : value := if truthy a then a else b.

Definition nullish (v : value) : bool :=
  match v with VUndef | VNull => true | _ => false end.

(** [v === "s"] for a string literal or a string variable *)
Definition str_eq (v : value) (s : string) : bool :=
  match v with VStr s' => String.eqb s' s | _ => false end.

Fixpoint chars (s : string) : list value :=
  match s with
  | EmptyString => []
  | String c r => VStr (String c EmptyString) :: chars r
  end.

Definition indexed (l : list value) : list (string * value) :=
  imap (fun i v => (pretty i, v)) l.

(** The own enumerable properties, in [Object.keys] order. Inherited
    members (length, methods) are not own; none of the property names the
    sources read is one of them. *)
Definition own_entries (v : value) : list (string * value) :=
  match v with
  | VObj fs => fs
  | VArr l => indexed l
  | VStr s => indexed (chars s)
  | _ => []
  end.

Fixpoint lookup_field (k : string) (fs : list (string * value)) : value :=
  match fs with
  | [] => VUndef
  | (k', v) :: r => if String.eqb k' k then v else lookup_field k r
  end.

(** [v?.k] *)
Definition opt_get (v : value) (k : string) : value :=
  lookup_field k (own_entries v).

(** [v.k] and [v[k]]: a TypeError on null and undefined *)
Definition get (v : value) (k : string) : result value :=
  if nullish v then Throw TypeError else Ok (opt_get v k).

(** [Object.keys(v)] and [Object.values(v)] *)
Definition keys (v : value) : result (list string) :=
  if nullish v then Throw TypeError else Ok (map fst (own_entries v)).

Definition values (v : value) : result (list value) :=
  if nullish v then Throw TypeError else Ok (map snd (own_entries v)).

Fixpoint set_field (k : string) (x : value) (fs : list (string * value))
  : list (string * value) :=
  match fs with
  | [] => [(k, x)]
  | (k', v) :: r =>
      if String.eqb k' k then (k', x) :: r else (k', v) :: set_field k x r
  end.

(** [o.k = x] in strict code (class bodies are strict), for a property
    name [k] that is not an array index. On a mapping the key is replaced
    in place or appended. On an array the assignment succeeds but the
    property is not an element, and yaml.dump writes the elements only: the
    value as serialised is unchanged. On a primitive it is a TypeError. *)
Definition set (o : value) (k : string) (x : value) : result value :=
  match o with
  | VObj fs => Ok (VObj (set_field k x fs))
  | VArr l => Ok (VArr l)
  | _ => Throw TypeError
  end.

Fixpoint join (sep : string) (l : list string) : string :=
  match l with
  | [] => ""
  | [s] => s
  | s :: r => s +:+ sep +:+ join sep r
  end.

(** ToString, as used by template literals and computed property keys *)
Fixpoint to_string (v : value) : string :=
  match v with
  | VUndef => "undefined"
  | VNull => "null"
  | VBool true => "true"
  | VBool false => "false"
  | VNum n => pretty n
  | VStr s => s
  | VArr l =>
      join "," (List.map (fun x => if nullish x then "" else to_string x) l)
  | VObj _ => "[object Object]"
  end.

(** [{ ...a, k1: v1, ... }]: the own entries of [a], then the listed
    properties assigned in order *)
Definition spread_then (a : value) (upd : list (string * value))
  : list (string * value) :=
  fold_left (fun acc kv => set_field kv.1 kv.2 acc) upd (own_entries a).

(** *** String and array operations of the further sources *)

(** [s.includes(pattern)] *)
Fixpoint includes (s pattern : string) : bool :=
  String.prefix pattern s
  || match s with
     | EmptyString => false
     | String _ r => includes r pattern
     end.

(** [s.split(sep)] for a separator of one character: a string without
    the separator, the empty string included, is one segment *)
Fixpoint split (sep : ascii) (s : string) : list string :=
  match s with
  | EmptyString => [EmptyString]
  | String c r =>
      if Ascii.eqb c sep then EmptyString :: split sep r
      else match split sep r with
           | segment :: rest => String c segment :: rest
           | [] => [String c EmptyString]
           end
  end.

(** [l.slice(-n)]: the last [n] elements, all of them when there are
    fewer *)
Definition slice_last {A} (n : nat) (l : list A) : list A :=
  drop (length l - n) l.

(** ASCII white space, what [trim] removes from both ends *)
Definition is_space (c : ascii) : bool :=
  ((9 <=? nat_of_ascii c)%nat && (nat_of_ascii c <=? 13)%nat)
  || Ascii.eqb c " ".

Fixpoint trim_start (s : string) : string :=
  match s with
  | String c r => if is_space c then trim_start r else s
  | EmptyString => EmptyString
  end.

Fixpoint trim_end (s : string) : string :=
  match s with
  | EmptyString => EmptyString
  | String c r =>
      match trim_end r with
      | EmptyString => if is_space c then EmptyString else String c EmptyString
      | r' => String c r'
      end
  end.

Definition trim (s : string) : string := trim_end (trim_start s).

(** yaml.dump leaves out a key whose value is undefined *)
Definition dumped (entries : list (string * value)) : list (string * value) :=
  List.filter
    (λ entry, negb (match snd entry with VUndef => true | _ => false end))
    entries.

End JS.
Export JS.

(** ** Documents with anchors and aliases

    yaml.load builds one JavaScript object for an anchored mapping or
    sequence and returns that same object at each alias of the anchor (a
    merge key, likewise, copies the children of its source by reference):
    an assignment to a property of such an object shows at every place
    where it occurs. The values of [JS] are trees, which cannot tell such
    a node from copies of it. Here a loaded document is a tree whose nodes
    may be references into a store of shared nodes, an assignment changes
    the object it reaches, and [dump] is yaml.dump with [noRefs: true],
    which writes a shared node out in full at each of its places. The
    writers of the private metadata are given on such documents next to
    their versions on trees.

    Scalars are immutable, so an anchored scalar is represented by its
    value at each alias. The store lists the shared nodes in the order in
    which the loader completes them: a node refers to earlier ones only.
    A document that contains itself has no such order; yaml.dump with
    [noRefs] overflows the stack on it, and [dump] throws. *)

Module Shared.

Inductive graph :=
| GUndef
| GNull
| GBool (b : bool)
| GNum (n : Z)
| GStr (s : string)
| GArr (items : list graph)
| GObj (fields : list (string * graph))
| GRef (anchor : nat).   (* the shared node of that index, at each place
                            where it occurs *)

(** A shared node: a sequence or a mapping *)
Inductive shared :=
| SArr (items : list graph)
| SObj (fields : list (string * graph)).

(** What yaml.load returns *)
Record document := { store : list shared; root : graph }.

Definition inline (s : shared) : graph :=
  match s with
  | SArr l => GArr l
  | SObj fs => GObj fs
  end.

(** The object that a value denotes *)
Definition deref (st : list shared) (g : graph) : graph :=
  match g with
  | GRef a => from_option inline GUndef (st !! a)
  | _ => g
  end.

(** ToBoolean: an object is truthy *)
Definition truthy (g : graph) : bool :=
  match g with
  | GUndef | GNull => false
  | GBool b => b
  | GNum n => negb (n =? 0)%Z
  | GStr s => negb (String.eqb s "")
  | GArr _ | GObj _ | GRef _ => true
  end.

(** [a || b] *)
Definition or (a b : graph) : graph := if truthy a then a else b.

Definition nullish (g : graph) : bool :=
  match g with GUndef | GNull => true | _ => false end.

Fixpoint chars (s : string) : list graph :=
  match s with
  | EmptyString => []
  | String c r => GStr (String c EmptyString) :: chars r
  end.

Definition indexed (l : list graph) : list (string * graph) :=
  imap (fun i v => (pretty i, v)) l.

(** The own enumerable properties, in [Object.keys] order *)
Definition own_entries (st : list shared) (g : graph)
  : list (string * graph) :=
  match deref st g with
  | GObj fs => fs
  | GArr l => indexed l
  | GStr s => indexed (chars s)
  | _ => []
  end.

Fixpoint lookup_field (k : string) (fs : list (string * graph)) : graph :=
  match fs with
  | [] => GUndef
  | (k', v) :: r => if String.eqb k' k then v else lookup_field k r
  end.

(** [g?.k] *)
Definition opt_get (st : list shared) (g : graph) (k : string) : graph :=
  lookup_field k (own_entries st g).

(** [g.k]: a TypeError on null and undefined *)
Definition get (st : list shared) (g : graph) (k : string) : result graph :=
  if nullish g then Throw TypeError else Ok (opt_get st g k).

Fixpoint set_field (k : string) (x : graph) (fs : list (string * graph))
  : list (string * graph) :=
  match fs with
  | [] => [(k, x)]
  | (k', v) :: r =>
      if String.eqb k' k then (k', x) :: r else (k', v) :: set_field k x r
  end.

(** [o.k = x] in strict code, for a property name [k] that is not an
    array index: the store and what [o] denotes afterwards. A shared
    mapping changes in the store, hence at each of its places; a mapping
    of its own changes where it stands. On an array the property is not
    an element and is not serialised; on a primitive the assignment is a
    TypeError. *)
Definition assign (st : list shared) (o : graph) (k : string) (x : graph)
  : result (list shared * graph) :=
  match o with
  | GObj fs => Ok (st, GObj (set_field k x fs))
  | GArr l => Ok (st, GArr l)
  | GRef a =>
      match st !! a with
      | Some (SObj fs) => Ok (<[a := SObj (set_field k x fs)]> st, GRef a)
      | Some (SArr l) => Ok (st, GRef a)
      | None => Throw TypeError
      end
  | _ => Throw TypeError
  end.

(** [{ ...a, k1: v1, ... }]: a new object with the own entries of [a],
    shared children included as they are, then the listed properties *)
Definition spread_then (st : list shared) (a : graph)
    (upd : list (string * graph)) : list (string * graph) :=
  fold_left (fun acc kv => set_field kv.1 kv.2 acc) upd (own_entries st a).

(** [if (!o.k) { o.k = {}; }] followed by a use of [o.k]: the store, the
    object, and the child that [o.k] denotes afterwards *)
Definition ensure (st : list shared) (o : graph) (k : string)
  : result (list shared * graph * graph) :=
  c ← get st o k;
  if truthy c then Ok (st, o, c)
  else '(st', o') ← assign st o k (GObj []); Ok (st', o', GObj []).

(** The child reached through [o.k] was assigned to and is [x] now: a
    child that is a node of its own is part of [o]; a shared child has
    changed in the store, and [o] refers to it as before *)
Definition write_back (st : list shared) (o : graph) (k : string) (x : graph)
  : list shared * graph :=
  match assign st o k x with
  | Ok r => r
  | Throw _ => (st, o)
  end.

(** The tree that a value is written out as, given the trees of the
    shared nodes that precede *)
Fixpoint plain (earlier : list value) (g : graph) : result value :=
  match g with
  | GUndef => Ok VUndef
  | GNull => Ok VNull
  | GBool b => Ok (VBool b)
  | GNum n => Ok (VNum n)
  | GStr s => Ok (VStr s)
  | GArr l =>
      items ← (fix each (l : list graph) : result (list value) :=
                 match l with
                 | [] => Ok []
                 | x :: r => v ← plain earlier x; vs ← each r; Ok (v :: vs)
                 end) l;
      Ok (VArr items)
  | GObj fs =>
      fields ← (fix each (fs : list (string * graph))
                  : result (list (string * value)) :=
                  match fs with
                  | [] => Ok []
                  | (k, x) :: r =>
                      v ← plain earlier x; vs ← each r; Ok ((k, v) :: vs)
                  end) fs;
      Ok (VObj fields)
  | GRef a =>
      match earlier !! a with
      | Some v => Ok v
      | None => Throw DumpError
      end
  end.

Fixpoint plain_store (earlier : list value) (st : list shared)
  : result (list value) :=
  match st with
  | [] => Ok earlier
  | s :: r =>
      v ← plain earlier (inline s); plain_store (earlier ++ [v])%list r
  end.

(** [yaml.dump(d, { noRefs: true, ... })], as the tree that the text
    written means: what the file system of this development holds for
    the file *)
Definition dump (d : document) : result value :=
  nodes ← plain_store [] (store d);
  plain nodes (root d).

End Shared.

(** ** Node's path module and the file system *)

Class Path := {
  path_join : string → string → string;
  path_dirname : string → string;
  path_basename : string → string;
}.

(** A clock reading: the ISO string of [new Date()] and the modification
    time given to a file written at that moment. *)
Record clock := { iso : string; ms : Z }.

(** A directory carries its listing. The operations modelled below write
    template.yaml inside a function directory and rename a plain file of
    the workspace; neither changes which subdirectories the listing of the
    workspace shows, the only thing the sources read from a listing. *)
Inductive node :=
| File (mtime : Z) (content : option value)
    (* [content] is the tree that the text means to yaml.load (a node
       that the text shares through an alias, at each of its places),
       None when yaml.load throws *)
| Dir (mtime : Z) (entries : list (string * bool)).
    (* readdirSync with file types: name and isDirectory *)

Definition node_mtime (n : node) : Z :=
  match n with File t _ => t | Dir t _ => t end.

Module Fs.

Definition existsSync (fs : gmap string node) (p : string) : bool :=
  bool_decide (is_Some (fs !! p)).

(** [fs.statSync(p).mtime] *)
Definition statSync (fs : gmap string node) (p : string) : result Z :=
  match fs !! p with
  | Some n => Ok (node_mtime n)
  | None => Throw NotFound
  end.

(** [yaml.load(fs.readFileSync(p, "utf8"))] *)
Definition readYaml (fs : gmap string node) (p : string) : result value :=
  match fs !! p with
  | Some (File _ (Some v)) => Ok v
  | Some (File _ None) => Throw ParseError
  | Some (Dir _ _) => Throw ParseError
  | None => Throw NotFound
  end.

(** [fs.writeFileSync(p, yaml.dump(v))]: fails on a directory. The
    callers create the function directory first; a missing parent is not
    modelled. *)
Definition writeYaml (now : clock) (p : string) (v : value)
    (fs : gmap string node) : result (gmap string node) :=
  match fs !! p with
  | Some (Dir _ _) => Throw IOError
  | _ => Ok (<[p := File (ms now) (Some v)]> fs)
  end.

(** [fs.readdirSync(p, { withFileTypes: true })] *)
Definition readdirSync (fs : gmap string node) (p : string)
  : result (list (string * bool)) :=
  match fs !! p with
  | Some (Dir _ es) => Ok es
  | Some (File _ _) => Throw IOError
  | None => Throw NotFound
  end.

(** [fs.renameSync(src, dst)]: the node moves and replaces the
    destination, unless one is a file and the other a directory. Only the
    node at [src] moves: the paths below a renamed directory are not
    tracked by this flat map. *)
Definition renameSync (src dst : string) (fs : gmap string node)
  : result (gmap string node) :=
  match fs !! src with
  | None => Throw NotFound
  | Some n =>
      match n, fs !! dst with
      | File _ _, Some (Dir _ _) => Throw IOError
      | Dir _ _, Some (File _ _) => Throw IOError
      | _, _ => Ok (<[dst := n]> (delete src fs))
      end
  end.

(** *** Removing files, writing JSON, making directories *)

(** [fs.unlinkSync(p)]: removes a file; a directory or a missing path is
    an error. Listings are read for the subdirectories of the workspace
    only, which removing a file does not change. *)
Definition unlinkSync (p : string) (fs : gmap string node)
  : result (gmap string node) :=
  match fs !! p with
  | Some (File _ _) => Ok (delete p fs)
  | Some (Dir _ _) => Throw IOError
  | None => Throw NotFound
  end.

(** [fs.writeFileSync(p, JSON.stringify(v, null, 2))]: the file holds
    the document [v] *)
Definition writeJson (now : clock) (p : string) (v : value)
    (fs : gmap string node) : result (gmap string node) :=
  match fs !! p with
  | Some (Dir _ _) => Throw IOError
  | _ => Ok (<[p := File (ms now) (Some v)]> fs)
  end.

Section Directories.
Context `{Path}.

(** [fs.mkdirSync(p, { recursive: true })]: nothing to do on a
    directory, an error on a file (EEXIST) or below one (ENOTDIR);
    otherwise the missing ancestors are made first, then the directory,
    empty, and its name is entered in the listing of its parent. Where a
    listing shows a new name is the file system's choice: here it comes
    last. [fuel] bounds the number of ancestors made; the length of the
    path is enough. *)
Fixpoint mkdir_p (fuel : nat) (now : clock) (p : string)
    (fs : gmap string node) : result (gmap string node) :=
  match fs !! p with
  | Some (Dir _ _) => Ok fs
  | Some (File _ _) => Throw IOError
  | None =>
      match fuel with
      | O => Ok (<[p := Dir (ms now) []]> fs)
      | S fuel' =>
          let parent := path_dirname p in
          if String.eqb parent p then Ok (<[p := Dir (ms now) []]> fs)
          else
            fs1 ← mkdir_p fuel' now parent fs;
            match fs1 !! parent with
            | Some (Dir _ entries) =>
                Ok (<[p := Dir (ms now) []]>
                     (<[parent := Dir (ms now)
                                    (entries ++ [(path_basename p, true)])]> fs1))
            | _ => Throw IOError
            end
      end
  end.

Definition mkdirSync (now : clock) (p : string) (fs : gmap string node)
  : result (gmap string node) :=
  mkdir_p (String.length p) now p fs.

(** [fs.mkdirSync(p)]: the parent has to be there, the directory not *)
Definition mkdirSync_plain (now : clock) (p : string) (fs : gmap string node)
  : result (gmap string node) :=
  match fs !! p with
  | Some _ => Throw IOError
  | None =>
      let parent := path_dirname p in
      match fs !! parent with
      | Some (Dir _ entries) =>
          Ok (<[p := Dir (ms now) []]>
               (<[parent := Dir (ms now)
                              (entries ++ [(path_basename p, true)])]> fs))
      | Some (File _ _) => Throw IOError
      | None => Throw NotFound
      end
  end.

End Directories.

End Fs.

(** ** Sequences of file-system operations

    A function that touches the file system more than once leaves what
    it has done so far when a later step throws: a computation takes the
    file system to the file system after it and its outcome. *)
Record io (A : Type) := IO {
  run : gmap string node → gmap string node * result A
}.
Arguments IO {A} run.
Arguments run {A} i fs.

#[global] Instance io_ret : MRet io := λ A a, IO (λ fs, (fs, Ok a)).
#[global] Instance io_bind : MBind io := λ A B f m, IO (λ fs,
  match run m fs with
  | (fs', Ok a) => run (f a) fs'
  | (fs', Throw e) => (fs', Throw e)
  end).

(** A read: [fs.existsSync], [fs.readFileSync] and the like *)
Definition inspect {A} (f : gmap string node → A) : io A :=
  IO (λ fs, (fs, Ok (f fs))).

(** A write that either happens or throws *)
Definition modify (f : gmap string node → result (gmap string node)) : io unit :=
  IO (λ fs, match f fs with
            | Ok fs' => (fs', Ok tt)
            | Throw e => (fs, Throw e)
            end).

(** A computation on values that may throw *)
Definition attempt {A} (r : result A) : io A := IO (λ fs, (fs, r)).

(** ** utils/types.ts *)

Record EnvironmentConfig := {
  variables : value;
  lastUpdated : value;
  source : value;
  awsFunctionName : value;
}.

Record TemplateConfig := {
  timeout : value;
  memorySize : value;
  description : value;
}.

(** Fields hold run-time values: what TypeScript declares a string is
    whatever the manifest held. An absent property is [VUndef]; the two
    optional sub-records are options. *)
Record LocalLambdaConfig := {
  functionName : value;
  sourceMainFile : value;
  sourceDir : value;
  eventType : value;
  workspacePath : value;
  lastModified : value;
  runtime : value;
  architecture : value;
  buildMethod : value;
  environment : option EnvironmentConfig;
  template : option TemplateConfig;
}.

(** ** utils/stringUtils.ts *)

Module StringUtils.

(** Character classes and case mapping on ASCII; strings of the model are
    ASCII strings. *)
Definition in_range (lo hi : nat) (c : ascii) : bool :=
  (lo <=? nat_of_ascii c)%nat && (nat_of_ascii c <=? hi)%nat.

Definition is_lower (c : ascii) : bool := in_range 97 122 c.
Definition is_upper (c : ascii) : bool := in_range 65 90 c.
Definition is_digit (c : ascii) : bool := in_range 48 57 c.

(** [\w] *)
Definition is_word (c : ascii) : bool :=
  is_lower c || is_upper c || is_digit c || Ascii.eqb c "_".

(** [[-_]] *)
Definition is_sep (c : ascii) : bool := Ascii.eqb c "-" || Ascii.eqb c "_".

Definition upper (c : ascii) : ascii :=
  if is_lower c then ascii_of_nat (nat_of_ascii c - 32) else c.

Definition lower (c : ascii) : ascii :=
  if is_upper c then ascii_of_nat (nat_of_ascii c + 32) else c.

Fixpoint toLowerCase (s : string) : string :=
  match s with
  | EmptyString => EmptyString
  | String c r => String (lower c) (toLowerCase r)
  end.

(** [str.replace(/[-_](\w)/g, (_, letter) => letter.toUpperCase())]:
    matches are found left to right and do not overlap *)
Fixpoint replace_separators (s : string) : string :=
  match s with
  | EmptyString => EmptyString
  | String c tl =>
      match tl with
      | String d r =>
          if is_sep c && is_word d
          then String (upper d) (replace_separators r)
          else String c (replace_separators tl)
      | EmptyString => String c EmptyString
      end
  end.

(** [.replace(/^\w/, (c) => c.toUpperCase())] *)
Definition capitalize (s : string) : string :=
  match s with
  | String c r => if is_word c then String (upper c) r else s
  | EmptyString => EmptyString
  end.

Definition toPascalCase (str : string) : string :=
  capitalize (replace_separators str).

(** *** Character classes of the names, and simplifyFunctionName *)

(** [[a-zA-Z0-9-_]] *)
Definition is_name_char (c : ascii) : bool :=
  is_lower c || is_upper c || is_digit c
  || Ascii.eqb c "-" || Ascii.eqb c "_".

(** [/^[...]+$/.test(s)] for a character class *)
Fixpoint all_chars (class : ascii → bool) (s : string) : bool :=
  match s with
  | EmptyString => true
  | String c r => class c && all_chars class r
  end.

Definition one_or_more (class : ascii → bool) (s : string) : bool :=
  negb (String.eqb s "") && all_chars class s.

(** [[a-zA-Z0-9-]] *)
Definition is_simple (c : ascii) : bool :=
  is_lower c || is_upper c || is_digit c
  || Ascii.eqb c "-".

(** [str.replace(/[^...]/g, "")]: the characters of the class are kept *)
Fixpoint keep_chars (keep : ascii → bool) (s : string) : string :=
  match s with
  | EmptyString => EmptyString
  | String c r =>
      if keep c then String c (keep_chars keep r) else keep_chars keep r
  end.

Definition simplifyFunctionName (suggested : string) : string :=
  let simplified :=
    String.substring 0 30
      (keep_chars is_simple (join "-" (slice_last 2 (split "-" suggested)))) in
  if String.eqb simplified "" then "lambda-function" else simplified.

End StringUtils.

(** ** utils/templateManager.ts *)

Module TemplateManager.
Section TemplateManager.
Context `{Path}.

Definition nl : string := String (ascii_of_nat 10) EmptyString.

Definition FUNCTION_TYPE : string := "AWS::Serverless::Function".

(** [if (!o.k) { o.k = {}; }] followed by a use of [o.k]: the object,
    and the child that [o.k] denotes afterwards *)
Definition ensure (o : value) (k : string) : result (value * value) :=
  c ← get o k;
  if truthy c then Ok (o, c)
  else o' ← set o k (VObj []); Ok (o', VObj []).

(** The child reached through [o.k] was mutated in place to [x]; [o],
    read as a tree, now holds [x] there. An array does not serialise the
    property. *)
Definition write_back (o : value) (k : string) (x : value) : value :=
  match o with
  | VObj fs => VObj (set_field k x fs)
  | _ => o
  end.

(** The same for the [i]-th own entry (a mapping value or an array
    element) *)
Definition write_back_entry (o : value) (i : nat) (x : value) : value :=
  match o with
  | VObj fs =>
      match fs !! i with
      | Some (k, _) => VObj (<[i := (k, x)]> fs)
      | None => o
      end
  | VArr l => VArr (<[i := x]> l)
  | _ => o
  end.

(** [resource.Type === "AWS::Serverless::Function"]; reading [Type] of a
    null entry throws *)
Definition is_function (resource : value) : result bool :=
  ty ← get resource "Type";
  Ok (str_eq ty FUNCTION_TYPE).

(** [Array.prototype.find] over the own entries, with the position of
    the entry found *)
Fixpoint find_function_from (i : nat) (es : list (string * value))
  : result (option (nat * string * value)) :=
  match es with
  | [] => Ok None
  | (k, r) :: rest =>
      b ← is_function r;
      if (b : bool) then Ok (Some (i, k, r)) else find_function_from (S i) rest
  end.

Definition find_function (resources : value)
  : result (option (nat * string * value)) :=
  find_function_from 0 (own_entries resources).

(** *** getEventConfiguration *)

Definition configurations : list (string * value) :=
  [ ("apigateway",
      VObj [("ApiEvent", VObj [("Type", VStr "Api");
        ("Properties", VObj [("Path", VStr "/hello"); ("Method", VStr "get")])])]);
    ("s3",
      VObj [("S3Event", VObj [("Type", VStr "S3");
        ("Properties", VObj [
          ("Bucket", VObj [("Ref", VStr "S3Bucket")]);
          ("Events", VStr "s3:ObjectCreated:*");
          ("Filter", VObj [("S3Key", VObj [("Rules", VArr [
             VObj [("Name", VStr "prefix"); ("Value", VStr "uploads/")]])])])])])]);
    ("dynamodb",
      VObj [("DynamoDBEvent", VObj [("Type", VStr "DynamoDB");
        ("Properties", VObj [
          ("Stream", VObj [("Fn::GetAtt", VArr [VStr "DynamoDBTable"; VStr "StreamArn"])]);
          ("StartingPosition", VStr "TRIM_HORIZON");
          ("BatchSize", VNum 10)])])]);
    ("sqs",
      VObj [("SQSEvent", VObj [("Type", VStr "SQS");
        ("Properties", VObj [
          ("Queue", VObj [("Fn::GetAtt", VArr [VStr "SQSQueue"; VStr "Arn"])]);
          ("BatchSize", VNum 10)])])]);
    ("default",
      VObj [("DefaultEvent", VObj [("Type", VStr "Schedule");
        ("Properties", VObj [("Schedule", VStr "rate(10 minutes)")])])]) ].

(** Names that [configurations[eventType]] finds on Object.prototype: the
    functions among them are truthy and cannot be serialised. *)
Definition prototype_functions : list string :=
  [ "constructor"; "hasOwnProperty"; "isPrototypeOf"; "propertyIsEnumerable";
    "toLocaleString"; "toString"; "valueOf"; "__defineGetter__";
    "__defineSetter__"; "__lookupGetter__"; "__lookupSetter__" ].

(** [configurations[eventType] || configurations.default] *)
Definition getEventConfiguration (eventType : value) (functionName : string)
  : result value :=
  let key := to_string eventType in
  if existsb (String.eqb key) prototype_functions then Throw DumpError
  else if String.eqb key "__proto__" then Ok (VObj [])
  else Ok (or (lookup_field key configurations)
              (lookup_field "default" configurations)).

Definition generateEnvironmentSection (environmentConfig : option EnvironmentConfig)
  : list (string * value) :=
  match environmentConfig with
  | None => []
  | Some e =>
      if negb (truthy (variables e))
         || (length (own_entries (variables e)) =? 0)%nat
      then []
      else [("Environment", VObj [("Variables", variables e)])]
  end.

Definition template_field (f : TemplateConfig → value)
    (t : option TemplateConfig) : value :=
  match t with Some c => f c | None => VUndef end.

(** *** createTemplate: the document it builds *)

Definition createTemplateObject (now : string)
    (config : LocalLambdaConfig) : result value :=
  match functionName config with
  | VStr name =>
      let functionName := StringUtils.toPascalCase name in
      let timeout := or (template_field timeout (template config)) (VNum 30) in
      let memorySize :=
        or (template_field memorySize (template config)) (VNum 128) in
      let description :=
        or (template_field description (template config))
           (VStr ("Lambda function for " +:+ to_string (eventType config)
                  +:+ " events")) in
      let environmentSection :=
        generateEnvironmentSection (environment config) in
      eventConfiguration ←
        getEventConfiguration (eventType config) functionName;
      Ok (VObj [
        ("AWSTemplateFormatVersion", VStr "2010-09-09");
        ("Transform", VStr "AWS::Serverless-2016-10-31");
        ("Description", VStr (name +:+ nl +:+ nl +:+ to_string description));
        ("Metadata", VObj [
          ("GeckoLambda", VObj [
            ("sourceFile", or (sourceMainFile config) (VStr ""));
            ("sourceDir", or (sourceDir config) (VStr ""));
            ("eventType", or (eventType config) (VStr "apigateway"));
            ("lastModified", VStr now);
            ("version", VStr "2.0");
            ("buildMethod", or (buildMethod config) (VStr "direct"));
            ("architecture", or (architecture config) (VStr "arm64"));
            ("runtime", or (runtime config) (VStr "provided.al2023")) ]) ]);
        ("Globals", VObj [
          ("Function", VObj [
            ("Timeout", timeout);
            ("MemorySize", memorySize);
            ("Runtime", or (runtime config) (VStr "provided.al2023")) ]) ]);
        ("Resources", VObj [
          (functionName +:+ "Function", VObj [
            ("Type", VStr FUNCTION_TYPE);
            ("Properties", VObj (
              [ ("CodeUri", VStr "build/");
                ("Handler", VStr "bootstrap");
                ("Runtime", or (runtime config) (VStr "provided.al2023"));
                ("Architectures",
                   VArr [or (architecture config) (VStr "arm64")]) ]
              ++ environmentSection
              ++ [ ("Events", eventConfiguration) ])%list) ]) ]);
        ("Outputs", VObj [
          (functionName +:+ "Function", VObj [
            ("Description", VStr "Lambda Function ARN");
            ("Value", VObj [("Fn::GetAtt",
               VArr [VStr (functionName +:+ "Function"); VStr "Arn"])]) ]);
          (functionName +:+ "FunctionIamRole", VObj [
            ("Description", VStr "Implicit IAM Role created for function");
            ("Value", VObj [("Fn::GetAtt",
               VArr [VStr (functionName +:+ "FunctionRole"); VStr "Arn"])]) ]) ])
      ])
  | _ => Throw TypeError   (* str.replace is not a function *)
  end.

Definition createTemplate (now : clock) (lambdaDir : string)
    (config : LocalLambdaConfig) (fs : gmap string node)
  : result (gmap string node) :=
  templateObject ← createTemplateObject (iso now) config;
  Fs.writeYaml now (path_join lambdaDir "template.yaml") templateObject fs.

(** *** readTemplate *)

Definition readTemplate (lambdaDir : string) (fs : gmap string node)
  : result value :=
  let templatePath := path_join lambdaDir "template.yaml" in
  if negb (Fs.existsSync fs templatePath) then Throw NotFound
  else catch (Fs.readYaml fs templatePath) (fun _ => Throw ParseError).

(** *** updateEnvironmentVariables *)

(** The document that is written back. [environment] is the new variable
    set, [awsFunctionName] the optional third argument. *)
Definition setEnvironmentVariables (now : string)
    (environment : list (string * value)) (awsFunctionName : option string)
    (template : value) : result value :=
  r0 ← get template "Resources";
  let resources := or r0 (VObj []) in
  found ← find_function resources;
  match found with
  | None => Throw MissingResource
  | Some (i, _, functionResource) =>
      '(functionResource1, properties) ← ensure functionResource "Properties";
      '(properties1, environment0) ← ensure properties "Environment";
      environment1 ← set environment0 "Variables" (VObj environment);
      let properties2 := write_back properties1 "Environment" environment1 in
      let functionResource2 :=
        write_back functionResource1 "Properties" properties2 in
      let template1 :=
        write_back template "Resources"
          (write_back_entry resources i functionResource2) in
      '(template2, metadata) ← ensure template1 "Metadata";
      '(metadata1, gecko) ← ensure metadata "GeckoLambda";
      gecko1 ← set gecko "environmentInfo" (VObj [
        ("lastUpdated", VStr now);
        ("source", VStr "aws");
        ("awsFunctionName",
           or (from_option VStr VUndef awsFunctionName) (VStr "manual"));
        ("variableCount", VNum (Z.of_nat (length environment))) ]);
      gecko2 ← set gecko1 "lastModified" (VStr now);
      let metadata2 := write_back metadata1 "GeckoLambda" gecko2 in
      Ok (write_back template2 "Metadata" metadata2)
  end.

Definition updateEnvironmentVariables (now : clock) (lambdaDir : string)
    (environment : list (string * value)) (awsFunctionName : option string)
    (fs : gmap string node) : result (gmap string node) :=
  let templatePath := path_join lambdaDir "template.yaml" in
  template ← readTemplate lambdaDir fs;
  updated ← setEnvironmentVariables (iso now) environment awsFunctionName template;
  Fs.writeYaml now templatePath updated fs.

(** *** updateGeckoMetadata

    The document is a tree here, and the assignment to
    [template.Metadata.GeckoLambda] an update of that tree: what the
    assignment in place amounts to when Metadata is a node of its own.
    [updateGeckoMetadata_in_place], below, is the same code on the object
    graph, where Metadata may be shared through an anchor and its
    aliases. *)

Definition mergeGeckoMetadata (now : string)
    (sourceFile sourceDir eventType : string) (template : value)
  : result value :=
  '(template1, metadata) ← ensure template "Metadata";
  g ← get metadata "GeckoLambda";
  let existingMetadata := or g (VObj []) in
  metadata1 ← set metadata "GeckoLambda" (VObj (spread_then existingMetadata [
    ("sourceFile", VStr sourceFile);
    ("sourceDir", VStr sourceDir);
    ("eventType", VStr eventType);
    ("lastModified", VStr now);
    ("version", VStr "2.0") ]));
  Ok (write_back template1 "Metadata" metadata1).

Definition updateGeckoMetadata (now : clock) (lambdaDir : string)
    (sourceFile sourceDir eventType : string) (fs : gmap string node)
  : result (gmap string node) :=
  let templatePath := path_join lambdaDir "template.yaml" in
  template ← readTemplate lambdaDir fs;
  updated ← mergeGeckoMetadata (iso now) sourceFile sourceDir eventType template;
  Fs.writeYaml now templatePath updated fs.

(** The same statements on the object graph: [template] is what
    yaml.load returned, and the assignments change the objects they
    reach *)
Definition mergeGeckoMetadata_in_place (now : string)
    (sourceFile sourceDir eventType : string) (template : Shared.document)
  : result Shared.document :=
  '(st1, template1, metadata) ←
     Shared.ensure (Shared.store template) (Shared.root template) "Metadata";
  g ← Shared.get st1 metadata "GeckoLambda";
  let existingMetadata := Shared.or g (Shared.GObj []) in
  '(st2, metadata1) ← Shared.assign st1 metadata "GeckoLambda"
     (Shared.GObj (Shared.spread_then st1 existingMetadata [
        ("sourceFile", Shared.GStr sourceFile);
        ("sourceDir", Shared.GStr sourceDir);
        ("eventType", Shared.GStr eventType);
        ("lastModified", Shared.GStr now);
        ("version", Shared.GStr "2.0") ]));
  let '(st3, template2) :=
    Shared.write_back st2 template1 "Metadata" metadata1 in
  Ok {| Shared.store := st3; Shared.root := template2 |}.

(** updateGeckoMetadata on a manifest whose text yaml.load turns into
    [loaded]: [readTemplate] tells whether the file is there and parses,
    and what is written is [yaml.dump] of the graph, with [noRefs] *)
Definition updateGeckoMetadata_in_place (now : clock) (lambdaDir : string)
    (sourceFile sourceDir eventType : string) (loaded : Shared.document)
    (fs : gmap string node) : result (gmap string node) :=
  let templatePath := path_join lambdaDir "template.yaml" in
  _ ← readTemplate lambdaDir fs;
  updated ← mergeGeckoMetadata_in_place (iso now) sourceFile sourceDir
              eventType loaded;
  updatedContent ← Shared.dump updated;
  Fs.writeYaml now templatePath updatedContent fs.

(** *** detectEventTypeFromEvents *)

(** The [switch] on the [Type] discriminator *)
Definition event_type_of (eventType : value) : string :=
  if str_eq eventType "Api" then "apigateway"
  else if str_eq eventType "S3" then "s3"
  else if str_eq eventType "DynamoDB" then "dynamodb"
  else if str_eq eventType "SQS" then "sqs"
  else "apigateway".

Definition detectEventTypeFromEvents (events : value) : result string :=
  eventKeys ← keys events;
  match eventKeys with
  | [] => Ok "apigateway"
  | k :: _ =>
      firstEvent ← get events k;
      eventType ← get firstEvent "Type";
      Ok (event_type_of eventType)
  end.

(** *** extractConfigFromTemplate *)

(** [functionResourceKey.replace(/Function$/, "")] *)
Fixpoint strip_Function (s : string) : string :=
  if String.eqb s "Function" then EmptyString
  else match s with
       | EmptyString => EmptyString
       | String c r => String c (strip_Function r)
       end.

Definition extractConfig (now : string) (lambdaDir : string)
    (fallbackSourceInfo : value) (template : value)
  : result LocalLambdaConfig :=
  m ← get template "Metadata";
  let geckoMetadata := opt_get m "GeckoLambda" in
  r0 ← get template "Resources";
  let resources := or r0 (VObj []) in
  found ← find_function resources;
  match found with
  | None => Throw MissingResource
  | Some (_, functionResourceKey, functionResource) =>
      (* [if (!functionResourceKey)]: the empty key is falsy as well *)
      if String.eqb functionResourceKey "" then Throw MissingResource
      else
      p0 ← get functionResource "Properties";
      let properties := or p0 (VObj []) in
      g0 ← get template "Globals";
      let globals := or (opt_get g0 "Function") (VObj []) in
      let functionName :=
        or (or (opt_get geckoMetadata "functionName")
               (VStr (StringUtils.toLowerCase (strip_Function functionResourceKey))))
           (VStr (path_basename lambdaDir)) in
      e0 ← get properties "Environment";
      let envVars := or (opt_get e0 "Variables") (VObj []) in
      eventType ←
        (if truthy (opt_get geckoMetadata "eventType")
         then Ok (opt_get geckoMetadata "eventType")
         else ev ← get properties "Events";
              detected ← detectEventTypeFromEvents (or ev (VObj []));
              Ok (VStr detected));
      let sourceInfo_sourceMainFile :=
        or (or (opt_get geckoMetadata "sourceFile")
               (opt_get fallbackSourceInfo "sourceMainFile")) (VStr "") in
      let sourceInfo_sourceDir :=
        or (or (opt_get geckoMetadata "sourceDir")
               (opt_get fallbackSourceInfo "sourceDir")) (VStr "") in
      let envMetadata :=
        or (opt_get geckoMetadata "environmentInfo")
           (VObj [("lastUpdated", VStr ""); ("source", VStr "manual")]) in
      env_lastUpdated ← get envMetadata "lastUpdated";
      env_source ← get envMetadata "source";
      env_awsFunctionName ← get envMetadata "awsFunctionName";
      rt_p ← get properties "Runtime";
      rt_g ← get globals "Runtime";
      archs ← get properties "Architectures";
      to_p ← get properties "Timeout";
      to_g ← get globals "Timeout";
      ms_p ← get properties "MemorySize";
      ms_g ← get globals "MemorySize";
      d0 ← get template "Description";
      Ok {|
        functionName := functionName;
        sourceMainFile := sourceInfo_sourceMainFile;
        sourceDir := sourceInfo_sourceDir;
        eventType := eventType;
        workspacePath := VStr (path_dirname lambdaDir);
        lastModified := or (opt_get geckoMetadata "lastModified") (VStr now);
        runtime :=
          or (or (or (opt_get geckoMetadata "runtime") rt_p) rt_g)
             (VStr "provided.al2023");
        architecture :=
          or (or (opt_get geckoMetadata "architecture") (opt_get archs "0"))
             (VStr "arm64");
        buildMethod := or (opt_get geckoMetadata "buildMethod") (VStr "direct");
        environment := Some {|
          variables := envVars;
          lastUpdated := env_lastUpdated;
          source := env_source;
          awsFunctionName := env_awsFunctionName |};
        template := Some {|
          timeout := or (or to_p to_g) (VNum 30);
          memorySize := or (or ms_p ms_g) (VNum 128);
          description :=
            or d0 (VStr ("Lambda function for " +:+ to_string eventType
                         +:+ " events")) |}
      |}
  end.

Definition extractConfigFromTemplate (now : clock) (lambdaDir : string)
    (fallbackSourceInfo : value) (fs : gmap string node)
  : result LocalLambdaConfig :=
  template ← readTemplate lambdaDir fs;
  extractConfig (iso now) lambdaDir fallbackSourceInfo template.

(** *** validateGeckoMetadata *)

Inductive issue :=
| Issue (text : string)
| ReadFailure (e : error).   (* `Failed to read template: ${error}` *)

Record Validation := {
  hasMetadata : bool;
  isValid : bool;
  metadata : value;
  issues : list issue;
}.

Definition missing (geckoMetadata : value) (field : string) : list issue :=
  if negb (truthy (opt_get geckoMetadata field))
  then [Issue ("Missing " +:+ field +:+ " in metadata")]
  else [].

Definition validateTemplate (template : value) : result Validation :=
  m ← get template "Metadata";
  let geckoMetadata := opt_get m "GeckoLambda" in
  if negb (truthy geckoMetadata) then
    Ok {| hasMetadata := false; isValid := false; metadata := VUndef;
          issues := [Issue "No Gecko Lambda metadata found in template.yaml"] |}
  else
    let issues :=
      (missing geckoMetadata "sourceFile" ++ missing geckoMetadata "sourceDir"
       ++ missing geckoMetadata "eventType"
       ++ missing geckoMetadata "version")%list in
    Ok {| hasMetadata := true;
          isValid := (length issues =? 0)%nat;
          metadata := geckoMetadata;
          issues := issues |}.

Definition validateGeckoMetadata (lambdaDir : string) (fs : gmap string node)
  : Validation :=
  match template ← readTemplate lambdaDir fs; validateTemplate template with
  | Ok v => v
  | Throw e =>
      {| hasMetadata := false; isValid := false; metadata := VUndef;
         issues := [ReadFailure e] |}
  end.

(** *** migrateToUnifiedSystem *)

Definition migrateToUnifiedSystem (now : clock) (lambdaDir : string)
    (sourceFile sourceDir eventType : string) (fs : gmap string node)
  : result (gmap string node) :=
  let validation := validateGeckoMetadata lambdaDir fs in
  if negb (hasMetadata validation) || negb (isValid validation)
  then updateGeckoMetadata now lambdaDir sourceFile sourceDir eventType fs
  else Ok fs.

End TemplateManager.
End TemplateManager.

(** ** utils/eventTemplates.ts *)

Module EventTemplates.

Definition templates : list (string * value) :=
  [ ("apigateway", VObj [
       ("resource", VStr "/{proxy+}");
       ("path", VStr "/hello");
       ("httpMethod", VStr "GET");
       ("headers", VObj [
          ("Accept", VStr "text/html,application/xhtml+xml,application/xml;q=0.9,*/*;q=0.8");
          ("Accept-Encoding", VStr "gzip, deflate, br");
          ("Accept-Language", VStr "en-US,en;q=0.5");
          ("Content-Type", VStr "application/json");
          ("Host", VStr "example.execute-api.us-east-1.amazonaws.com");
          ("User-Agent", VStr "Mozilla/5.0 (compatible; GeckoLambda/1.0)");
          ("X-Forwarded-For", VStr "192.0.2.1");
          ("X-Forwarded-Port", VStr "443");
          ("X-Forwarded-Proto", VStr "https") ]);
       ("multiValueHeaders", VObj []);
       ("queryStringParameters",
          VObj [("name", VStr "world"); ("test", VStr "value")]);
       ("multiValueQueryStringParameters", VObj []);
       ("pathParameters", VObj [("proxy", VStr "hello")]);
       ("stageVariables", VNull);
       ("requestContext", VObj [
          ("accountId", VStr "123456789012");
          ("apiId", VStr "1234567890");
          ("httpMethod", VStr "GET");
          ("path", VStr "/hello");
          ("stage", VStr "test");
          ("requestId", VStr "c6af9ac6-7b61-11e6-9a41-93e8deadbeef");
          ("requestTimeEpoch", VNum 1428582896000);
          ("resourceId", VStr "123456");
          ("resourcePath", VStr "/{proxy+}") ]);
       ("body", VNull);
       ("isBase64Encoded", VBool false) ]);
    ("s3", VObj [
       ("Records", VArr [ VObj [
          ("eventVersion", VStr "2.1");
          ("eventSource", VStr "aws:s3");
          ("awsRegion", VStr "us-east-1");
          ("eventTime", VStr "2021-01-01T12:00:00.000Z");
          ("eventName", VStr "ObjectCreated:Put");
          ("userIdentity", VObj [("principalId", VStr "AIDACKCEVSQ6C2EXAMPLE")]);
          ("requestParameters", VObj [("sourceIPAddress", VStr "192.0.2.3")]);
          ("responseElements", VObj [
             ("x-amz-request-id", VStr "C3D13FE58DE4C810");
             ("x-amz-id-2",
                VStr "FMyUVURIY8/IgAtTv8xRjskZQpcIZ9KG4V5Wp6S7S/JRWeUWerMUE5JgHvANOjpD") ]);
          ("s3", VObj [
             ("s3SchemaVersion", VStr "1.0");
             ("configurationId", VStr "testConfigRule");
             ("bucket", VObj [
                ("name", VStr "example-bucket");
                ("ownerIdentity",
                   VObj [("principalId", VStr "AIDACKCEVSQ6C2EXAMPLE")]);
                ("arn", VStr "arn:aws:s3:::example-bucket") ]);
             ("object", VObj [
                ("key", VStr "uploads/test-file.jpg");
                ("size", VNum 1024);
                ("eTag", VStr "d41d8cd98f00b204e9800998ecf8427e");
                ("sequencer", VStr "0055AED6DCD90281E5") ]) ]) ] ]) ]);
    ("dynamodb", VObj [
       ("Records", VArr [ VObj [
          ("eventID", VStr "1");
          ("eventVersion", VStr "1.0");
          ("dynamodb", VObj [
             ("Keys", VObj [("Id", VObj [("N", VStr "101")])]);
             ("NewImage", VObj [
                ("Message", VObj [("S", VStr "New item!")]);
                ("Id", VObj [("N", VStr "101")]) ]);
             ("StreamViewType", VStr "NEW_AND_OLD_IMAGES");
             ("SequenceNumber", VStr "111");
             ("SizeBytes", VNum 26) ]);
          ("awsRegion", VStr "us-west-2");
          ("eventName", VStr "INSERT");
          ("eventSourceARN",
             VStr "arn:aws:dynamodb:us-west-2:account-id:table/ExampleTableWithStream/stream/2015-06-27T00:48:05.899");
          ("eventSource", VStr "aws:dynamodb") ] ]) ]);
    ("sqs", VObj [
       ("Records", VArr [ VObj [
          ("messageId", VStr "19dd0b57-b21e-4ac1-bd88-01bbb068cb78");
          ("receiptHandle", VStr "MessageReceiptHandle");
          ("body", VStr "Hello from SQS!");
          ("attributes", VObj [
             ("ApproximateReceiveCount", VStr "1");
             ("SentTimestamp", VStr "1523232000000");
             ("SenderId", VStr "123456789012");
             ("ApproximateFirstReceiveTimestamp", VStr "1523232000001") ]);
          ("messageAttributes", VObj []);
          ("md5OfBody", VStr "7b270e59b47ff90a553787216d55d91d");
          ("eventSource", VStr "aws:sqs");
          ("eventSourceARN", VStr "arn:aws:sqs:us-east-1:123456789012:MyQueue");
          ("awsRegion", VStr "us-east-1") ] ]) ]) ].

(** [templates[eventType] || templates.apigateway]. A name that
    [templates] inherits from Object.prototype finds a function there
    ([None]: JSON.stringify has no text for it), [__proto__] finds the
    prototype itself, an object without own properties. *)
Definition getTemplate (eventType : value) : option value :=
  let key := to_string eventType in
  if existsb (String.eqb key) TemplateManager.prototype_functions then None
  else if String.eqb key "__proto__" then Some (VObj [])
  else Some (or (lookup_field key templates)
                (lookup_field "apigateway" templates)).

End EventTemplates.

(** ** utils/configManager.ts *)

Module ConfigManager.
Section ConfigManager.
Context `{Path}.

(** *** detectEventTypeFromTemplate *)

Definition detectEventType_body (template : value) : result string :=
  r0 ← get template "Resources";
  let resources := or r0 (VObj []) in
  found ← TemplateManager.find_function resources;
  match found with
  | Some (_, _, functionResource) =>
      p ← get functionResource "Properties";
      let events := opt_get p "Events" in
      if truthy events then
        eventKeys ← keys events;
        if (0 <? length eventKeys)%nat then
          firstEvent ← get events (default "" (head eventKeys));
          eventType ← get firstEvent "Type";
          Ok (TemplateManager.event_type_of eventType)
        else Ok "apigateway"
      else Ok "apigateway"
  | None => Ok "apigateway"
  end.

Definition detectEventTypeFromTemplate (template : value) : string :=
  match detectEventType_body template with
  | Ok t => t
  | Throw _ => "apigateway"
  end.

(** *** updateGeckoMetadata: the block is written anew

    The [catch] rethrows with a longer message: the [error] is the one
    caught. The document is a tree, as in TemplateManager;
    [updateGeckoMetadata_in_place] is the same code on the object graph. *)

Definition replaceGeckoMetadata (now : string)
    (sourceFile sourceDir eventType : string) (template : value)
  : result value :=
  '(template1, metadata) ← TemplateManager.ensure template "Metadata";
  metadata1 ← set metadata "GeckoLambda" (VObj [
    ("sourceFile", VStr sourceFile);
    ("sourceDir", VStr sourceDir);
    ("eventType", VStr eventType);
    ("lastModified", VStr now);
    ("version", VStr "2.0") ]);
  Ok (TemplateManager.write_back template1 "Metadata" metadata1).

Definition updateGeckoMetadata (now : clock) (lambdaDir : string)
    (sourceFile sourceDir eventType : string) (fs : gmap string node)
  : result (gmap string node) :=
  let templatePath := path_join lambdaDir "template.yaml" in
  template ← TemplateManager.readTemplate lambdaDir fs;
  updated ← replaceGeckoMetadata (iso now) sourceFile sourceDir eventType template;
  Fs.writeYaml now templatePath updated fs.

(** The same statements on the object graph that yaml.load returned *)
Definition replaceGeckoMetadata_in_place (now : string)
    (sourceFile sourceDir eventType : string) (template : Shared.document)
  : result Shared.document :=
  '(st1, template1, metadata) ←
     Shared.ensure (Shared.store template) (Shared.root template) "Metadata";
  '(st2, metadata1) ← Shared.assign st1 metadata "GeckoLambda"
     (Shared.GObj [
        ("sourceFile", Shared.GStr sourceFile);
        ("sourceDir", Shared.GStr sourceDir);
        ("eventType", Shared.GStr eventType);
        ("lastModified", Shared.GStr now);
        ("version", Shared.GStr "2.0") ]);
  let '(st3, template2) :=
    Shared.write_back st2 template1 "Metadata" metadata1 in
  Ok {| Shared.store := st3; Shared.root := template2 |}.

(** updateGeckoMetadata on a manifest whose text yaml.load turns into
    [loaded] *)
Definition updateGeckoMetadata_in_place (now : clock) (lambdaDir : string)
    (sourceFile sourceDir eventType : string) (loaded : Shared.document)
    (fs : gmap string node) : result (gmap string node) :=
  let templatePath := path_join lambdaDir "template.yaml" in
  _ ← TemplateManager.readTemplate lambdaDir fs;
  updated ← replaceGeckoMetadata_in_place (iso now) sourceFile sourceDir
              eventType loaded;
  updatedContent ← Shared.dump updated;
  Fs.writeYaml now templatePath updatedContent fs.

(** *** validateUnifiedTemplate *)

Record UnifiedValidation := {
  exists_ : bool;
  hasMetadata : bool;
  metadata : value;
}.

Definition validateUnifiedTemplate (lambdaDir : string)
    (fs : gmap string node) : UnifiedValidation :=
  let templatePath := path_join lambdaDir "template.yaml" in
  if negb (Fs.existsSync fs templatePath) then
    {| exists_ := false; hasMetadata := false; metadata := VUndef |}
  else
    match template ← TemplateManager.readTemplate lambdaDir fs;
          get template "Metadata" with
    | Ok m =>
        let geckoMetadata := opt_get m "GeckoLambda" in
        {| exists_ := true; hasMetadata := truthy geckoMetadata;
           metadata := geckoMetadata |}
    | Throw _ =>
        {| exists_ := true; hasMetadata := false; metadata := VUndef |}
    end.

(** *** repairTemplate *)

Definition repairTemplate (now : clock) (lambdaDir : string)
    (sourceFile sourceDir eventType : string) (fs : gmap string node)
  : result (gmap string node) :=
  let validation := validateUnifiedTemplate lambdaDir fs in
  if exists_ validation && negb (hasMetadata validation) then
    updateGeckoMetadata now lambdaDir sourceFile sourceDir eventType fs
  else if negb (exists_ validation) then Throw NotFound
  else Ok fs.

(** *** cleanupGlobalConfig *)

Definition GLOBAL_CONFIG : string := ".gecko-lambda-config.json".
Definition GLOBAL_CONFIG_BACKUP : string := ".gecko-lambda-config.json.backup".

Definition cleanupGlobalConfig (workspacePath : string)
    (fs : gmap string node) : gmap string node :=
  let globalConfigPath := path_join workspacePath GLOBAL_CONFIG in
  if Fs.existsSync fs globalConfigPath then
    let backupPath := path_join workspacePath GLOBAL_CONFIG_BACKUP in
    match Fs.renameSync globalConfigPath backupPath fs with
    | Ok fs' => fs'
    | Throw _ => fs      (* logged *)
    end
  else fs.

(** *** getAllLambdaDirectories *)

Definition getAllLambdaDirectories (workspacePath : string)
    (fs : gmap string node) : list string :=
  if negb (Fs.existsSync fs workspacePath) then []
  else
    match Fs.readdirSync fs workspacePath with
    | Ok dirents =>
        map fst (List.filter (fun dirent =>
          if negb (snd dirent) then false
          else Fs.existsSync fs
                 (path_join (path_join workspacePath (fst dirent)) "template.yaml"))
          dirents)
    | Throw _ => []
    end.

(** *** readLocalConfig *)

Definition inferSourceInfoFromTemplate (lambdaDir : string) (template : value)
  : value :=
  let functionName := path_basename lambdaDir in
  let workspacePath := path_dirname lambdaDir in
  let eventType := detectEventTypeFromTemplate template in
  VObj [ ("functionName", VStr functionName);
         ("sourceMainFile", VStr "");
         ("sourceDir", VStr "");
         ("eventType", VStr eventType);
         ("workspacePath", VStr workspacePath) ].

(** The [catch] rethrows with a longer message: the [error] is the one
    caught. *)
Definition extractSourceInfoFromTemplate (lambdaDir : string)
    (fs : gmap string node) : result value :=
  template ← TemplateManager.readTemplate lambdaDir fs;
  let functionName := path_basename lambdaDir in
  m ← get template "Metadata";
  let geckoMetadata := opt_get m "GeckoLambda" in
  if truthy geckoMetadata then
    sourceFile ← get geckoMetadata "sourceFile";
    sourceDir ← get geckoMetadata "sourceDir";
    eventType ← get geckoMetadata "eventType";
    Ok (VObj [ ("functionName", VStr functionName);
               ("sourceMainFile", or sourceFile (VStr ""));
               ("sourceDir", or sourceDir (VStr ""));
               ("eventType", or eventType (VStr "apigateway"));
               ("workspacePath", VStr (path_dirname lambdaDir)) ])
  else Ok (inferSourceInfoFromTemplate lambdaDir template).

(** readLocalConfig throws an error of its own when the manifest is
    missing ([NotFound] here, the kind that TemplateManager.readTemplate
    throws for the same reason, under another message) and wraps any
    other failure in a new Error (the [error] wrapped, here). What it
    throws is therefore not what TemplateManager throws; the
    configuration it returns is. *)
Definition readLocalConfig (now : clock) (lambdaDir : string)
    (fs : gmap string node) : result LocalLambdaConfig :=
  let templatePath := path_join lambdaDir "template.yaml" in
  if negb (Fs.existsSync fs templatePath) then Throw NotFound
  else
    sourceInfo ← extractSourceInfoFromTemplate lambdaDir fs;
    TemplateManager.extractConfigFromTemplate now lambdaDir sourceInfo fs.

(** *** createEventFile *)

Definition createEventFile (now : clock) (eventFilePath : string)
    (eventType : value) (fs : gmap string node) : result (gmap string node) :=
  match EventTemplates.getTemplate eventType with
  | Some eventTemplate => Fs.writeJson now eventFilePath eventTemplate fs
  | None => Throw TypeError   (* writeFileSync is given undefined *)
  end.

(** *** updateEnvironmentVariables: write, then read back

    [now] is the clock when the manifest is written, [later] when it is
    read back. *)
Definition updateEnvironmentVariables (now later : clock) (lambdaDir : string)
    (environment : list (string * value)) (awsFunctionName : option string)
  : io LocalLambdaConfig :=
  modify (TemplateManager.updateEnvironmentVariables now lambdaDir
            environment awsFunctionName);;
  updatedConfig ← inspect (readLocalConfig later lambdaDir);
  attempt updatedConfig.

(** *** repairTemplate, as a caller without static types reaches it

    The three arguments are declared strings; a caller that passes
    fields read from a manifest passes whatever the manifest held.
    yaml.dump leaves out a key whose value is undefined. *)
Definition replaceGeckoMetadata_of (now : string)
    (sourceFile sourceDir eventType : value) (template : value)
  : result value :=
  '(template1, metadata) ← TemplateManager.ensure template "Metadata";
  metadata1 ← set metadata "GeckoLambda" (VObj (dumped [
    ("sourceFile", sourceFile);
    ("sourceDir", sourceDir);
    ("eventType", eventType);
    ("lastModified", VStr now);
    ("version", VStr "2.0") ]));
  Ok (TemplateManager.write_back template1 "Metadata" metadata1).

Definition updateGeckoMetadata_of (now : clock) (lambdaDir : string)
    (sourceFile sourceDir eventType : value) (fs : gmap string node)
  : result (gmap string node) :=
  let templatePath := path_join lambdaDir "template.yaml" in
  template ← TemplateManager.readTemplate lambdaDir fs;
  updated ← replaceGeckoMetadata_of (iso now) sourceFile sourceDir eventType
              template;
  Fs.writeYaml now templatePath updated fs.

Definition repairTemplate_of (now : clock) (lambdaDir : string)
    (sourceFile sourceDir eventType : value) (fs : gmap string node)
  : result (gmap string node) :=
  let validation := validateUnifiedTemplate lambdaDir fs in
  if exists_ validation
     && negb (hasMetadata validation) then
    updateGeckoMetadata_of now lambdaDir sourceFile sourceDir eventType fs
  else if negb (exists_ validation) then Throw NotFound
  else Ok fs.

(** *** cleanupConfigJson *)

Definition cleanupConfigJson (lambdaDir : string) (fs : gmap string node)
  : gmap string node :=
  let configPath := path_join lambdaDir "config.json" in
  if Fs.existsSync fs configPath then
    match Fs.unlinkSync configPath fs with
    | Ok fs' => fs'
    | Throw _ => fs      (* logged *)
    end
  else fs.

End ConfigManager.
End ConfigManager.

(** ** utils/buildUtils.ts *)

Module BuildUtils.
Section BuildUtils.
Context `{Path}.

(** [fs.existsSync(x)] on a run-time value: false on anything that is
    not a path *)
Definition existsSync_value (fs : gmap string node) (x : value) : bool :=
  match x with VStr p => Fs.existsSync fs p | _ => false end.

Definition statSync_value (fs : gmap string node) (x : value) : result Z :=
  match x with VStr p => Fs.statSync fs p | _ => Throw TypeError end.

Definition needsRebuild_body (localConfig : LocalLambdaConfig)
    (lambdaDir : string) (fs : gmap string node) : result bool :=
  if negb (truthy (sourceMainFile localConfig))
     || negb (existsSync_value fs (sourceMainFile localConfig))
  then Ok true
  else
    sourceStats ← statSync_value fs (sourceMainFile localConfig);
    let buildDir := path_join lambdaDir "build" in
    if negb (Fs.existsSync fs buildDir) then Ok true
    else
      let binaryPath := path_join buildDir "bootstrap" in
      if negb (Fs.existsSync fs binaryPath) then Ok true
      else
        binaryStats ← Fs.statSync fs binaryPath;
        let templatePath := path_join lambdaDir "template.yaml" in
        newer ←
          (if Fs.existsSync fs templatePath then
             templateStats ← Fs.statSync fs templatePath;
             Ok (binaryStats <? templateStats)%Z
           else Ok false);
        if (newer : bool) then Ok true
        else Ok (binaryStats <? sourceStats)%Z.

(** The [catch] arm: any error means a rebuild is needed *)
Definition needsRebuild (localConfig : LocalLambdaConfig)
    (lambdaDir : string) (fs : gmap string node) : bool :=
  match needsRebuild_body localConfig lambdaDir fs with
  | Ok b => b
  | Throw _ => true
  end.

End BuildUtils.
End BuildUtils.

(** ** detector.ts *)

Module LambdaDetector.

Record LambdaConfig := {
  functionName : string;
  workspacePath : string;
  eventType : value;
  lastModified : value;
  sourceFile : value;
  sourceDir : value;
}.

Inductive log_entry :=
| Log (message : string)
| LogError (message : string) (e : error).

Section LambdaDetector.
Context `{Path}.

(** [readdirSync(...).filter(d => d.isDirectory()).map(d => d.name)] *)
Definition directory_names (dirents : list (string * bool)) : list string :=
  map fst (List.filter snd dirents).

(** *** getConfiguration *)

(** The body of the inner [try], for one directory that has a
    template.yaml: the configuration to return, if this manifest claims
    [sourceFile] *)
Definition claim (now : string) (workspacePath sourceFile lambdaDir : string)
    (fs : gmap string node) : result (option LambdaConfig) :=
  let lambdaDirPath := path_join workspacePath lambdaDir in
  let templatePath := path_join lambdaDirPath "template.yaml" in
  template ← Fs.readYaml fs templatePath;
  m ← get template "Metadata";
  let metadata := opt_get m "GeckoLambda" in
  if truthy metadata && str_eq (opt_get metadata "sourceFile") sourceFile then
    Ok (Some {|
      functionName := lambdaDir;
      workspacePath := workspacePath;
      eventType := or (opt_get metadata "eventType") (VStr "apigateway");
      lastModified := or (opt_get metadata "lastModified") (VStr now);
      sourceFile := VStr sourceFile;
      sourceDir :=
        or (opt_get metadata "sourceDir") (VStr (path_dirname sourceFile)) |})
  else Ok None.

Fixpoint scan_for (now : string) (workspacePath sourceFile : string)
    (fs : gmap string node) (lambdaDirs : list string) : option LambdaConfig :=
  match lambdaDirs with
  | [] => None
  | lambdaDir :: rest =>
      let templatePath :=
        path_join (path_join workspacePath lambdaDir) "template.yaml" in
      if Fs.existsSync fs templatePath then
        match claim now workspacePath sourceFile lambdaDir fs with
        | Ok (Some config) => Some config
        | Ok None => scan_for now workspacePath sourceFile fs rest
        | Throw _ => scan_for now workspacePath sourceFile fs rest  (* logged *)
        end
      else scan_for now workspacePath sourceFile fs rest
  end.

(** [workspacePath] is the value of [getGlobalWorkspacePath()],
    [sourceFile] is [documentUri.fsPath]. *)
Definition getConfiguration (now : clock) (workspacePath sourceFile : string)
    (fs : gmap string node) : option LambdaConfig :=
  if negb (Fs.existsSync fs workspacePath) then None
  else
    match Fs.readdirSync fs workspacePath with
    | Ok dirents =>
        scan_for (iso now) workspacePath sourceFile fs (directory_names dirents)
    | Throw _ => None
    end.

Definition isConfigured (now : clock) (workspacePath sourceFile : string)
    (fs : gmap string node) : bool :=
  bool_decide (is_Some (getConfiguration now workspacePath sourceFile fs)).

(** *** getAllLambdaFunctions *)

(** The body of the inner [try] for one directory that has a
    template.yaml: the entry pushed, if any, and what is logged *)
Definition describe (now : string) (workspacePath lambdaDir : string)
    (fs : gmap string node) : result (option LambdaConfig) :=
  let lambdaDirPath := path_join workspacePath lambdaDir in
  let templatePath := path_join lambdaDirPath "template.yaml" in
  template ← Fs.readYaml fs templatePath;
  m ← get template "Metadata";
  let metadata := opt_get m "GeckoLambda" in
  if truthy metadata then
    Ok (Some {|
      functionName := lambdaDir;
      workspacePath := workspacePath;
      eventType := or (opt_get metadata "eventType") (VStr "apigateway");
      lastModified := or (opt_get metadata "lastModified") (VStr now);
      sourceFile := or (opt_get metadata "sourceFile") (VStr "");
      sourceDir := or (opt_get metadata "sourceDir") (VStr "") |})
  else Ok None.

Fixpoint collect (now : string) (workspacePath : string)
    (fs : gmap string node) (lambdaDirs : list string)
  : list LambdaConfig * list log_entry :=
  match lambdaDirs with
  | [] => ([], [])
  | lambdaDir :: rest =>
      let '(configs, logs) := collect now workspacePath fs rest in
      let templatePath :=
        path_join (path_join workspacePath lambdaDir) "template.yaml" in
      if Fs.existsSync fs templatePath then
        match describe now workspacePath lambdaDir fs with
        | Ok (Some config) => (config :: configs, logs)
        | Ok None =>
            (configs,
             Log ("No Gecko metadata found in " +:+ lambdaDir +:+ ", skipping")
             :: logs)
        | Throw e =>
            (configs,
             LogError ("Could not parse template.yaml in " +:+ lambdaDir) e
             :: logs)
        end
      else (configs, logs)
  end.

Definition getAllLambdaFunctions_log (now : clock) (workspacePath : string)
    (fs : gmap string node) : list LambdaConfig * list log_entry :=
  if negb (Fs.existsSync fs workspacePath) then ([], [])
  else
    match Fs.readdirSync fs workspacePath with
    | Ok dirents =>
        collect (iso now) workspacePath fs (directory_names dirents)
    | Throw e => ([], [LogError "Error getting all lambda functions" e])
    end.

Definition getAllLambdaFunctions (now : clock) (workspacePath : string)
    (fs : gmap string node) : list LambdaConfig :=
  fst (getAllLambdaFunctions_log now workspacePath fs).

(** *** migrateFromGlobalConfig: the body is empty *)

Definition migrateFromGlobalConfig (workspacePath : string)
    (fs : gmap string node) : gmap string node := fs.

End LambdaDetector.

(** *** isLambdaFile, detectEventType *)

(** What the detector reads of a [vscode.TextDocument]; [fileName] is
    also [document.uri.fsPath]. *)
Record TextDocument := {
  fileName : string;
  languageId : string;
  getText : string;
}.

Definition double_quote : string := String (ascii_of_nat 34) EmptyString.

Definition LAMBDA_IMPORT_PATTERNS : list string :=
  [ "github.com/aws/aws-lambda-go/lambda";
    double_quote +:+ "github.com/aws/aws-lambda-go/lambda" +:+ double_quote;
    "`github.com/aws/aws-lambda-go/lambda`" ].

Definition hasLambdaImport (content : string) : bool :=
  existsb (λ pattern, includes content pattern) LAMBDA_IMPORT_PATTERNS.

(** The patterns are literal texts ([\.] is a dot) *)
Definition eventTypePatterns : list (string * string) :=
  [ ("events.APIGatewayProxyRequest", "apigateway");
    ("events.S3Event", "s3");
    ("events.DynamoDBEvent", "dynamodb");
    ("events.SQSEvent", "sqs") ].

Definition detectEventType (content : string) : option string :=
  snd <$> List.find (λ entry, includes content (fst entry)) eventTypePatterns.

(** *** getFunctionNameFromPath

    [str.replace(/[^...]/g, "-")] *)
Fixpoint replace_chars (keep : ascii → bool) (by_ : ascii) (s : string)
  : string :=
  match s with
  | EmptyString => EmptyString
  | String c r =>
      String (if keep c then c else by_) (replace_chars keep by_ r)
  end.

(** [str.replace(/^-+|-+$/g, "")]: the run of hyphens at the start goes,
    then the run at the end *)
Fixpoint strip_leading (c : ascii) (s : string) : string :=
  match s with
  | String x r => if Ascii.eqb x c then strip_leading c r else s
  | EmptyString => EmptyString
  end.

Fixpoint strip_trailing (c : ascii) (s : string) : string :=
  match s with
  | EmptyString => EmptyString
  | String x r =>
      match strip_trailing c r with
      | EmptyString =>
          if Ascii.eqb x c then EmptyString else String x EmptyString
      | r' => String x r'
      end
  end.

Definition sanitizeFunctionName (name : string) : string :=
  let sanitized :=
    StringUtils.toLowerCase
      (strip_trailing "-"
         (strip_leading "-"
            (replace_chars StringUtils.is_name_char "-" name))) in
  if String.eqb sanitized "" then "lambda-function" else sanitized.

Section Detection.
Context `{Path}.

Definition isLambdaFile (document : TextDocument) : bool :=
  let fileName := path_basename (fileName document) in
  let isGoFile := String.eqb (languageId document) "go" in
  let isMainGo := String.eqb fileName "main.go" in
  if negb isGoFile || negb isMainGo then false
  else hasLambdaImport (getText document).

(** [fsPath] is [documentUri.fsPath] *)
Definition getFunctionNameFromPath (fsPath : string) : string :=
  let sourceDir := path_dirname fsPath in
  let currentFolder := path_basename sourceDir in
  if String.eqb currentFolder "cmd" then
    let parentFolder := path_basename (path_dirname sourceDir) in
    sanitizeFunctionName parentFolder
  else sanitizeFunctionName currentFolder.

(** *** saveConfiguration *)

(** The document that is written: the one found, or an empty one, with
    its private metadata block replaced. The document is a tree: the
    assignment is the one of ConfigManager.updateGeckoMetadata, and like
    it shows at every place of a Metadata that is shared through an anchor
    and its aliases, which a tree does not tell ([Shared]). *)
Definition withConfiguration (config : LambdaConfig)
    (template : value) : result value :=
  '(template1, metadata) ← TemplateManager.ensure template "Metadata";
  metadata1 ← set metadata "GeckoLambda" (VObj (dumped [
    ("sourceFile", sourceFile config);
    ("sourceDir", sourceDir config);
    ("eventType", eventType config);
    ("lastModified", lastModified config);
    ("version", VStr "2.0") ]));
  Ok (TemplateManager.write_back template1 "Metadata" metadata1).

Definition saveConfiguration (now : clock)
    (config : LambdaConfig) : io unit :=
  let lambdaDir :=
    path_join (workspacePath config)
      (functionName config) in
  let templatePath := path_join lambdaDir "template.yaml" in
  lambdaDirExists ← inspect (λ fs, Fs.existsSync fs lambdaDir);
  (if negb lambdaDirExists then modify (Fs.mkdirSync now lambdaDir)
   else mret tt);;
  templateExists ← inspect (λ fs, Fs.existsSync fs templatePath);
  template ←
    (if (templateExists : bool) then
       parsed ← inspect (λ fs, Fs.readYaml fs templatePath);
       mret (match parsed with
             | Ok template => template
             | Throw _ => VObj []     (* logged *)
             end)
     else mret (VObj []));
  updated ← attempt (withConfiguration config template);
  modify (Fs.writeYaml now templatePath updated).

End Detection.

End LambdaDetector.

(** ** extension.ts *)

Module Extension.
Section Extension.
Context `{Path}.

Definition performUnifiedSystemMigration (force : bool)
    (workspacePath : string) (fs : gmap string node) : gmap string node :=
  let globalConfigExists :=
    Fs.existsSync fs (path_join workspacePath ConfigManager.GLOBAL_CONFIG) in
  if globalConfigExists || force then
    ConfigManager.cleanupGlobalConfig workspacePath
      (LambdaDetector.migrateFromGlobalConfig workspacePath fs)
  else fs.


(** *** validateUnifiedSystem, repairAllTemplates, repairCurrentTemplate *)

(** What validateUnifiedSystem shows: the counts and the issues make the
    text of the message; a warning offers "Repair All". *)
Inductive validation_report :=
| NoFunctions
| AllValid (validCount : nat)
| SomeInvalid (validCount invalidCount : nat) (issues : list string).

(** How repairCurrentTemplate ends *)
Inductive repair_outcome :=
| NoActiveEditor
| NotALambdaFile
| NotConfigured
| Repaired
| RepairFailed (e : error).

(** *** validateUnifiedSystem *)

Fixpoint validateAll (workspacePath : string) (fs : gmap string node)
    (lambdaDirs : list string) : nat * nat * list string :=
  match lambdaDirs with
  | [] => (0%nat, 0%nat, [])
  | lambdaDir :: rest =>
      let lambdaDirPath := path_join workspacePath lambdaDir in
      let validation := ConfigManager.validateUnifiedTemplate lambdaDirPath fs in
      let '(validCount, invalidCount, issues) :=
        validateAll workspacePath fs rest in
      if ConfigManager.exists_ validation && ConfigManager.hasMetadata validation
      then (S validCount, invalidCount, issues)
      else (validCount, S invalidCount,
            (lambdaDir +:+ ": Missing or invalid Gecko metadata") :: issues)
  end.

Definition validateUnifiedSystem (workspacePath : string)
    (fs : gmap string node) : validation_report :=
  let lambdaDirs := ConfigManager.getAllLambdaDirectories workspacePath fs in
  if (length lambdaDirs =? 0)%nat then NoFunctions
  else
    let '(validCount, invalidCount, issues) :=
      validateAll workspacePath fs lambdaDirs in
    if (0 <? invalidCount)%nat then SomeInvalid validCount invalidCount issues
    else AllValid validCount.

(** *** repairAllTemplates

    [now lambdaDir] is the clock when the manifest of [lambdaDir] is
    rewritten. The result is the file system and [repairedCount]. *)
Fixpoint repairEach (now : string → clock) (workspacePath : string)
    (lambdaDirs : list string) (repairedCount : nat) (fs : gmap string node)
  : gmap string node * nat :=
  match lambdaDirs with
  | [] => (fs, repairedCount)
  | lambdaDir :: rest =>
      let lambdaDirPath := path_join workspacePath lambdaDir in
      let validation := ConfigManager.validateUnifiedTemplate lambdaDirPath fs in
      if ConfigManager.exists_ validation
         && negb (ConfigManager.hasMetadata validation)
      then
        match ConfigManager.repairTemplate (now lambdaDir) lambdaDirPath
                "" "" "apigateway" fs with
        | Ok fs' => repairEach now workspacePath rest (S repairedCount) fs'
        | Throw _ => repairEach now workspacePath rest repairedCount fs  (* logged *)
        end
      else repairEach now workspacePath rest repairedCount fs
  end.

Definition repairAllTemplates (now : string → clock) (workspacePath : string)
    (fs : gmap string node) : gmap string node * nat :=
  let lambdaDirs := ConfigManager.getAllLambdaDirectories workspacePath fs in
  repairEach now workspacePath lambdaDirs 0 fs.

(** *** repairCurrentTemplate

    [activeEditor] is the document of [vscode.window.activeTextEditor],
    if there is one. *)
Definition repairCurrentTemplate (now : clock) (workspacePath : string)
    (activeEditor : option LambdaDetector.TextDocument)
    (fs : gmap string node) : gmap string node * repair_outcome :=
  match activeEditor with
  | None => (fs, NoActiveEditor)
  | Some document =>
      if negb (LambdaDetector.isLambdaFile document) then (fs, NotALambdaFile)
      else
        match LambdaDetector.getConfiguration now workspacePath
                (LambdaDetector.fileName document) fs with
        | None => (fs, NotConfigured)
        | Some config =>
            let lambdaDir :=
              path_join (LambdaDetector.workspacePath config)
                (LambdaDetector.functionName config) in
            match ConfigManager.repairTemplate_of now lambdaDir
                    (LambdaDetector.sourceFile config)
                    (LambdaDetector.sourceDir config)
                    (LambdaDetector.eventType config) fs with
            | Ok fs' => (fs', Repaired)
            | Throw e => (fs, RepairFailed e)    (* logged *)
            end
        end
  end.

End Extension.
End Extension.

(** ** commands/configCommand.ts *)

Module ConfigCommand.

(** The [validateInput] of the input box for the function name: the
    message shown, or nothing when the input is accepted *)
Definition validateInput (value : string) : option string :=
  if String.eqb value ""
     || negb (StringUtils.one_or_more StringUtils.is_name_char (trim value))
  then Some "Function name can only contain letters, numbers, hyphens, and underscores"
  else None.

Section ConfigCommand.
Context `{Path}.

(** *** createLambdaConfiguration *)

(** The [localConfig] that createLambdaConfiguration passes on *)
Definition localConfig (config : LambdaDetector.LambdaConfig)
    (architecture : string) : LocalLambdaConfig :=
  {| functionName := VStr (LambdaDetector.functionName config);
     sourceMainFile := LambdaDetector.sourceFile config;
     sourceDir := LambdaDetector.sourceDir config;
     eventType := LambdaDetector.eventType config;
     workspacePath := VStr (LambdaDetector.workspacePath config);
     lastModified := LambdaDetector.lastModified config;
     runtime := VStr "provided.al2023";
     architecture := VStr architecture;
     buildMethod := VStr "direct";
     environment := Some {| variables := VObj []; lastUpdated := VStr "";
                            source := VStr "manual";
                            awsFunctionName := VUndef |};
     template := Some {|
       timeout := VNum 30; memorySize := VNum 128;
       description :=
         VStr ("Lambda function for "
               +:+ to_string (LambdaDetector.eventType config)
               +:+ " events") |} |}.

(** [now n] is the [n]-th reading of the clock. *)
Definition createLambdaConfiguration (now : nat → clock)
    (config : LambdaDetector.LambdaConfig) (architecture : string) : io unit :=
  LambdaDetector.saveConfiguration (now 0%nat) config;;
  let lambdaDir :=
    path_join (LambdaDetector.workspacePath config)
      (LambdaDetector.functionName config) in
  lambdaDirExists ← inspect (λ fs, Fs.existsSync fs lambdaDir);
  (if negb lambdaDirExists then modify (Fs.mkdirSync (now 0%nat) lambdaDir)
   else mret tt);;
  modify (TemplateManager.createTemplate (now 1%nat) lambdaDir
            (localConfig config architecture));;
  modify (λ fs, Ok (ConfigManager.cleanupConfigJson lambdaDir fs));;
  (if negb (str_eq (LambdaDetector.eventType config) "apigateway") then
     modify (ConfigManager.createEventFile (now 2%nat)
               (path_join lambdaDir "event.json")
               (LambdaDetector.eventType config))
   else mret tt);;
  let buildDir := path_join lambdaDir "build" in
  buildDirExists ← inspect (λ fs, Fs.existsSync fs buildDir);
  if negb buildDirExists then modify (Fs.mkdirSync (now 3%nat) buildDir)
  else mret tt.

End ConfigCommand.
End ConfigCommand.

(** ** commands/runCommand.ts *)

Module RunCommand.
Section RunCommand.
Context `{Path}.

(** *** createLambdaStructure *)

(** The [localConfig] that createLambdaStructure passes on *)
Definition localConfig (config : LambdaDetector.LambdaConfig)
  : LocalLambdaConfig :=
  {| functionName := VStr (LambdaDetector.functionName config);
     sourceMainFile := LambdaDetector.sourceFile config;
     sourceDir := LambdaDetector.sourceDir config;
     eventType := LambdaDetector.eventType config;
     workspacePath := VUndef;
     lastModified := VUndef;
     runtime := VUndef;
     architecture := VStr "arm64";
     buildMethod := VUndef;
     environment := None;
     template := None |}.

Definition createLambdaStructure (now : nat → clock)
    (config : LambdaDetector.LambdaConfig) : io unit :=
  LambdaDetector.saveConfiguration (now 0%nat) config;;
  let lambdaDir :=
    path_join (LambdaDetector.workspacePath config)
      (LambdaDetector.functionName config) in
  lambdaDirExists ← inspect (λ fs, Fs.existsSync fs lambdaDir);
  (if negb lambdaDirExists then modify (Fs.mkdirSync (now 0%nat) lambdaDir)
   else mret tt);;
  modify (TemplateManager.createTemplate (now 1%nat) lambdaDir
            (localConfig config));;
  (if negb (str_eq (LambdaDetector.eventType config) "apigateway") then
     modify (ConfigManager.createEventFile (now 2%nat)
               (path_join lambdaDir "event.json")
               (LambdaDetector.eventType config))
   else mret tt);;
  let buildDir := path_join lambdaDir "build" in
  buildDirExists ← inspect (λ fs, Fs.existsSync fs buildDir);
  if negb buildDirExists then modify (Fs.mkdirSync_plain (now 3%nat) buildDir)
  else mret tt.

(** *** runWithSAMInvoke: the command line *)

Definition samInvokeCommand (localConfig : LocalLambdaConfig)
    (eventFilePath : string) : result string :=
  match functionName localConfig with
  | VStr name =>
      let functionName := StringUtils.toPascalCase name +:+ "Function" in
      Ok ("sam local invoke " +:+ LambdaDetector.double_quote +:+ functionName
          +:+ LambdaDetector.double_quote +:+ " --event "
          +:+ LambdaDetector.double_quote +:+ eventFilePath
          +:+ LambdaDetector.double_quote)
  | _ => Throw TypeError   (* str.replace is not a function *)
  end.

End RunCommand.
End RunCommand.

(** * Properties *)

(** A sample [Path] for closed examples: POSIX paths that are already
    normalised (no trailing slash, no dot segments). *)
Module Posix.

Fixpoint has_slash (s : string) : bool :=
  match s with
  | EmptyString => false
  | String c r => Ascii.eqb c "/" || has_slash r
  end.

Fixpoint basename (s : string) : string :=
  match s with
  | EmptyString => EmptyString
  | String c r =>
      if has_slash r then basename r
      else if Ascii.eqb c "/" then r else s
  end.

Fixpoint dirname (s : string) : string :=
  match s with
  | EmptyString => EmptyString
  | String c r => if has_slash r then String c (dirname r) else EmptyString
  end.

Definition join (a b : string) : string := a +:+ "/" +:+ b.

#[global] Instance path : Path :=
  {| path_join := join; path_dirname := dirname; path_basename := basename |}.

End Posix.

(** ** Vocabulary of the statements

    The notions the properties are stated with, read off the
    specification: what a manifest claims, what a write must leave
    alone, what a view is once its timestamp is forgotten. *)

Section Vocabulary.
Context `{Path}.

(** *** Freshness *)

(** The five state inputs of the decision, read off the file system *)
Definition source_mtime (cfg : LocalLambdaConfig) (fs : gmap string node)
  : option Z :=
  match sourceMainFile cfg with
  | VStr p => if String.eqb p "" then None else node_mtime <$> fs !! p
  | _ => None
  end.

Definition build_dir_exists (lambdaDir : string) (fs : gmap string node) : Prop :=
  is_Some (fs !! path_join lambdaDir "build").

Definition artifact_mtime (lambdaDir : string) (fs : gmap string node)
  : option Z :=
  node_mtime <$> fs !! path_join (path_join lambdaDir "build") "bootstrap".

Definition manifest_mtime (lambdaDir : string) (fs : gmap string node)
  : option Z :=
  node_mtime <$> fs !! path_join lambdaDir "template.yaml".

(** *** Registry *)

(** The subdirectories of the workspace, in the order of the listing *)
Definition subdirectories (workspacePath : string) (fs : gmap string node)
  : list string :=
  match fs !! workspacePath with
  | Some (Dir _ dirents) => LambdaDetector.directory_names dirents
  | _ => []
  end.

(** The private metadata block of the manifest of a function directory:
    the manifest is there, parses to a document, and the document holds a
    block under Metadata.GeckoLambda *)
Definition private_metadata (workspacePath : string) (fs : gmap string node)
    (lambdaDir : string) : option value :=
  match fs !! path_join (path_join workspacePath lambdaDir) "template.yaml" with
  | Some (File _ (Some template)) =>
      if nullish template then None
      else
        let block := opt_get (opt_get template "Metadata") "GeckoLambda" in
        if truthy block then Some block else None
  | _ => None
  end.

(** The manifest of [lambdaDir] claims [sourceFile] *)
Definition claims (workspacePath sourceFile : string) (fs : gmap string node)
    (lambdaDir : string) : bool :=
  match private_metadata workspacePath fs lambdaDir with
  | Some block => str_eq (opt_get block "sourceFile") sourceFile
  | None => false
  end.

(** The manifest is there and yaml.load fails on it *)
Definition unparsable (workspacePath : string) (fs : gmap string node)
    (lambdaDir : string) : Prop :=
  ∃ t, fs !! path_join (path_join workspacePath lambdaDir) "template.yaml"
       = Some (File t None).

(** The manifest parses to a document that has no private metadata *)
Definition unmetadataed (workspacePath : string) (fs : gmap string node)
    (lambdaDir : string) : Prop :=
  ∃ t template,
    fs !! path_join (path_join workspacePath lambdaDir) "template.yaml"
      = Some (File t (Some template))
    ∧ nullish template = false
    ∧ truthy (opt_get (opt_get template "Metadata") "GeckoLambda") = false.

Definition found_config (now : clock) (workspacePath sourceFile lambdaDir : string)
    (block : value) : LambdaDetector.LambdaConfig :=
  {| LambdaDetector.functionName := lambdaDir;
     LambdaDetector.workspacePath := workspacePath;
     LambdaDetector.eventType := or (opt_get block "eventType") (VStr "apigateway");
     LambdaDetector.lastModified := or (opt_get block "lastModified") (VStr (iso now));
     LambdaDetector.sourceFile := VStr sourceFile;
     LambdaDetector.sourceDir :=
       or (opt_get block "sourceDir") (VStr (path_dirname sourceFile)) |}.

Definition listed_config (now : clock) (workspacePath lambdaDir : string)
    (block : value) : LambdaDetector.LambdaConfig :=
  {| LambdaDetector.functionName := lambdaDir;
     LambdaDetector.workspacePath := workspacePath;
     LambdaDetector.eventType := or (opt_get block "eventType") (VStr "apigateway");
     LambdaDetector.lastModified := or (opt_get block "lastModified") (VStr (iso now));
     LambdaDetector.sourceFile := or (opt_get block "sourceFile") (VStr "");
     LambdaDetector.sourceDir := or (opt_get block "sourceDir") (VStr "") |}.

Definition answer (now : clock) (workspacePath sourceFile : string)
    (fs : gmap string node) (lambdaDir : string)
  : option LambdaDetector.LambdaConfig :=
  match private_metadata workspacePath fs lambdaDir with
  | Some block =>
      if str_eq (opt_get block "sourceFile") sourceFile
      then Some (found_config now workspacePath sourceFile lambdaDir block)
      else None
  | None => None
  end.

Definition listing (now : clock) (workspacePath : string)
    (fs : gmap string node) (lambdaDir : string)
  : option LambdaDetector.LambdaConfig :=
  listed_config now workspacePath lambdaDir
    <$> private_metadata workspacePath fs lambdaDir.

Definition skip_message (lambdaDir : string) : LambdaDetector.log_entry :=
  LambdaDetector.Log
    ("No Gecko metadata found in " +:+ lambdaDir +:+ ", skipping").

Definition parse_message (lambdaDir : string) : LambdaDetector.log_entry :=
  LambdaDetector.LogError
    ("Could not parse template.yaml in " +:+ lambdaDir) ParseError.

(** *** Manifest store *)

(** How extractConfigFromTemplate resolves the event type *)
Definition read_eventType (geckoMetadata properties : value) : result value :=
  if truthy (opt_get geckoMetadata "eventType")
  then Ok (opt_get geckoMetadata "eventType")
  else detected ← TemplateManager.detectEventTypeFromEvents
                    (or (opt_get properties "Events") (VObj []));
       Ok (VStr detected).

(** The normalized view, given the function resource and the event type *)
Definition view (now lambdaDir : string) (fallbackSourceInfo template : value)
    (functionResourceKey : string) (functionResource eventType : value)
  : LocalLambdaConfig :=
  let geckoMetadata := opt_get (opt_get template "Metadata") "GeckoLambda" in
  let properties := or (opt_get functionResource "Properties") (VObj []) in
  let globals := or (opt_get (opt_get template "Globals") "Function") (VObj []) in
  let envMetadata :=
    or (opt_get geckoMetadata "environmentInfo")
       (VObj [("lastUpdated", VStr ""); ("source", VStr "manual")]) in
  {| functionName :=
       or (or (opt_get geckoMetadata "functionName")
              (VStr (StringUtils.toLowerCase
                       (TemplateManager.strip_Function functionResourceKey))))
          (VStr (path_basename lambdaDir));
     sourceMainFile :=
       or (or (opt_get geckoMetadata "sourceFile")
              (opt_get fallbackSourceInfo "sourceMainFile")) (VStr "");
     sourceDir :=
       or (or (opt_get geckoMetadata "sourceDir")
              (opt_get fallbackSourceInfo "sourceDir")) (VStr "");
     eventType := eventType;
     workspacePath := VStr (path_dirname lambdaDir);
     lastModified := or (opt_get geckoMetadata "lastModified") (VStr now);
     runtime :=
       or (or (or (opt_get geckoMetadata "runtime") (opt_get properties "Runtime"))
              (opt_get globals "Runtime")) (VStr "provided.al2023");
     architecture :=
       or (or (opt_get geckoMetadata "architecture")
              (opt_get (opt_get properties "Architectures") "0")) (VStr "arm64");
     buildMethod := or (opt_get geckoMetadata "buildMethod") (VStr "direct");
     environment := Some {|
       variables :=
         or (opt_get (opt_get properties "Environment") "Variables") (VObj []);
       lastUpdated := opt_get envMetadata "lastUpdated";
       source := opt_get envMetadata "source";
       awsFunctionName := opt_get envMetadata "awsFunctionName" |};
     template := Some {|
       timeout :=
         or (or (opt_get properties "Timeout") (opt_get globals "Timeout"))
            (VNum 30);
       memorySize :=
         or (or (opt_get properties "MemorySize") (opt_get globals "MemorySize"))
            (VNum 128);
       description :=
         or (opt_get template "Description")
            (VStr ("Lambda function for " +:+ to_string eventType
                   +:+ " events")) |} |}.

(** The two writers of the private metadata block: both
    updateGeckoMetadata functions ensure [Metadata], assign
    [Metadata.GeckoLambda] and write the document back; they differ in the
    block assigned, a function of the block found. *)
Definition with_block (block : value → value) (template : value)
  : result value :=
  '(template1, metadata) ← TemplateManager.ensure template "Metadata";
  metadata1 ← set metadata "GeckoLambda" (block (opt_get metadata "GeckoLambda"));
  Ok (TemplateManager.write_back template1 "Metadata" metadata1).

Definition merged_block (now sourceFile sourceDir eventType : string)
    (existing : value) : value :=
  VObj (spread_then (or existing (VObj [])) [
    ("sourceFile", VStr sourceFile);
    ("sourceDir", VStr sourceDir);
    ("eventType", VStr eventType);
    ("lastModified", VStr now);
    ("version", VStr "2.0") ]).

Definition fresh_block (now sourceFile sourceDir eventType : string) : value :=
  VObj [
    ("sourceFile", VStr sourceFile);
    ("sourceDir", VStr sourceDir);
    ("eventType", VStr eventType);
    ("lastModified", VStr now);
    ("version", VStr "2.0") ].

(** What a writer leaves alone: every top-level section other than
    Metadata keeps its value, every key of the document is still there in
    the same order, and inside Metadata every entry other than the
    GeckoLambda block keeps its value. *)
Definition frame (t t' : value) : Prop :=
  (∀ k, k ≠ "Metadata" → opt_get t' k = opt_get t k)
  ∧ (∃ extra, map fst (own_entries t')
              = (map fst (own_entries t) ++ extra)%list)
  ∧ (∀ k, k ≠ "GeckoLambda" →
       opt_get (opt_get t' "Metadata") k = opt_get (opt_get t "Metadata") k).

(** A document that is a mapping whose Metadata, if it holds anything,
    is a mapping: the shape of every manifest *)
Definition mapping_manifest (t : value) : Prop :=
  (∃ fs, t = VObj fs)
  ∧ (truthy (opt_get t "Metadata") = false
     ∨ ∃ ms, opt_get t "Metadata" = VObj ms).

(** Array indices are decimal numerals; the property names of the
    sources start with a letter *)
Definition starts_with_digit (s : string) : bool :=
  match s with
  | String c _ => StringUtils.is_digit c
  | EmptyString => false
  end.


(** The private metadata of a document *)
Definition gecko (t : value) : value :=
  opt_get (opt_get t "Metadata") "GeckoLambda".


(** *** Documents with shared nodes *)

(** The trees of a list of values and of the entries of a mapping *)
Fixpoint plain_items (earlier : list value) (l : list Shared.graph)
  : result (list value) :=
  match l with
  | [] => Ok []
  | x :: r =>
      v ← Shared.plain earlier x; vs ← plain_items earlier r; Ok (v :: vs)
  end.

Fixpoint plain_fields (earlier : list value)
    (fs : list (string * Shared.graph)) : result (list (string * value)) :=
  match fs with
  | [] => Ok []
  | (k, x) :: r =>
      v ← Shared.plain earlier x; vs ← plain_fields earlier r; Ok ((k, v) :: vs)
  end.

(** A node of its own: not one that occurs at several places *)
Definition unshared (g : Shared.graph) : bool :=
  match g with Shared.GRef _ => false | _ => true end.

(** The document node and what it holds under Metadata are nodes of
    their own *)
Definition own_metadata (d : Shared.document) : Prop :=
  unshared (Shared.root d) = true
  ∧ unshared (Shared.opt_get (Shared.store d) (Shared.root d) "Metadata")
    = true.

(** The two writers on a loaded document, by the block they assign *)
Definition shared_with_block
    (block : list Shared.shared → Shared.graph → Shared.graph)
    (d : Shared.document) : result Shared.document :=
  '(st1, template1, metadata) ←
     Shared.ensure (Shared.store d) (Shared.root d) "Metadata";
  '(st2, metadata1) ← Shared.assign st1 metadata "GeckoLambda"
     (block st1 (Shared.opt_get st1 metadata "GeckoLambda"));
  let '(st3, template2) :=
    Shared.write_back st2 template1 "Metadata" metadata1 in
  Ok {| Shared.store := st3; Shared.root := template2 |}.

Definition merged_block_shared (now sourceFile sourceDir eventType : string)
    (st : list Shared.shared) (existing : Shared.graph) : Shared.graph :=
  Shared.GObj (Shared.spread_then st (Shared.or existing (Shared.GObj [])) [
    ("sourceFile", Shared.GStr sourceFile);
    ("sourceDir", Shared.GStr sourceDir);
    ("eventType", Shared.GStr eventType);
    ("lastModified", Shared.GStr now);
    ("version", Shared.GStr "2.0") ]).

Definition fresh_block_shared (now sourceFile sourceDir eventType : string)
  : Shared.graph :=
  Shared.GObj [
    ("sourceFile", Shared.GStr sourceFile);
    ("sourceDir", Shared.GStr sourceDir);
    ("eventType", Shared.GStr eventType);
    ("lastModified", Shared.GStr now);
    ("version", Shared.GStr "2.0") ].

(** [vs] lists the trees of the shared nodes of [st] *)
Definition consistent (st : list Shared.shared) (vs : list value) : Prop :=
  length vs = length st
  ∧ ∀ a s, st !! a = Some s →
      ∃ v, vs !! a = Some v ∧ Shared.plain vs (Shared.inline s) = Ok v.

(** *** Environment variables *)

(** A YAML sequence *)
Definition is_sequence (v : value) : bool :=
  match v with VArr _ => true | _ => false end.


(** What [o.k] denotes after [if (!o.k) o.k = {}] *)
Definition child (o : value) (k : string) : value :=
  if truthy (opt_get o k) then opt_get o k else VObj [].

(** [if (!o.k) o.k = {}], then a mutation of [o.k] *)
Definition update_child (o : value) (k : string) (f : value → result value)
  : result value :=
  '(o1, c) ← TemplateManager.ensure o k;
  c' ← f c;
  Ok (TemplateManager.write_back o1 k c').

Definition environmentInfo (now : string) (environment : list (string * value))
    (awsFunctionName : option string) : value :=
  VObj [
    ("lastUpdated", VStr now);
    ("source", VStr "aws");
    ("awsFunctionName",
       or (from_option VStr VUndef awsFunctionName) (VStr "manual"));
    ("variableCount", VNum (Z.of_nat (length environment))) ].

Definition stamp (now : string) (environment : list (string * value))
    (awsFunctionName : option string) (g : value) : result value :=
  g1 ← set g "environmentInfo" (environmentInfo now environment awsFunctionName);
  set g1 "lastModified" (VStr now).


(** *** Validation and repair *)

Definition required_fields : list string :=
  ["sourceFile"; "sourceDir"; "eventType"; "version"].

(** Private metadata is present and a required field is missing *)
Definition incomplete (t : value) : Prop :=
  truthy (gecko t) = true
  ∧ ∃ field, field ∈ required_fields
      ∧ truthy (opt_get (gecko t) field) = false.

(** The manifest parses to a document without private metadata *)
Definition lacks_metadata (t : value) : Prop :=
  nullish t = false ∧ truthy (gecko t) = false.

Definition missing_issue (field : string) : TemplateManager.issue :=
  TemplateManager.Issue ("Missing " +:+ field +:+ " in metadata").

Definition written_fields : list string :=
  ["sourceFile"; "sourceDir"; "eventType"; "lastModified"; "version"].

(** *** Event-type inference *)

Definition known_tags : list string := ["apigateway"; "s3"; "dynamodb"; "sqs"].

(** *** Function names *)

(** Some hyphen or underscore of the name is followed by a word
    character: the first replacement of toPascalCase fires. *)
Fixpoint separator_before_word (s : string) : bool :=
  match s with
  | String c (String d _ as tl) =>
      (StringUtils.is_sep c && StringUtils.is_word d) || separator_before_word tl
  | _ => false
  end.

(** The name has a hyphen or an underscore somewhere *)
Fixpoint contains_separator (s : string) : bool :=
  match s with
  | EmptyString => false
  | String c r => StringUtils.is_sep c || contains_separator r
  end.

(** *** Migration *)

Definition legacy_path (workspacePath : string) : string :=
  path_join workspacePath ConfigManager.GLOBAL_CONFIG.

Definition backup_path (workspacePath : string) : string :=
  path_join workspacePath ConfigManager.GLOBAL_CONFIG_BACKUP.

End Vocabulary.

(** ** Example workspaces *)

(** A function directory whose artifact is newer than the source while
    the manifest has just been touched, and the same directory before the
    manifest was touched. *)
Module FreshnessExample.

Definition cfg : LocalLambdaConfig :=
  {| functionName := VStr "orders"; sourceMainFile := VStr "/src/orders/main.go";
     sourceDir := VStr "/src/orders"; eventType := VStr "sqs";
     workspacePath := VStr "/ws"; lastModified := VStr "2024-01-01T00:00:00.000Z";
     runtime := VStr "provided.al2023"; architecture := VStr "arm64";
     buildMethod := VStr "direct"; environment := None; template := None |}.

Definition built (manifest_time : Z) : gmap string node :=
  <["/src/orders/main.go" := File 10 None]>
  (<["/ws/orders/build" := Dir 20 [("bootstrap", false)]]>
  (<["/ws/orders/build/bootstrap" := File 20 None]>
  (<["/ws/orders/template.yaml" := File manifest_time (Some (VObj []))]> ∅))).

End FreshnessExample.

(** A workspace with four function directories: two complete manifests,
    one manifest without private metadata and one that does not parse. *)
Module RegistryExample.

Definition manifest (sourceFile sourceDir eventType : string) : value :=
  VObj [
    ("AWSTemplateFormatVersion", VStr "2010-09-09");
    ("Metadata", VObj [("GeckoLambda", VObj [
       ("sourceFile", VStr sourceFile);
       ("sourceDir", VStr sourceDir);
       ("eventType", VStr eventType);
       ("lastModified", VStr "2024-05-01T10:00:00.000Z");
       ("version", VStr "2.0")])]);
    ("Resources", VObj [("OrdersFunction", VObj [
       ("Type", VStr "AWS::Serverless::Function");
       ("Properties", VObj [("Runtime", VStr "provided.al2023")])])]) ].

Definition bare_manifest : value :=
  VObj [
    ("AWSTemplateFormatVersion", VStr "2010-09-09");
    ("Resources", VObj [("LegacyFunction", VObj [
       ("Type", VStr "AWS::Serverless::Function")])]) ].

Definition workspace : gmap string node :=
  <["/ws" := Dir 1 [("orders", true); ("notes.txt", false); ("legacy", true);
                    ("broken", true); ("mailer", true)]]>
  (<["/ws/orders/template.yaml" :=
      File 5 (Some (manifest "/src/orders/main.go" "/src/orders" "sqs"))]>
  (<["/ws/legacy/template.yaml" := File 6 (Some bare_manifest)]>
  (<["/ws/broken/template.yaml" := File 7 None]>
  (<["/ws/mailer/template.yaml" :=
      File 8 (Some (manifest "/src/mailer/main.go" "/src/mailer" "s3"))]> ∅)))).

Definition now : clock := {| iso := "2024-06-01T00:00:00.000Z"; ms := 100 |}.

End RegistryExample.

(** A function configured by the wizard, whose environment was then
    synced from AWS. *)
Module StoreExample.

Definition t0 : clock := {| iso := "2024-05-01T10:00:00.000Z"; ms := 50 |}.
Definition t1 : clock := {| iso := "2024-05-02T09:30:00.000Z"; ms := 60 |}.
Definition t2 : clock := {| iso := "2024-05-03T08:00:00.000Z"; ms := 70 |}.

Definition wizard : LocalLambdaConfig :=
  {| functionName := VStr "orders";
     sourceMainFile := VStr "/src/orders/main.go";
     sourceDir := VStr "/src/orders";
     eventType := VStr "sqs";
     workspacePath := VStr "/ws";
     lastModified := VStr (iso t0);
     runtime := VStr "provided.al2023";
     architecture := VStr "x86_64";
     buildMethod := VStr "direct";
     environment := Some {| variables := VObj []; lastUpdated := VStr "";
                            source := VStr "manual"; awsFunctionName := VUndef |};
     template := Some {| timeout := VNum 30; memorySize := VNum 128;
                         description := VStr "Lambda function for sqs events" |} |}.

Definition or_empty (r : result (gmap string node)) : gmap string node :=
  match r with Ok fs => fs | Throw _ => ∅ end.

Definition created : gmap string node :=
  or_empty (TemplateManager.createTemplate t0 "/ws/orders" wizard
              (<["/ws/orders" := Dir 40 []]> ∅)).

Definition synced : gmap string node :=
  or_empty (TemplateManager.updateEnvironmentVariables t1 "/ws/orders"
              [("TABLE", VStr "orders"); ("STAGE", VStr "prod")]
              (Some "orders-prod") created).


End StoreExample.

(** Two manifests with an anchor and an alias *)

Module AliasExample.
Import Shared.

Definition owner : shared := SObj [("Owner", GStr "orders-team")].

Definition defaults : shared :=
  SObj [("Runtime", GStr "provided.al2023"); ("Timeout", GNum 30)].

(** [Metadata: &meta {Owner: orders-team}], repeated by [*meta] as the
    Metadata attribute of the function resource *)
Definition manifest : document :=
  {| store := [owner];
     root := GObj [
       ("AWSTemplateFormatVersion", GStr "2010-09-09");
       ("Metadata", GRef 0);
       ("Resources", GObj [
          ("OrdersFunction", GObj [
             ("Type", GStr "AWS::Serverless::Function");
             ("Metadata", GRef 0);
             ("Properties", GObj [("Handler", GStr "bootstrap")]) ]) ]) ] |}.

(** [Function: &defaults {...}] under Globals, repeated by [*defaults] as
    the Properties of the function resource; Metadata is a mapping of its
    own *)
Definition anchored : document :=
  {| store := [defaults];
     root := GObj [
       ("AWSTemplateFormatVersion", GStr "2010-09-09");
       ("Globals", GObj [("Function", GRef 0)]);
       ("Metadata", GObj [("Owner", GStr "orders-team")]);
       ("Resources", GObj [
          ("OrdersFunction", GObj [
             ("Type", GStr "AWS::Serverless::Function");
             ("Properties", GRef 0) ]) ]) ] |}.

Definition or_null (r : result value) : value :=
  match r with Ok t => t | Throw _ => VNull end.

(** The function directory that holds the manifest *)
Definition workspace (d : document) : gmap string node :=
  <["/ws/orders/template.yaml" := File 50 (Some (or_null (dump d)))]>
    (<["/ws/orders" := Dir 40 [("template.yaml", false)]]> ∅).

End AliasExample.

(** A manifest whose private metadata has a source file and nothing
    else that is required, next to the workspace of [StoreExample]. *)
Module RepairExample.

Definition partial_manifest : value :=
  VObj [
    ("AWSTemplateFormatVersion", VStr "2010-09-09");
    ("Metadata", VObj [("GeckoLambda", VObj [
       ("sourceFile", VStr "/src/partial/main.go");
       ("buildMethod", VStr "docker")])]);
    ("Resources", VObj [("PartialFunction", VObj [
       ("Type", VStr "AWS::Serverless::Function")])]) ].

Definition workspace : gmap string node :=
  <["/ws/partial/template.yaml" := File 9 (Some partial_manifest)]>
    RegistryExample.workspace.

End RepairExample.

(** A manifest without private metadata whose first trigger is left
    empty ([ApiEvent:] with no value) *)
Module InferenceExample.

Definition events : value := VObj [("ApiEvent", VNull)].

Definition manifest : value :=
  VObj [
    ("AWSTemplateFormatVersion", VStr "2010-09-09");
    ("Resources", VObj [("HelloFunction", VObj [
       ("Type", VStr "AWS::Serverless::Function");
       ("Properties", VObj [("Runtime", VStr "provided.al2023");
                            ("Events", events)])])]) ].

End InferenceExample.

Module NamingExample.

Definition named (name : string) : LocalLambdaConfig :=
  {| functionName := VStr name;
     sourceMainFile := VStr "/src/orders/main.go";
     sourceDir := VStr "/src/orders";
     eventType := VStr "sqs";
     workspacePath := VStr "/ws";
     lastModified := VStr (iso StoreExample.t0);
     runtime := VStr "provided.al2023";
     architecture := VStr "arm64";
     buildMethod := VStr "direct";
     environment := None;
     template := None |}.

Definition empty_fs : gmap string node := ∅.

Definition created (name : string) : gmap string node :=
  StoreExample.or_empty
    (TemplateManager.createTemplate StoreExample.t0 (path_join "/ws" name)
       (named name) empty_fs).

Definition extracted_name (name : string) : result value :=
  c ← TemplateManager.extractConfigFromTemplate StoreExample.t2
         (path_join "/ws" name) VUndef (created name);
  Ok (functionName c).

End NamingExample.

(** A workspace that holds the legacy registry, with one entry, and no
    function directory yet *)
Module MigrationExample.

Definition registry : value :=
  VObj [("/src/orders/main.go", VObj [
    ("functionName", VStr "orders");
    ("workspacePath", VStr "/ws");
    ("eventType", VStr "sqs");
    ("lastModified", VStr "2023-11-05T12:00:00.000Z");
    ("sourceFile", VStr "/src/orders/main.go");
    ("sourceDir", VStr "/src/orders")])].

Definition workspace : gmap string node :=
  <["/ws" := Dir 1 [(".gecko-lambda-config.json", false)]]>
  (<["/ws/.gecko-lambda-config.json" := File 2 (Some registry)]> ∅).

Definition migrated : gmap string node :=
  Extension.performUnifiedSystemMigration false "/ws" workspace.

End MigrationExample.

(** ** Vocabulary of the further properties

    The notions used by the properties of the code that the
    specification does not state: the shape of a function name, the
    manifest of a function directory as the registry and the validators
    see it, what a sequence of file-system operations leaves of a file. *)

(** *** Function names *)

(** The characters of a sanitized name: small letters, digits, hyphen
    and underscore *)
Definition is_plain_char (c : ascii) : bool :=
  StringUtils.is_lower c || StringUtils.is_digit c
  || Ascii.eqb c "-" || Ascii.eqb c "_".

Definition first_char (s : string) : option ascii :=
  match s with
  | String c _ => Some c
  | EmptyString => None
  end.

Fixpoint last_char (s : string) : option ascii :=
  match s with
  | EmptyString => None
  | String c EmptyString => Some c
  | String _ r => last_char r
  end.

Fixpoint count_char (c : ascii) (s : string) : nat :=
  match s with
  | EmptyString => 0%nat
  | String x r => ((if Ascii.eqb x c then 1 else 0) + count_char c r)%nat
  end.

(** A name that sanitizeFunctionName has nothing to do on *)
Definition sanitized (s : string) : Prop :=
  s ≠ ""
  ∧ StringUtils.all_chars is_plain_char s = true
  ∧ first_char s ≠ Some "-"%char
  ∧ last_char s ≠ Some "-"%char.

(** [pattern] occurs in [s] *)
Definition occurs (pattern s : string) : Prop :=
  ∃ before after, s = before +:+ pattern +:+ after.

(** *** Created manifests *)

(** The variable set that createTemplate writes, if any *)
Definition written_variables (environment : option EnvironmentConfig) : value :=
  match environment with
  | Some e =>
      if truthy (variables e) && negb (length (own_entries (variables e)) =? 0)%nat
      then variables e else VUndef
  | None => VUndef
  end.

(** The event type that the readers infer from the trigger written for
    [tag] *)
Definition inferred_tag (tag : string) : string :=
  if bool_decide (tag ∈ known_tags) then tag else "apigateway".

(** The issue reported for [field] when [present] is false *)
Definition issue_unless (present : bool) (field : string)
  : list TemplateManager.issue :=
  if present then [] else [missing_issue field].

(** *** Files and registry entries *)

(** The file at a path, if the path holds a file *)
Definition file_at (fs : gmap string node) (p : string)
  : option (Z * option value) :=
  match fs !! p with
  | Some (File mt content) => Some (mt, content)
  | _ => None
  end.

(** The node holds a manifest with private metadata *)
Definition blocked (n : option node) : bool :=
  match n with
  | Some (File _ (Some t)) => negb (nullish t) && truthy (gecko t)
  | _ => false
  end.

(** The block that saveConfiguration writes *)
Definition saved_block (config : LambdaDetector.LambdaConfig) : value :=
  VObj (dumped [
    ("sourceFile", LambdaDetector.sourceFile config);
    ("sourceDir", LambdaDetector.sourceDir config);
    ("eventType", LambdaDetector.eventType config);
    ("lastModified", LambdaDetector.lastModified config);
    ("version", VStr "2.0") ]).

(** A registry entry with its timestamp erased *)
Definition forget_time (c : LambdaDetector.LambdaConfig)
  : LambdaDetector.LambdaConfig :=
  {| LambdaDetector.functionName := LambdaDetector.functionName c;
     LambdaDetector.workspacePath := LambdaDetector.workspacePath c;
     LambdaDetector.eventType := LambdaDetector.eventType c;
     LambdaDetector.lastModified := VUndef;
     LambdaDetector.sourceFile := LambdaDetector.sourceFile c;
     LambdaDetector.sourceDir := LambdaDetector.sourceDir c |}.

(** The line validateUnifiedSystem shows for a directory it finds
    invalid *)
Definition invalid_issue (lambdaDir : string) : string :=
  lambdaDir +:+ ": Missing or invalid Gecko metadata".

Section FunctionDirectories.
Context `{Path}.

Definition manifest_path (workspacePath lambdaDir : string) : string :=
  path_join (path_join workspacePath lambdaDir) "template.yaml".

(** The function directory holds a manifest *)
Definition has_manifest (workspacePath : string) (fs : gmap string node)
    (lambdaDir : string) : bool :=
  Fs.existsSync fs (path_join (path_join workspacePath lambdaDir) "template.yaml").

(** The manifest of the function directory has private metadata *)
Definition has_block (workspacePath : string) (fs : gmap string node)
    (lambdaDir : string) : bool :=
  match private_metadata workspacePath fs lambdaDir with
  | Some _ => true
  | None => false
  end.

Definition unblocked (ws : string) (fs : gmap string node) (l : list string)
  : list string :=
  List.filter (λ d, negb (has_block ws fs d)) l.

(** Different subdirectories of the workspace keep their manifests in
    different files *)
Definition distinct_manifests (workspacePath : string) (fs : gmap string node)
  : Prop :=
  ∀ d d', d ∈ subdirectories workspacePath fs →
    d' ∈ subdirectories workspacePath fs →
    manifest_path workspacePath d = manifest_path workspacePath d' → d = d'.

(** The manifest of [d] has private metadata, or can be given some *)
Definition repairable (ws : string) (fs : gmap string node) (d : string)
  : Prop :=
  blocked (fs !! manifest_path ws d) = true
  ∨ ∃ mt t, fs !! manifest_path ws d = Some (File mt (Some t))
      ∧ mapping_manifest t.

End FunctionDirectories.

(** *** Characters

    A statement about one character is settled by going through the 256
    of them. *)
Ltac each_char c :=
  destruct c as [[] [] [] [] [] [] [] []]; vm_compute; try reflexivity;
  try discriminate; try tauto.

(** ** Further example workspaces *)

(** The wizard and the auto-configuration at work on a workspace that
    has no function directory yet *)
Module WizardExample.

Definition config : LambdaDetector.LambdaConfig :=
  {| LambdaDetector.functionName := "orders";
     LambdaDetector.workspacePath := "/ws";
     LambdaDetector.eventType := VStr "sqs";
     LambdaDetector.lastModified := VStr (iso StoreExample.t0);
     LambdaDetector.sourceFile := VStr "/src/orders/main.go";
     LambdaDetector.sourceDir := VStr "/src/orders" |}.

Definition workspace : gmap string node := <["/ws" := Dir 1 []]> ∅.

(** The readings of the clock, in order *)
Definition now (n : nat) : clock :=
  match n with
  | O => StoreExample.t0
  | S O => StoreExample.t1
  | _ => StoreExample.t2
  end.

Definition saved : gmap string node :=
  fst (run (LambdaDetector.saveConfiguration StoreExample.t0 config) workspace).

Definition configured : gmap string node :=
  fst (run (ConfigCommand.createLambdaConfiguration now config "arm64")
         workspace).

End WizardExample.

(** A function created for an event type that the tool does not know,
    and its event file *)
Module TriggerExample.

Definition stream : LocalLambdaConfig :=
  {| functionName := VStr "stream";
     sourceMainFile := VStr "/src/stream/main.go";
     sourceDir := VStr "/src/stream";
     eventType := VStr "kinesis";
     workspacePath := VStr "/ws";
     lastModified := VStr (iso StoreExample.t0);
     runtime := VUndef;
     architecture := VStr "arm64";
     buildMethod := VUndef;
     environment := None;
     template := None |}.

Definition created : gmap string node :=
  StoreExample.or_empty
    (TemplateManager.createTemplate StoreExample.t0 "/ws/stream" stream ∅).

Definition with_event_file : gmap string node :=
  StoreExample.or_empty
    (ConfigManager.createEventFile StoreExample.t1 "/ws/stream/event.json"
       (VStr "kinesis") created).

End TriggerExample.

(** The workspace of [RegistryExample] after the environment of one of
    its functions was synced, and the manifest of [StoreExample] with
    its function resource *)
Module SyncExample.

Definition synced : gmap string node :=
  StoreExample.or_empty
    (TemplateManager.updateEnvironmentVariables StoreExample.t1 "/ws/orders"
       [("TABLE", VStr "orders")] (Some "orders-prod")
       RegistryExample.workspace).

Definition manifest : value :=
  Eval vm_compute in
    match TemplateManager.readTemplate "/ws/orders" StoreExample.created with
    | Ok t => t
    | Throw _ => VUndef
    end.


(** The function directory of [FreshnessExample] after its metadata was
    written at a later time *)
Definition touched : gmap string node :=
  StoreExample.or_empty
    (TemplateManager.updateGeckoMetadata RegistryExample.now "/ws/orders"
       "/src/orders/main.go" "/src/orders" "sqs" (FreshnessExample.built 5)).

End SyncExample.

(** ** Generic facts about the embedding *)

Lemma bind_Ok {A B} (m : result A) (f : A → result B) (b : B) :
  m ≫= f = Ok b → ∃ a, m = Ok a ∧ f a = Ok b.
Proof. destruct m as [a|e]; simpl; [eauto | discriminate]. Qed.

Lemma key_Function_not_empty s : String.eqb (s +:+ "Function") "" = false.
Proof. by destruct s. Qed.

Lemma existsSync_true (fs : gmap string node) p :
  Fs.existsSync fs p = true ↔ is_Some (fs !! p).
Proof. unfold Fs.existsSync. apply bool_decide_eq_true. Qed.

Lemma existsSync_false (fs : gmap string node) p :
  Fs.existsSync fs p = false ↔ fs !! p = None.
Proof.
  unfold Fs.existsSync. rewrite bool_decide_eq_false.
  rewrite eq_None_not_Some. done.
Qed.

Lemma existsSync_lookup (fs : gmap string node) p :
  Fs.existsSync fs p = match fs !! p with Some _ => true | None => false end.
Proof.
  unfold Fs.existsSync. destruct (fs !! p).
  - apply bool_decide_eq_true_2. eauto.
  - apply bool_decide_eq_false_2. by intros [? ?].
Qed.

(** ** The build freshness oracle *)

Section Freshness.
Context `{Path}.

Lemma needsRebuild_unfold cfg lambdaDir fs :
  BuildUtils.needsRebuild cfg lambdaDir fs =
    match source_mtime cfg fs with
    | None => true
    | Some s =>
        if negb (Fs.existsSync fs (path_join lambdaDir "build")) then true
        else match artifact_mtime lambdaDir fs with
             | None => true
             | Some a =>
                 match manifest_mtime lambdaDir fs with
                 | Some m => (a <? m)%Z || (a <? s)%Z
                 | None => (a <? s)%Z
                 end
             end
    end.
Proof.
  unfold BuildUtils.needsRebuild, BuildUtils.needsRebuild_body, source_mtime,
    artifact_mtime, manifest_mtime.
  destruct (sourceMainFile cfg) as [| |b|n|p|l|l]; simpl; try reflexivity.
  - destruct b; reflexivity.
  - destruct (n =? 0)%Z; reflexivity.
  - destruct (String.eqb p "") eqn:Hp; simpl; [reflexivity|].
    rewrite !existsSync_lookup. unfold Fs.statSync.
    destruct (fs !! p) as [src|]; simpl; [|reflexivity].
    destruct (fs !! path_join lambdaDir "build"); simpl; [|reflexivity].
    destruct (fs !! path_join (path_join lambdaDir "build") "bootstrap")
      as [bin|]; simpl; [|reflexivity].
    destruct (fs !! path_join lambdaDir "template.yaml") as [tpl|]; simpl;
      [|reflexivity].
    destruct (node_mtime bin <? node_mtime tpl)%Z; reflexivity.
Qed.

(** C1. The rebuild decision of BuildUtils.needsRebuild follows the
    ordered algorithm: a missing source file gives true; a missing build
    directory or bootstrap artifact gives true whatever the timestamps; a
    manifest strictly newer than the artifact gives true even when the
    source is older than the artifact; a source strictly newer than the
    artifact gives true; and the answer is false only when source, build
    directory and artifact exist and the artifact is not older than the
    source nor than the manifest -- and in that case it is false. *)
Theorem needsRebuild_ordered_algorithm cfg lambdaDir fs :
  (source_mtime cfg fs = None → BuildUtils.needsRebuild cfg lambdaDir fs = true)
  ∧ (¬ build_dir_exists lambdaDir fs ∨ artifact_mtime lambdaDir fs = None →
     BuildUtils.needsRebuild cfg lambdaDir fs = true)
  ∧ (∀ m a, manifest_mtime lambdaDir fs = Some m →
       artifact_mtime lambdaDir fs = Some a → (a < m)%Z →
       BuildUtils.needsRebuild cfg lambdaDir fs = true)
  ∧ (∀ s a, source_mtime cfg fs = Some s →
       artifact_mtime lambdaDir fs = Some a → (a < s)%Z →
       BuildUtils.needsRebuild cfg lambdaDir fs = true)
  ∧ (BuildUtils.needsRebuild cfg lambdaDir fs = false ↔
     ∃ s a, source_mtime cfg fs = Some s ∧ build_dir_exists lambdaDir fs
       ∧ artifact_mtime lambdaDir fs = Some a ∧ (s ≤ a)%Z
       ∧ ∀ m, manifest_mtime lambdaDir fs = Some m → (m ≤ a)%Z).
Proof.
  rewrite needsRebuild_unfold. unfold build_dir_exists.
  rewrite existsSync_lookup.
  destruct (source_mtime cfg fs) as [s|];
    destruct (fs !! path_join lambdaDir "build") as [bd|]; simpl;
    destruct (artifact_mtime lambdaDir fs) as [a|];
    destruct (manifest_mtime lambdaDir fs) as [m|].
  all: split; [intros; try done|].
  all: split; [intros [Hn|Hn]; try done; try (by destruct Hn; eauto)|].
  all: split; [intros m' a' Hm Ha Hlt; simplify_eq; try done;
               try (apply orb_true_iff; left; apply Z.ltb_lt; lia)|].
  all: split; [intros s' a' Hs Ha Hlt; simplify_eq; try done;
               try (apply orb_true_iff; right; apply Z.ltb_lt; lia);
               try (apply Z.ltb_lt; lia)|].
  all: split; [intros Hf|intros (s' & a' & Hs & Hb & Ha & Hle & Hm)];
    simplify_eq; try done; try (by destruct Hb).
  - apply orb_false_iff in Hf as [H1 H2].
    apply Z.ltb_ge in H1, H2.
    exists s, a. repeat split; eauto. intros ? ?; simplify_eq. lia.
  - apply orb_false_iff. rewrite !Z.ltb_ge. split; [apply Hm; done | lia].
  - apply Z.ltb_ge in Hf.
    exists s, a. repeat split; eauto. intros ? ?; simplify_eq.
  - apply Z.ltb_ge. lia.
Qed.

End Freshness.

Lemma needsRebuild_ordered_algorithm_witness :
  BuildUtils.needsRebuild FreshnessExample.cfg "/ws/orders"
    (FreshnessExample.built 30) = true
  ∧ BuildUtils.needsRebuild FreshnessExample.cfg "/ws/orders"
      (FreshnessExample.built 15) = false.
Proof.
  split.
  - apply (proj1 (proj2 (proj2 (needsRebuild_ordered_algorithm
      FreshnessExample.cfg "/ws/orders" (FreshnessExample.built 30)))) 30 20)%Z.
    + vm_compute. reflexivity.
    + vm_compute. reflexivity.
    + lia.
  - apply (proj2 (proj2 (proj2 (proj2 (needsRebuild_ordered_algorithm
      FreshnessExample.cfg "/ws/orders" (FreshnessExample.built 15)))))).
    exists 10%Z, 20%Z. split; [vm_compute; reflexivity|].
    split; [exists (Dir 20 [("bootstrap", false)]); vm_compute; reflexivity|].
    split; [vm_compute; reflexivity|]. split; [lia|].
    intros m Hm. vm_compute in Hm. injection Hm as <-. lia.
Defined.

(** ** The function registry *)

Section Registry.
Context `{Path}.

Lemma get_not_nullish v k : nullish v = false → get v k = Ok (opt_get v k).
Proof. unfold get. intros ->. reflexivity. Qed.

Lemma get_nullish v k : nullish v = true → get v k = Throw TypeError.
Proof. unfold get. intros ->. reflexivity. Qed.

Lemma scan_for_cons now ws s fs d rest :
  LambdaDetector.scan_for (iso now) ws s fs (d :: rest) =
    match answer now ws s fs d with
    | Some c => Some c
    | None => LambdaDetector.scan_for (iso now) ws s fs rest
    end.
Proof.
  simpl. rewrite existsSync_lookup.
  unfold answer, private_metadata, LambdaDetector.claim, Fs.readYaml.
  destruct (fs !! path_join (path_join ws d) "template.yaml")
    as [[t [tpl|]|t es]|]; simpl; try reflexivity.
  unfold get. destruct (nullish tpl); simpl; [reflexivity|].
  destruct (truthy (opt_get (opt_get tpl "Metadata") "GeckoLambda")); simpl;
    [|reflexivity].
  destruct (str_eq _ s); reflexivity.
Qed.

Lemma scan_for_None now ws s fs l :
  LambdaDetector.scan_for (iso now) ws s fs l = None
  ↔ ∀ d, d ∈ l → claims ws s fs d = false.
Proof.
  induction l as [|d rest IH].
  - simpl. split; [intros _ d Hd; inversion Hd | done].
  - rewrite scan_for_cons. unfold answer, claims in *.
    destruct (private_metadata ws fs d) as [block|] eqn:Hb.
    + destruct (str_eq (opt_get block "sourceFile") s) eqn:He.
      * split; [done|]. intros Hall.
        specialize (Hall d (list_elem_of_here _ _)). rewrite Hb, He in Hall. done.
      * rewrite IH. split.
        -- intros Hall d' [->|Hd]%elem_of_cons; [by rewrite Hb|by apply Hall].
        -- intros Hall d' Hd. apply Hall. by right.
    + rewrite IH. split.
      * intros Hall d' [->|Hd]%elem_of_cons; [by rewrite Hb|by apply Hall].
      * intros Hall d' Hd. apply Hall. by right.
Qed.

Lemma scan_for_first now ws s fs l1 d l2 :
  (∀ d', d' ∈ l1 → claims ws s fs d' = false) →
  LambdaDetector.scan_for (iso now) ws s fs (l1 ++ d :: l2) =
    LambdaDetector.scan_for (iso now) ws s fs (d :: l2).
Proof.
  induction l1 as [|d1 l1 IH]; intros Hall; [done|].
  rewrite <- app_comm_cons.
  rewrite scan_for_cons.
  assert (claims ws s fs d1 = false) as H1 by (apply Hall; left).
  unfold claims in H1. unfold answer.
  destruct (private_metadata ws fs d1); [rewrite H1|];
    apply IH; intros; apply Hall; by right.
Qed.

Lemma getConfiguration_scan now ws s fs :
  LambdaDetector.getConfiguration now ws s fs =
    LambdaDetector.scan_for (iso now) ws s fs (subdirectories ws fs).
Proof.
  unfold LambdaDetector.getConfiguration, subdirectories, Fs.readdirSync.
  rewrite existsSync_lookup.
  destruct (fs !! ws) as [[t c|t es]|]; reflexivity.
Qed.

(** C6. getConfiguration scans the subdirectories of the workspace that
    hold a manifest and returns the configuration of the first one whose
    private metadata has a sourceFile equal, as a string, to the queried
    path; it returns nothing exactly when no manifest claims the path; and
    when exactly one manifest claims it, that one is returned. *)
Theorem getConfiguration_first_claim now ws s fs :
  (LambdaDetector.getConfiguration now ws s fs = None
   ↔ ∀ d, d ∈ subdirectories ws fs → claims ws s fs d = false)
  ∧ (∀ l1 d l2 block,
       subdirectories ws fs = (l1 ++ d :: l2)%list →
       (∀ d', d' ∈ l1 → claims ws s fs d' = false) →
       private_metadata ws fs d = Some block →
       opt_get block "sourceFile" = VStr s →
       LambdaDetector.getConfiguration now ws s fs
         = Some (found_config now ws s d block))
  ∧ (∀ d, d ∈ subdirectories ws fs → claims ws s fs d = true →
       (∀ d', d' ∈ subdirectories ws fs → claims ws s fs d' = true → d' = d) →
       ∃ block, private_metadata ws fs d = Some block
         ∧ LambdaDetector.getConfiguration now ws s fs
             = Some (found_config now ws s d block)).
Proof.
  rewrite getConfiguration_scan. split; [apply scan_for_None|].
  assert (∀ l1 d l2 block,
       subdirectories ws fs = (l1 ++ d :: l2)%list →
       (∀ d', d' ∈ l1 → claims ws s fs d' = false) →
       private_metadata ws fs d = Some block →
       str_eq (opt_get block "sourceFile") s = true →
       LambdaDetector.scan_for (iso now) ws s fs (subdirectories ws fs)
         = Some (found_config now ws s d block)) as Hfirst.
  { intros l1 d l2 block -> Hl1 Hb Hs.
    rewrite scan_for_first by done. rewrite scan_for_cons.
    unfold answer. by rewrite Hb, Hs. }
  split.
  - intros l1 d l2 block Hl Hl1 Hb Hs. eapply Hfirst; eauto.
    rewrite Hs. simpl. apply String.eqb_refl.
  - intros d Hd Hc Huniq.
    apply list_elem_of_split_l in Hd as (l1 & l2 & Hl & Hnot).
    unfold claims in Hc.
    destruct (private_metadata ws fs d) as [block|] eqn:Hb; [|done].
    exists block. split; [done|].
    eapply Hfirst; eauto.
    intros d' Hd'. destruct (claims ws s fs d') eqn:Hc'; [|done].
    assert (d' = d) as ->; [|done].
    apply Huniq; [|done]. rewrite Hl. apply elem_of_app. by left.
Qed.

Lemma unparsable_no_metadata ws fs d :
  unparsable ws fs d → private_metadata ws fs d = None.
Proof. intros [t Ht]. unfold private_metadata. by rewrite Ht. Qed.

Lemma unmetadataed_no_metadata ws fs d :
  unmetadataed ws fs d → private_metadata ws fs d = None.
Proof.
  intros (t & tpl & Ht & Hn & Hf). unfold private_metadata.
  by rewrite Ht, Hn, Hf.
Qed.

Lemma collect_cons now ws fs d rest :
  fst (LambdaDetector.collect (iso now) ws fs (d :: rest)) =
    match listing now ws fs d with
    | Some c => c :: fst (LambdaDetector.collect (iso now) ws fs rest)
    | None => fst (LambdaDetector.collect (iso now) ws fs rest)
    end.
Proof.
  simpl. destruct (LambdaDetector.collect (iso now) ws fs rest) as [cs ls].
  rewrite existsSync_lookup.
  unfold listing, private_metadata, LambdaDetector.describe, Fs.readYaml.
  destruct (fs !! path_join (path_join ws d) "template.yaml")
    as [[t [tpl|]|t es]|]; simpl; try reflexivity.
  unfold get. destruct (nullish tpl); simpl; [reflexivity|].
  destruct (truthy (opt_get (opt_get tpl "Metadata") "GeckoLambda")); reflexivity.
Qed.

Lemma collect_listing now ws fs l :
  fst (LambdaDetector.collect (iso now) ws fs l) = omap (listing now ws fs) l.
Proof.
  induction l as [|d rest IH]; [done|].
  rewrite collect_cons, IH. simpl.
  destruct (listing now ws fs d); reflexivity.
Qed.

Lemma collect_logs_mono now ws fs d rest e :
  e ∈ snd (LambdaDetector.collect (iso now) ws fs rest) →
  e ∈ snd (LambdaDetector.collect (iso now) ws fs (d :: rest)).
Proof.
  simpl. destruct (LambdaDetector.collect (iso now) ws fs rest) as [cs ls].
  simpl. intros He.
  destruct (Fs.existsSync fs _); [|done].
  destruct (LambdaDetector.describe _ _ _ _) as [[c|]|err]; simpl;
    [done | by right | by right].
Qed.

Lemma collect_logs_skip now ws fs l d :
  d ∈ l → unmetadataed ws fs d →
  skip_message d ∈ snd (LambdaDetector.collect (iso now) ws fs l).
Proof.
  intros Hd (t & tpl & Ht & Hn & Hf).
  induction Hd as [d l|d d' l Hd IH]; [|by apply collect_logs_mono, IH].
  simpl. destruct (LambdaDetector.collect (iso now) ws fs l) as [cs ls].
  rewrite existsSync_lookup, Ht.
  unfold LambdaDetector.describe, Fs.readYaml. rewrite Ht. simpl.
  unfold get. rewrite Hn. simpl. rewrite Hf. simpl. left.
Qed.

Lemma collect_logs_parse now ws fs l d :
  d ∈ l → unparsable ws fs d →
  parse_message d ∈ snd (LambdaDetector.collect (iso now) ws fs l).
Proof.
  intros Hd (t & Ht).
  induction Hd as [d l|d d' l Hd IH]; [|by apply collect_logs_mono, IH].
  simpl. destruct (LambdaDetector.collect (iso now) ws fs l) as [cs ls].
  rewrite existsSync_lookup, Ht.
  unfold LambdaDetector.describe, Fs.readYaml. rewrite Ht. simpl. left.
Qed.

Lemma getAllLambdaFunctions_collect now ws fs :
  LambdaDetector.getAllLambdaFunctions_log now ws fs =
    LambdaDetector.collect (iso now) ws fs (subdirectories ws fs)
  ∨ subdirectories ws fs = [] ∧
    fst (LambdaDetector.getAllLambdaFunctions_log now ws fs) = [].
Proof.
  unfold LambdaDetector.getAllLambdaFunctions_log, subdirectories,
    Fs.readdirSync.
  rewrite existsSync_lookup.
  destruct (fs !! ws) as [[t c|t es]|]; simpl; auto.
Qed.

(** C8. getAllLambdaFunctions returns, in the order of the listing, one
    configuration for each function directory whose manifest has a
    private metadata block, and nothing else; a manifest without the block
    is skipped with a log line, a manifest that does not parse is skipped
    with an error line, and neither stops the scan: the directories before
    and after it are processed and returned. *)
Theorem getAllLambdaFunctions_skips now ws fs :
  LambdaDetector.getAllLambdaFunctions now ws fs
    = omap (listing now ws fs) (subdirectories ws fs)
  ∧ (∀ l1 d l2,
       subdirectories ws fs = (l1 ++ d :: l2)%list →
       unparsable ws fs d ∨ unmetadataed ws fs d →
       LambdaDetector.getAllLambdaFunctions now ws fs
         = (omap (listing now ws fs) l1 ++ omap (listing now ws fs) l2)%list)
  ∧ (∀ d, d ∈ subdirectories ws fs → unmetadataed ws fs d →
       skip_message d
         ∈ snd (LambdaDetector.getAllLambdaFunctions_log now ws fs))
  ∧ (∀ d, d ∈ subdirectories ws fs → unparsable ws fs d →
       parse_message d
         ∈ snd (LambdaDetector.getAllLambdaFunctions_log now ws fs)).
Proof.
  assert (LambdaDetector.getAllLambdaFunctions now ws fs
    = omap (listing now ws fs) (subdirectories ws fs)) as Hall.
  { unfold LambdaDetector.getAllLambdaFunctions.
    destruct (getAllLambdaFunctions_collect now ws fs) as [->|[-> ->]];
      [apply collect_listing | done]. }
  split; [exact Hall|]. split; [|split].
  - intros l1 d l2 Hl Hd. rewrite Hall, Hl, omap_app. f_equal. simpl.
    unfold listing at 1.
    destruct Hd as [Hd|Hd];
      [rewrite (unparsable_no_metadata _ _ _ Hd)
      |rewrite (unmetadataed_no_metadata _ _ _ Hd)]; reflexivity.
  - intros d Hd Hm.
    destruct (getAllLambdaFunctions_collect now ws fs) as [->|[Hnil _]].
    + by apply collect_logs_skip.
    + rewrite Hnil in Hd. inversion Hd.
  - intros d Hd Hm.
    destruct (getAllLambdaFunctions_collect now ws fs) as [->|[Hnil _]].
    + by apply collect_logs_parse.
    + rewrite Hnil in Hd. inversion Hd.
Qed.

End Registry.

Lemma getConfiguration_first_claim_witness :
  LambdaDetector.getConfiguration RegistryExample.now "/ws"
    "/src/mailer/main.go" RegistryExample.workspace
  = Some {| LambdaDetector.functionName := "mailer";
            LambdaDetector.workspacePath := "/ws";
            LambdaDetector.eventType := VStr "s3";
            LambdaDetector.lastModified := VStr "2024-05-01T10:00:00.000Z";
            LambdaDetector.sourceFile := VStr "/src/mailer/main.go";
            LambdaDetector.sourceDir := VStr "/src/mailer" |}
  ∧ LambdaDetector.getConfiguration RegistryExample.now "/ws"
      "/src/unknown/main.go" RegistryExample.workspace = None.
Proof.
  split.
  - apply (proj1 (proj2 (getConfiguration_first_claim RegistryExample.now "/ws"
      "/src/mailer/main.go" RegistryExample.workspace))
      ["orders"; "legacy"; "broken"] "mailer" []
      (VObj [("sourceFile", VStr "/src/mailer/main.go");
             ("sourceDir", VStr "/src/mailer");
             ("eventType", VStr "s3");
             ("lastModified", VStr "2024-05-01T10:00:00.000Z");
             ("version", VStr "2.0")])).
    + vm_compute. reflexivity.
    + intros d' Hd'. repeat (apply elem_of_cons in Hd' as [->|Hd']);
        [vm_compute; reflexivity ..|inversion Hd'].
    + vm_compute. reflexivity.
    + reflexivity.
  - apply (proj1 (getConfiguration_first_claim RegistryExample.now "/ws"
      "/src/unknown/main.go" RegistryExample.workspace)).
    intros d Hd. vm_compute in Hd.
    repeat (apply elem_of_cons in Hd as [->|Hd]);
      [vm_compute; reflexivity ..|inversion Hd].
Defined.

Lemma getAllLambdaFunctions_skips_witness :
  LambdaDetector.getAllLambdaFunctions RegistryExample.now "/ws"
    RegistryExample.workspace
  = (omap (listing RegistryExample.now "/ws" RegistryExample.workspace)
       ["orders"; "legacy"]
     ++ omap (listing RegistryExample.now "/ws" RegistryExample.workspace)
       ["mailer"])%list
  ∧ skip_message "legacy"
      ∈ snd (LambdaDetector.getAllLambdaFunctions_log RegistryExample.now "/ws"
               RegistryExample.workspace).
Proof.
  split.
  - apply (proj1 (proj2 (getAllLambdaFunctions_skips RegistryExample.now "/ws"
      RegistryExample.workspace)) ["orders"; "legacy"] "broken" ["mailer"]).
    + vm_compute. reflexivity.
    + left. exists 7. vm_compute. reflexivity.
  - apply (proj1 (proj2 (proj2 (getAllLambdaFunctions_skips RegistryExample.now
      "/ws" RegistryExample.workspace)))).
    + vm_compute. right. left.
    + exists 6, RegistryExample.bare_manifest. vm_compute. done.
Defined.

(** The listing of the example workspace: the two complete manifests *)
Example getAllLambdaFunctions_example :
  map LambdaDetector.functionName
    (LambdaDetector.getAllLambdaFunctions RegistryExample.now "/ws"
       RegistryExample.workspace) = ["orders"; "mailer"].
Proof. vm_compute. reflexivity. Qed.

(** ** The manifest store *)

Section ManifestStore.
Context `{Path}.

Lemma truthy_not_nullish v : truthy v = true → nullish v = false.
Proof. destruct v; simpl; congruence. Qed.

Lemma or_obj_not_nullish v fs : nullish (or v (VObj fs)) = false.
Proof.
  unfold or. destruct (truthy v) eqn:Hv; [by apply truthy_not_nullish | done].
Qed.

Lemma find_function_from_found i es j key r :
  TemplateManager.find_function_from i es = Ok (Some (j, key, r)) →
  nullish r = false
  ∧ str_eq (opt_get r "Type") TemplateManager.FUNCTION_TYPE = true
  ∧ es !! (j - i)%nat = Some (key, r) ∧ (i ≤ j)%nat.
Proof.
  revert i. induction es as [|[k x] rest IH]; intros i Hf; [discriminate|].
  simpl in Hf. unfold TemplateManager.is_function, get in Hf.
  destruct (nullish x) eqn:Hx; [discriminate|]. simpl in Hf.
  destruct (str_eq (opt_get x "Type") TemplateManager.FUNCTION_TYPE) eqn:Ht.
  - injection Hf as <- <- <-. rewrite Nat.sub_diag. done.
  - apply IH in Hf as (? & ? & Hl & Hle). repeat split; try done; [|lia].
    replace (j - i)%nat with (S (j - S i)) by lia. done.
Qed.

Lemma find_function_found resources j key r :
  TemplateManager.find_function resources = Ok (Some (j, key, r)) →
  nullish r = false
  ∧ str_eq (opt_get r "Type") TemplateManager.FUNCTION_TYPE = true
  ∧ own_entries resources !! j = Some (key, r).
Proof.
  intros (? & ? & Hl & _)%find_function_from_found.
  rewrite Nat.sub_0_r in Hl. done.
Qed.

Lemma extractConfig_found now lambdaDir fb t i key res :
  nullish t = false →
  TemplateManager.find_function (or (opt_get t "Resources") (VObj []))
    = Ok (Some (i, key, res)) →
  String.eqb key "" = false →
  TemplateManager.extractConfig now lambdaDir fb t =
    ev ← read_eventType (opt_get (opt_get t "Metadata") "GeckoLambda")
           (or (opt_get res "Properties") (VObj []));
    Ok (view now lambdaDir fb t key res ev).
Proof.
  intros Ht Hf Hkey. unfold TemplateManager.extractConfig.
  rewrite !(get_not_nullish t) by done. simpl. rewrite Hf. simpl.
  rewrite Hkey.
  apply find_function_found in Hf as (Hres & _ & _).
  rewrite (get_not_nullish res) by done. simpl.
  rewrite !(get_not_nullish (or _ (VObj _))) by apply or_obj_not_nullish.
  simpl. unfold read_eventType.
  destruct (truthy (opt_get (opt_get (opt_get t "Metadata") "GeckoLambda")
              "eventType")); simpl; [reflexivity|].
  destruct (TemplateManager.detectEventTypeFromEvents _); reflexivity.
Qed.

Lemma extractConfig_Ok now lambdaDir fb t c :
  TemplateManager.extractConfig now lambdaDir fb t = Ok c →
  ∃ i key res ev,
    nullish t = false
    ∧ TemplateManager.find_function (or (opt_get t "Resources") (VObj []))
        = Ok (Some (i, key, res))
    ∧ read_eventType (opt_get (opt_get t "Metadata") "GeckoLambda")
        (or (opt_get res "Properties") (VObj [])) = Ok ev
    ∧ c = view now lambdaDir fb t key res ev.
Proof.
  intros Hc.
  destruct (nullish t) eqn:Ht.
  { unfold TemplateManager.extractConfig in Hc.
    rewrite (get_nullish t "Metadata") in Hc by done. discriminate. }
  destruct (TemplateManager.find_function (or (opt_get t "Resources") (VObj [])))
    as [[[[i key] res]|]|e] eqn:Hf.
  - destruct (String.eqb key "") eqn:Hkey.
    { unfold TemplateManager.extractConfig in Hc.
      rewrite !(get_not_nullish t) in Hc by done. simpl in Hc.
      rewrite Hf in Hc. simpl in Hc. rewrite Hkey in Hc. discriminate. }
    rewrite (extractConfig_found _ _ _ _ _ _ _ Ht Hf Hkey) in Hc.
    apply bind_Ok in Hc as (ev & Hev & Hc). simpl in Hc.
    exists i, key, res, ev. repeat split; try done. congruence.
  - unfold TemplateManager.extractConfig in Hc.
    rewrite !(get_not_nullish t) in Hc by done. simpl in Hc.
    rewrite Hf in Hc. simpl in Hc. discriminate.
  - unfold TemplateManager.extractConfig in Hc.
    rewrite !(get_not_nullish t) in Hc by done. simpl in Hc.
    rewrite Hf in Hc. simpl in Hc. discriminate.
Qed.


(** *** Reading and writing fields of a mapping *)

Lemma lookup_set_field_eq k x fs : lookup_field k (set_field k x fs) = x.
Proof.
  induction fs as [|[k' v] r IH]; simpl.
  - by rewrite String.eqb_refl.
  - destruct (String.eqb k' k) eqn:E; simpl; rewrite E; [done | apply IH].
Qed.

Lemma lookup_set_field_ne k k' x fs :
  k' ≠ k → lookup_field k' (set_field k x fs) = lookup_field k' fs.
Proof.
  intros Hne. induction fs as [|[k0 v] r IH]; simpl.
  - destruct (String.eqb k k') eqn:E; [|done].
    apply String.eqb_eq in E. done.
  - destruct (String.eqb k0 k) eqn:E; simpl.
    + apply String.eqb_eq in E as ->.
      destruct (String.eqb k k') eqn:E'; [|done].
      apply String.eqb_eq in E'. done.
    + by rewrite IH.
Qed.

Lemma set_field_set_field k x y fs :
  set_field k x (set_field k y fs) = set_field k x fs.
Proof.
  induction fs as [|[k' v] r IH]; simpl.
  - by rewrite String.eqb_refl.
  - destruct (String.eqb k' k) eqn:E; simpl; rewrite E; [done | by rewrite IH].
Qed.

Lemma set_field_keys k x fs :
  ∃ extra, map fst (set_field k x fs) = (map fst fs ++ extra)%list.
Proof.
  induction fs as [|[k' v] r [extra IH]]; simpl.
  - by exists [k].
  - destruct (String.eqb k' k); simpl.
    + exists []. by rewrite app_nil_r.
    + exists extra. by rewrite IH.
Qed.

Lemma falsy_no_entries v : truthy v = false → own_entries v = [].
Proof.
  destruct v as [| |b|n|s|l|fs]; simpl; try done.
  destruct s; [done | discriminate].
Qed.

Lemma falsy_opt_get v k : truthy v = false → opt_get v k = VUndef.
Proof. intros Hv. unfold opt_get. by rewrite falsy_no_entries. Qed.

Lemma ensure_not_nullish o k o' c :
  TemplateManager.ensure o k = Ok (o', c) → nullish c = false.
Proof.
  unfold TemplateManager.ensure, get. destruct (nullish o); [discriminate|].
  simpl. destruct (truthy (opt_get o k)) eqn:Hc.
  - intros [= <- <-]. by apply truthy_not_nullish.
  - destruct (set o k (VObj [])); simpl; [|discriminate]. by intros [= <- <-].
Qed.

Lemma mergeGeckoMetadata_with_block now sf sd et t :
  TemplateManager.mergeGeckoMetadata now sf sd et t
  = with_block (merged_block now sf sd et) t.
Proof.
  unfold TemplateManager.mergeGeckoMetadata, with_block.
  destruct (TemplateManager.ensure t "Metadata") as [[t1 md]|e] eqn:He;
    [|done].
  simpl. rewrite get_not_nullish by (eapply ensure_not_nullish; eauto).
  reflexivity.
Qed.

Lemma replaceGeckoMetadata_with_block now sf sd et t :
  ConfigManager.replaceGeckoMetadata now sf sd et t
  = with_block (λ _, fresh_block now sf sd et) t.
Proof. reflexivity. Qed.

Lemma frame_refl t : frame t t.
Proof. repeat split; try done. exists []. by rewrite app_nil_r. Qed.

Lemma with_block_frame block t t' : with_block block t = Ok t' → frame t t'.
Proof.
  unfold with_block, TemplateManager.ensure, get.
  destruct t as [| |b|n|s|l|fs]; simpl; try discriminate.
  - (* a scalar string *)
    destruct (truthy (opt_get (VStr s) "Metadata")); simpl; [|discriminate].
    destruct (set _ _ _); simpl; [|discriminate].
    intros [= <-]. apply frame_refl.
  - (* a sequence *)
    destruct (truthy (opt_get (VArr l) "Metadata")); simpl.
    + destruct (set _ _ _); simpl; [|discriminate].
      intros [= <-]. apply frame_refl.
    + intros [= <-]. apply frame_refl.
  - (* a mapping *)
    change (opt_get (VObj fs) "Metadata") with (lookup_field "Metadata" fs).
    destruct (truthy (lookup_field "Metadata" fs)) eqn:Hmd; simpl.
    + destruct (lookup_field "Metadata" fs) as [| |b|n|s|l|ms] eqn:Hl;
        simpl; try discriminate; intros [= <-]; unfold frame, opt_get; simpl.
      * repeat split.
        -- intros k Hk. by apply lookup_set_field_ne.
        -- apply set_field_keys.
        -- intros k Hk. by rewrite lookup_set_field_eq, Hl.
      * repeat split.
        -- intros k Hk. by apply lookup_set_field_ne.
        -- apply set_field_keys.
        -- intros k Hk. rewrite lookup_set_field_eq, Hl. simpl.
           by apply lookup_set_field_ne.
    + intros [= <-]. unfold frame, opt_get; simpl. repeat split.
      * intros k Hk. by rewrite !lookup_set_field_ne by done.
      * rewrite set_field_set_field. apply set_field_keys.
      * intros k Hk. rewrite lookup_set_field_eq. simpl.
        rewrite (falsy_no_entries _ Hmd). simpl.
        destruct (String.eqb "GeckoLambda" k) eqn:E; [|done].
        apply String.eqb_eq in E. by subst.
Qed.

Lemma readTemplate_Ok dir fs t :
  TemplateManager.readTemplate dir fs = Ok t
  ↔ ∃ mt, fs !! path_join dir "template.yaml" = Some (File mt (Some t)).
Proof.
  unfold TemplateManager.readTemplate, Fs.readYaml.
  rewrite existsSync_lookup.
  destruct (fs !! path_join dir "template.yaml") as [[mt [v|]|mt es]|]; simpl;
    split; try discriminate; try (intros [? ?]; discriminate).
  - intros [= ->]. eauto.
  - intros [? [= _ ->]]. done.
Qed.

Lemma writeYaml_Ok now p v fs fs' :
  Fs.writeYaml now p v fs = Ok fs' → fs' = <[p := File (ms now) (Some v)]> fs.
Proof.
  unfold Fs.writeYaml. destruct (fs !! p) as [[? ?|? ?]|]; congruence.
Qed.

Lemma readTemplate_insert now dir t fs :
  TemplateManager.readTemplate dir
    (<[path_join dir "template.yaml" := File (ms now) (Some t)]> fs) = Ok t.
Proof. apply readTemplate_Ok. exists (ms now). apply lookup_insert_eq. Qed.

Lemma with_block_mapping block t :
  mapping_manifest t → ∃ t', with_block block t = Ok t'.
Proof.
  intros [[fs ->] Hm]. unfold with_block, TemplateManager.ensure, get. simpl.
  destruct Hm as [Hm|[ms Hm]]; rewrite Hm; simpl; eauto.
Qed.

Lemma writeYaml_over_template now dir t v fs :
  TemplateManager.readTemplate dir fs = Ok t →
  Fs.writeYaml now (path_join dir "template.yaml") v fs
  = Ok (<[path_join dir "template.yaml" := File (ms now) (Some v)]> fs).
Proof.
  intros [mt Hl]%readTemplate_Ok. unfold Fs.writeYaml. by rewrite Hl.
Qed.

Lemma merge_update_Ok now dir sf sd et fs t t' :
  TemplateManager.readTemplate dir fs = Ok t →
  with_block (merged_block (iso now) sf sd et) t = Ok t' →
  TemplateManager.updateGeckoMetadata now dir sf sd et fs
  = Ok (<[path_join dir "template.yaml" := File (ms now) (Some t')]> fs).
Proof.
  intros Ht Hw. unfold TemplateManager.updateGeckoMetadata.
  rewrite Ht. simpl. rewrite mergeGeckoMetadata_with_block, Hw. simpl.
  by eapply writeYaml_over_template.
Qed.

Lemma replace_update_Ok now dir sf sd et fs t t' :
  TemplateManager.readTemplate dir fs = Ok t →
  with_block (λ _, fresh_block (iso now) sf sd et) t = Ok t' →
  ConfigManager.updateGeckoMetadata now dir sf sd et fs
  = Ok (<[path_join dir "template.yaml" := File (ms now) (Some t')]> fs).
Proof.
  intros Ht Hw. unfold ConfigManager.updateGeckoMetadata.
  rewrite Ht. simpl. rewrite replaceGeckoMetadata_with_block, Hw. simpl.
  by eapply writeYaml_over_template.
Qed.

(** On the file system, which holds a manifest as the tree that its text
    means: either updateGeckoMetadata leaves every section of the tree
    other than the private metadata block as it was, and touches no other
    file. Both writers succeed on every manifest that is a mapping whose
    Metadata is a mapping or empty. The tree is what the code writes when
    Metadata is a node of its own; the manifests where it is shared are
    the matter of the section on documents with shared nodes. *)
Lemma updateGeckoMetadata_on_trees now dir sf sd et fs :
  (∀ fs',
     ConfigManager.updateGeckoMetadata now dir sf sd et fs = Ok fs'
     ∨ TemplateManager.updateGeckoMetadata now dir sf sd et fs = Ok fs' →
     ∃ t t',
       TemplateManager.readTemplate dir fs = Ok t
       ∧ TemplateManager.readTemplate dir fs' = Ok t'
       ∧ frame t t'
       ∧ ∀ p, p ≠ path_join dir "template.yaml" → fs' !! p = fs !! p)
  ∧ (∀ t, TemplateManager.readTemplate dir fs = Ok t → mapping_manifest t →
       is_ok (ConfigManager.updateGeckoMetadata now dir sf sd et fs) = true
       ∧ is_ok (TemplateManager.updateGeckoMetadata now dir sf sd et fs) = true).
Proof.
  split.
  - unfold ConfigManager.updateGeckoMetadata,
      TemplateManager.updateGeckoMetadata.
    intros fs' [Hu|Hu];
      apply bind_Ok in Hu as (t & Ht & Hu);
      apply bind_Ok in Hu as (t' & Hb & Hw);
      apply writeYaml_Ok in Hw as ->;
      [rewrite replaceGeckoMetadata_with_block in Hb
      |rewrite mergeGeckoMetadata_with_block in Hb];
      (exists t, t'; split; [done|]; split; [apply readTemplate_insert|];
       split; [by eapply with_block_frame|];
       intros p Hp; by rewrite lookup_insert_ne).
  - intros t Ht Hm.
    destruct (with_block_mapping (λ _, fresh_block (iso now) sf sd et) t Hm)
      as [t1 H1].
    destruct (with_block_mapping (merged_block (iso now) sf sd et) t Hm)
      as [t2 H2].
    by rewrite (replace_update_Ok _ _ _ _ _ _ _ _ Ht H1),
      (merge_update_Ok _ _ _ _ _ _ _ _ Ht H2).
Qed.

(** *** Array indices are numerals

    The keys of an array or of a string are decimal numerals; a property
    name that does not start with a digit is found on mappings only. *)

Lemma pretty_N_char_digit x : StringUtils.is_digit (pretty_N_char x) = true.
Proof. unfold pretty_N_char. by repeat case_match. Qed.

Lemma pretty_N_go_digit x s :
  (0 < x)%N ∨ starts_with_digit s = true →
  starts_with_digit (pretty_N_go x s) = true.
Proof.
  revert s. induction (N.lt_wf_0 x) as [x _ IH]; intros s Hs.
  assert (x = 0 ∨ 0 < x)%N as [->|Hx] by lia.
  - rewrite pretty_N_go_0. destruct Hs as [Hs|Hs]; [lia | done].
  - rewrite pretty_N_go_step by done. apply IH.
    + by apply N.div_lt.
    + right. simpl. apply pretty_N_char_digit.
Qed.

Lemma pretty_nat_digit (i : nat) : starts_with_digit (pretty i) = true.
Proof.
  unfold pretty, pretty_nat, pretty, pretty_N.
  case_decide; [done|]. apply pretty_N_go_digit. left. lia.
Qed.

Lemma lookup_indexed_name k (f : nat → nat) l :
  starts_with_digit k = false →
  lookup_field k (imap (λ i v, (pretty (f i), v)) l) = VUndef.
Proof.
  intros Hk. revert f. induction l as [|x l IH]; intros f; [done|].
  simpl. destruct (String.eqb (pretty (f 0%nat)) k) eqn:E.
  - apply String.eqb_eq in E. subst k. by rewrite pretty_nat_digit in Hk.
  - apply (IH (f ∘ S)).
Qed.

Lemma opt_get_name_mapping v k :
  starts_with_digit k = false → opt_get v k ≠ VUndef → ∃ fs, v = VObj fs.
Proof.
  intros Hk Hv. destruct v as [| |b|n|s|l|fs]; try done; [..|by eauto];
    exfalso; apply Hv; apply (lookup_indexed_name k id _ Hk).
Qed.

Lemma truthy_defined v : truthy v = true → v ≠ VUndef.
Proof. by intros Hv ->. Qed.

(** *** The block after a write *)

Lemma with_block_block block t t' :
  with_block block t = Ok t' →
  truthy (opt_get (opt_get t "Metadata") "GeckoLambda") = true →
  opt_get (opt_get t' "Metadata") "GeckoLambda"
  = block (opt_get (opt_get t "Metadata") "GeckoLambda").
Proof.
  intros Hw Hg.
  destruct (opt_get_name_mapping (opt_get t "Metadata") "GeckoLambda")
    as [ms Hms]; [done | by apply truthy_defined|].
  destruct (opt_get_name_mapping t "Metadata") as [fs ->];
    [done | by rewrite Hms|].
  unfold with_block, TemplateManager.ensure, get in Hw. simpl in Hw.
  rewrite Hms in *. simpl in Hw. injection Hw as <-.
  unfold opt_get at 2. simpl. rewrite lookup_set_field_eq.
  unfold opt_get. simpl. by rewrite lookup_set_field_eq.
Qed.

Lemma with_block_succeeds block t :
  truthy (opt_get (opt_get t "Metadata") "GeckoLambda") = true →
  ∃ t', with_block block t = Ok t'.
Proof.
  intros Hg.
  destruct (opt_get_name_mapping (opt_get t "Metadata") "GeckoLambda")
    as [ms Hms]; [done | by apply truthy_defined|].
  destruct (opt_get_name_mapping t "Metadata") as [fs ->];
    [done | by rewrite Hms|].
  unfold with_block, TemplateManager.ensure, get. simpl.
  rewrite Hms. simpl. eauto.
Qed.

Lemma spread_then_other existing upd k :
  k ∉ map fst upd →
  lookup_field k (spread_then existing upd) = opt_get existing k.
Proof.
  unfold spread_then, opt_get. generalize (own_entries existing) as fs.
  induction upd as [|[k' x] upd IH]; intros fs Hk; [done|].
  simpl in *. rewrite IH.
  - apply lookup_set_field_ne. intros ->. apply Hk. left.
  - intros Hin. apply Hk. by right.
Qed.

Lemma merged_block_other now sf sd et g k :
  k ∉ ["sourceFile"; "sourceDir"; "eventType"; "lastModified"; "version"] →
  truthy g = true →
  opt_get (merged_block now sf sd et g) k = opt_get g k.
Proof.
  intros Hk Hg. unfold merged_block, opt_get at 1. simpl own_entries.
  rewrite spread_then_other by done. unfold or. by rewrite Hg.
Qed.

Lemma merged_block_written now sf sd et g :
  opt_get (merged_block now sf sd et g) "sourceFile" = VStr sf
  ∧ opt_get (merged_block now sf sd et g) "sourceDir" = VStr sd
  ∧ opt_get (merged_block now sf sd et g) "eventType" = VStr et
  ∧ opt_get (merged_block now sf sd et g) "lastModified" = VStr now
  ∧ opt_get (merged_block now sf sd et g) "version" = VStr "2.0".
Proof.
  unfold merged_block, opt_get, spread_then. simpl.
  generalize (own_entries (or g (VObj []))) as fs. intros fs.
  repeat split;
    repeat first [ rewrite lookup_set_field_eq; reflexivity
                 | rewrite lookup_set_field_ne by discriminate ].
Qed.

(** *** The read-write-read cycle *)




Lemma or_truthy a b : truthy a = true → or a b = a.
Proof. unfold or. by intros ->. Qed.

Lemma or_falsy a b : truthy a = false → or a b = b.
Proof. unfold or. by intros ->. Qed.

Lemma read_eventType_truthy g props :
  truthy (opt_get g "eventType") = true →
  read_eventType g props = Ok (opt_get g "eventType").
Proof. unfold read_eventType. by intros ->. Qed.




End ManifestStore.



(** ** Documents with shared nodes *)

Section SharedDocuments.
Context `{Path}.
Import Shared.

(** Induction on a document node, with the nodes below it *)

Lemma graph_nested_ind (P : graph → Prop) :
  P GUndef → P GNull → (∀ b, P (GBool b)) → (∀ n, P (GNum n)) →
  (∀ s, P (GStr s)) →
  (∀ l, Forall P l → P (GArr l)) →
  (∀ fs, Forall (λ kv, P kv.2) fs → P (GObj fs)) →
  (∀ a, P (GRef a)) →
  ∀ g, P g.
Proof.
  intros Hu Hn Hb Hz Hs Ha Ho Hr. fix IH 1.
  intros [| |b|n|s|l|fs|a];
    [apply Hu | apply Hn | apply Hb | apply Hz | apply Hs | | | apply Hr].
  - apply Ha. induction l as [|x l IHl]; constructor; [apply IH | apply IHl].
  - apply Ho. induction fs as [|[k x] fs IHfs]; constructor;
      [apply IH | apply IHfs].
Qed.

Lemma plain_GArr vs l :
  plain vs (GArr l) = items ← plain_items vs l; Ok (VArr items).
Proof.
  cbn [plain]. f_equal. induction l as [|x l IH]; [done|].
  cbn [plain_items]. by rewrite IH.
Qed.

Lemma plain_GObj vs fs :
  plain vs (GObj fs) = fields ← plain_fields vs fs; Ok (VObj fields).
Proof.
  cbn [plain]. f_equal. induction fs as [|[k x] fs IH]; [done|].
  cbn [plain_fields]. by rewrite IH.
Qed.


Lemma plain_items_Ok vs l items :
  plain_items vs l = Ok items ↔ Forall2 (λ x v, plain vs x = Ok v) l items.
Proof.
  revert items. induction l as [|x l IH]; intros items; cbn [plain_items].
  - split; [intros [= <-]; constructor | by intros ->%Forall2_nil_inv_l].
  - split.
    + intros (v & Hv & (r & Hr & [= <-])%bind_Ok)%bind_Ok.
      constructor; [done | by apply IH].
    + intros (v & r & Hv & Hr & ->)%Forall2_cons_inv_l.
      rewrite Hv. simpl. apply IH in Hr. by rewrite Hr.
Qed.

Lemma plain_fields_Ok vs fs fields :
  plain_fields vs fs = Ok fields
  ↔ Forall2 (λ kx kv, kx.1 = kv.1 ∧ plain vs kx.2 = Ok kv.2) fs fields.
Proof.
  revert fields. induction fs as [|[k x] fs IH]; intros fields;
    cbn [plain_fields].
  - split; [intros [= <-]; constructor | by intros ->%Forall2_nil_inv_l].
  - split.
    + intros (v & Hv & (r & Hr & [= <-])%bind_Ok)%bind_Ok.
      constructor; [done | by apply IH].
    + intros ([k' v] & r & [Hk Hv] & Hr & ->)%Forall2_cons_inv_l.
      simpl in Hk, Hv. subst k'. rewrite Hv. simpl. apply IH in Hr.
      by rewrite Hr.
Qed.

(** Expansion only looks at the shared nodes it meets *)
Lemma plain_mono vs vs2 g v :
  plain vs g = Ok v → plain (vs ++ vs2)%list g = Ok v.
Proof.
  revert v.
  induction g as [| |b|n|s|l IH|fs IH|a] using graph_nested_ind; intros v;
    try done.
  - rewrite !plain_GArr.
    intros (items & Hi & [= <-])%bind_Ok.
    assert (plain_items (vs ++ vs2)%list l = Ok items) as ->; [|done].
    apply plain_items_Ok. apply plain_items_Ok in Hi.
    induction Hi as [|x v l items Hx Hi IHi]; [constructor|].
    apply Forall_cons in IH as [IHx IH]. constructor; [by apply IHx | by apply IHi].
  - rewrite !plain_GObj.
    intros (fields & Hf & [= <-])%bind_Ok.
    assert (plain_fields (vs ++ vs2)%list fs = Ok fields) as ->; [|done].
    apply plain_fields_Ok. apply plain_fields_Ok in Hf.
    induction Hf as [|[k x] [k' v] fs fields [Hk Hx] Hf IHf]; [constructor|].
    apply Forall_cons in IH as [IHx IH].
    constructor; [split; [done | by apply IHx] | by apply IHf].
  - cbn [plain]. destruct (vs !! a) as [v'|] eqn:Ha; [|discriminate].
    intros [= <-]. by rewrite (lookup_app_l_Some _ _ _ _ Ha).
Qed.

Lemma plain_store_Ok earlier st vs :
  plain_store earlier st = Ok vs →
  ∃ rest, vs = (earlier ++ rest)%list ∧ length rest = length st
    ∧ ∀ a s, st !! a = Some s →
        ∃ v, rest !! a = Some v ∧ plain vs (inline s) = Ok v.
Proof.
  revert earlier. induction st as [|s st IH]; intros earlier; cbn [plain_store].
  - intros [= <-]. exists []. rewrite app_nil_r. repeat split; try done.
  - intros (v0 & Hv0 & Hrest)%bind_Ok.
    apply IH in Hrest as (rest & -> & Hlen & Hnodes).
    exists (v0 :: rest). rewrite <- app_assoc. split; [done|].
    split; [simpl; by rewrite Hlen|].
    intros [|a] s' Hs'.
    + injection Hs' as <-. exists v0. split; [done|]. by apply plain_mono.
    + destruct (Hnodes a s' Hs') as (v & Hv & Hp). exists v. split; [done|].
      by rewrite <- app_assoc in Hp.
Qed.

Lemma plain_store_consistent st vs :
  plain_store [] st = Ok vs → consistent st vs.
Proof.
  intros (rest & -> & Hlen & Hnodes)%plain_store_Ok. by split.
Qed.

Lemma plain_GRef st vs a v :
  consistent st vs → plain vs (GRef a) = Ok v →
  ∃ s, st !! a = Some s ∧ plain vs (inline s) = Ok v.
Proof.
  intros [Hlen Hnodes]. cbn [plain].
  destruct (vs !! a) as [v'|] eqn:Ha; [|discriminate]. intros [= <-].
  destruct (lookup_lt_is_Some_2 st a) as [s Hs].
  { rewrite <- Hlen. by eapply lookup_lt_Some. }
  destruct (Hnodes a s Hs) as (v & Hv & Hp). exists s. split; [done|].
  congruence.
Qed.


Lemma plain_lookup_field vs k fs fields :
  plain_fields vs fs = Ok fields →
  plain vs (lookup_field k fs) = Ok (JS.lookup_field k fields).
Proof.
  intros Hf%plain_fields_Ok.
  induction Hf as [|[k1 x] [k2 v] fs fields [Hk Hx] Hf IH]; [done|].
  simpl in Hk, Hx. subst k2. simpl. by destruct (String.eqb k1 k).
Qed.

Lemma plain_set_field vs k x v fs fields :
  plain_fields vs fs = Ok fields → plain vs x = Ok v →
  plain_fields vs (set_field k x fs) = Ok (JS.set_field k v fields).
Proof.
  intros Hf%plain_fields_Ok Hx. apply plain_fields_Ok.
  induction Hf as [|[k1 x1] [k2 v1] fs fields [Hk Hx1] Hf IH]; simpl.
  - by constructor.
  - simpl in Hk, Hx1. subst k2.
    destruct (String.eqb k1 k); constructor; done.
Qed.

Lemma plain_imap vs (f : nat → nat) l items :
  plain_items vs l = Ok items →
  plain_fields vs (imap (λ i x, (pretty (f i), x)) l)
  = Ok (imap (λ i v, (pretty (f i), v)) items).
Proof.
  intros Hi%plain_items_Ok. apply plain_fields_Ok. revert f.
  induction Hi as [|x v l items Hx Hi IH]; intros f; simpl; [constructor|].
  constructor; [done|]. apply (IH (f ∘ S)).
Qed.

Lemma plain_indexed vs l items :
  plain_items vs l = Ok items →
  plain_fields vs (indexed l) = Ok (JS.indexed items).
Proof. apply (plain_imap vs id). Qed.

Lemma plain_chars vs s : plain_items vs (chars s) = Ok (JS.chars s).
Proof. induction s as [|c s IH]; simpl; [done|]. by rewrite IH. Qed.

(** An inline node and its expansion have the same entries *)
Lemma plain_entries_inline vs g v :
  unshared g = true → plain vs g = Ok v →
  plain_fields vs
    match g with
    | GObj fs => fs
    | GArr l => indexed l
    | GStr s => indexed (chars s)
    | _ => []
    end
  = Ok (JS.own_entries v).
Proof.
  destruct g as [| |b|n|s|l|fs|a]; try discriminate; intros _.
  - by intros [= <-].
  - by intros [= <-].
  - by intros [= <-].
  - by intros [= <-].
  - intros [= <-]. apply plain_indexed, plain_chars.
  - rewrite plain_GArr. intros (items & Hi & [= <-])%bind_Ok.
    by apply plain_indexed.
  - rewrite plain_GObj. by intros (fields & Hf & [= <-])%bind_Ok.
Qed.

Lemma unshared_inline s : unshared (inline s) = true.
Proof. by destruct s. Qed.

Lemma plain_own_entries st vs g v :
  consistent st vs → plain vs g = Ok v →
  plain_fields vs (own_entries st g) = Ok (JS.own_entries v).
Proof.
  intros Hc Hg. unfold own_entries.
  destruct (unshared g) eqn:Hu.
  - replace (deref st g) with g by (by destruct g).
    by apply plain_entries_inline.
  - destruct g as [| | | | | | |a]; try discriminate.
    destruct (plain_GRef _ _ _ _ Hc Hg) as (s & Hs & Hp).
    cbn [deref]. rewrite Hs. cbn [from_option].
    apply plain_entries_inline; [apply unshared_inline | done].
Qed.

Lemma plain_opt_get st vs g v k :
  consistent st vs → plain vs g = Ok v →
  plain vs (opt_get st g k) = Ok (JS.opt_get v k).
Proof.
  intros Hc Hg. apply plain_lookup_field. by apply plain_own_entries.
Qed.

Lemma plain_truthy st vs g v :
  consistent st vs → plain vs g = Ok v → truthy g = JS.truthy v.
Proof.
  intros Hc. destruct g as [| |b|n|s|l|fs|a].
  1-5: by intros [= <-].
  - rewrite plain_GArr. by intros (items & Hi & [= <-])%bind_Ok.
  - rewrite plain_GObj. by intros (fields & Hf & [= <-])%bind_Ok.
  - intros (s & Hs & Hp)%(plain_GRef st); [|done].
    destruct s as [l|fs]; cbn [inline] in Hp.
    + rewrite plain_GArr in Hp. by apply bind_Ok in Hp as (items & Hi & [= <-]).
    + rewrite plain_GObj in Hp. by apply bind_Ok in Hp as (fields & Hf & [= <-]).
Qed.

Lemma plain_nullish st vs g v :
  consistent st vs → plain vs g = Ok v → nullish g = JS.nullish v.
Proof.
  intros Hc. destruct g as [| |b|n|s|l|fs|a].
  1-5: by intros [= <-].
  - rewrite plain_GArr. by intros (items & Hi & [= <-])%bind_Ok.
  - rewrite plain_GObj. by intros (fields & Hf & [= <-])%bind_Ok.
  - intros (s & Hs & Hp)%(plain_GRef st); [|done].
    destruct s as [l|fs]; cbn [inline] in Hp.
    + rewrite plain_GArr in Hp. by apply bind_Ok in Hp as (items & Hi & [= <-]).
    + rewrite plain_GObj in Hp. by apply bind_Ok in Hp as (fields & Hf & [= <-]).
Qed.

Lemma plain_or st vs a b a' b' :
  consistent st vs → plain vs a = Ok a' → plain vs b = Ok b' →
  plain vs (or a b) = Ok (JS.or a' b').
Proof.
  intros Hc Ha Hb. unfold or, JS.or. rewrite (plain_truthy _ _ _ _ Hc Ha).
  by destruct (JS.truthy a').
Qed.

Lemma plain_spread_then st vs a a' upd upd' :
  consistent st vs → plain vs a = Ok a' → plain_fields vs upd = Ok upd' →
  plain_fields vs (spread_then st a upd) = Ok (JS.spread_then a' upd').
Proof.
  intros Hc Ha Hu. unfold spread_then, JS.spread_then.
  pose proof (plain_own_entries _ _ _ _ Hc Ha) as He.
  revert He. generalize (own_entries st a) (JS.own_entries a').
  apply plain_fields_Ok in Hu.
  induction Hu as [|[k x] [k' v] upd upd' [Hk Hx] Hu IH]; intros fs fields He;
    [done|].
  simpl in Hk, Hx. subst k'. simpl. apply IH. by apply plain_set_field.
Qed.


(** An assignment to a property of an inline node changes that node and
    nothing else: it is the assignment on the tree *)
Lemma assign_unshared st vs o o' k x x' :
  unshared o = true → plain vs o = Ok o' → plain vs x = Ok x' →
  match assign st o k x, JS.set o' k x' with
  | Ok (st1, o1), Ok o1' =>
      st1 = st ∧ unshared o1 = true ∧ plain vs o1 = Ok o1'
  | Throw e, Throw e' => e = e'
  | _, _ => False
  end.
Proof.
  destruct o as [| |b|n|s|l|fs|a]; try discriminate; intros _.
  1-5: by intros [= <-].
  - rewrite plain_GArr. intros (items & Hi & [= <-])%bind_Ok Hx. cbn [assign JS.set].
    repeat split. by rewrite plain_GArr, Hi.
  - rewrite plain_GObj. intros (fields & Hf & [= <-])%bind_Ok Hx. cbn [assign JS.set].
    repeat split. by rewrite plain_GObj, (plain_set_field _ _ _ _ _ _ Hf Hx).
Qed.

Lemma write_back_unshared st vs o o' k x x' :
  unshared o = true → plain vs o = Ok o' → plain vs x = Ok x' →
  ∃ o1, write_back st o k x = (st, o1)
    ∧ plain vs o1 = Ok (TemplateManager.write_back o' k x').
Proof.
  unfold write_back.
  destruct o as [| |b|n|s|l|fs|a]; try discriminate; intros _.
  1-5: intros [= <-] _; by eexists.
  - rewrite plain_GArr. intros (items & Hi & [= <-])%bind_Ok Hx. cbn [assign TemplateManager.write_back].
    eexists. split; [done|]. by rewrite plain_GArr, Hi.
  - rewrite plain_GObj. intros (fields & Hf & [= <-])%bind_Ok Hx. cbn [assign TemplateManager.write_back].
    eexists. split; [done|].
    by rewrite plain_GObj, (plain_set_field _ _ _ _ _ _ Hf Hx).
Qed.

(** On a document whose root and Metadata are nodes of their own, the
    writer that assigns in place and the dump that follows give what the
    writer on trees gives *)
Lemma shared_with_block_unshared block_g block d t :
  dump d = Ok t → own_metadata d →
  (∀ st vs g v, consistent st vs → plain vs g = Ok v →
     plain vs (block_g st g) = Ok (block v)) →
  (d' ← shared_with_block block_g d; dump d') = with_block block t.
Proof.
  destruct d as [st r]. unfold dump, own_metadata. cbn [store root].
  intros (vs & Hst & Hr)%bind_Ok [Hur Hum] Hblock.
  pose proof (plain_store_consistent _ _ Hst) as Hc.
  pose proof (plain_opt_get _ _ _ _ "Metadata" Hc Hr) as Hmd.
  unfold shared_with_block, with_block, ensure, TemplateManager.ensure,
    get, JS.get.
  cbn [store root]. rewrite (plain_nullish _ _ _ _ Hc Hr).
  destruct (JS.nullish t); [reflexivity|]. cbn [mbind result_bind].
  rewrite (plain_truthy _ _ _ _ Hc Hmd).
  destruct (JS.truthy (JS.opt_get t "Metadata")) eqn:Htruthy.
  - (* Metadata holds something *)
    cbn [mbind result_bind].
    pose proof (plain_opt_get _ _ _ _ "GeckoLambda" Hc Hmd) as Hg.
    pose proof (assign_unshared st vs _ _ "GeckoLambda" _ _ Hum Hmd
                  (Hblock _ _ _ _ Hc Hg)) as Ha.
    destruct (assign st _ "GeckoLambda" _) as [[st2 m1]|e],
      (JS.set _ "GeckoLambda" _) as [m1'|e']; try done; try (by subst).
    destruct Ha as (-> & _ & Hm1). cbn [mbind result_bind].
    destruct (write_back_unshared st vs r t "Metadata" m1 m1' Hur Hr Hm1)
      as (r2 & -> & Hr2).
    cbn [mbind result_bind store root]. by rewrite Hst.
  - (* Metadata is created *)
    cbn [mbind result_bind].
    assert (plain vs (GObj []) = Ok (VObj [])) as Hempty by done.
    pose proof (assign_unshared st vs _ _ "Metadata" _ _ Hur Hr Hempty) as Ha.
    destruct (assign st r "Metadata" _) as [[st1 r1]|e],
      (JS.set t "Metadata" _) as [r1'|e']; try done; try (by subst).
    destruct Ha as (-> & Hur1 & Hr1). cbn [mbind result_bind].
    assert (plain vs GUndef = Ok VUndef) as Hundef by done.
    pose proof (assign_unshared st vs (GObj []) _ "GeckoLambda" _ _ eq_refl
                  Hempty (Hblock _ _ _ _ Hc Hundef)) as Ha.
    change (opt_get st (GObj []) "GeckoLambda") with GUndef.
    change (JS.opt_get (VObj []) "GeckoLambda") with VUndef.
    destruct (assign st (GObj []) "GeckoLambda" _) as [[st2 m1]|e],
      (JS.set (VObj []) "GeckoLambda" _) as [m1'|e']; try done; try (by subst).
    destruct Ha as (-> & _ & Hm1). cbn [mbind result_bind].
    destruct (write_back_unshared st vs r1 r1' "Metadata" m1 m1' Hur1 Hr1 Hm1)
      as (r2 & -> & Hr2).
    cbn [mbind result_bind store root]. by rewrite Hst.
Qed.


Lemma replaceGeckoMetadata_shared_with_block now sf sd et d :
  ConfigManager.replaceGeckoMetadata_in_place now sf sd et d
  = shared_with_block (λ _ _, fresh_block_shared now sf sd et) d.
Proof. reflexivity. Qed.

Lemma ensure_shared_not_nullish st o k st' o' c :
  ensure st o k = Ok (st', o', c) → nullish c = false.
Proof.
  unfold ensure, get. destruct (nullish o); [discriminate|].
  cbn [mbind result_bind]. destruct (truthy (opt_get st o k)) eqn:Hc.
  - intros [= <- <- <-]. by destruct (opt_get st o k).
  - destruct (assign st o k (GObj [])) as [[st1 o1]|e]; [|discriminate].
    by intros [= <- <- <-].
Qed.

Lemma mergeGeckoMetadata_shared_with_block now sf sd et d :
  TemplateManager.mergeGeckoMetadata_in_place now sf sd et d
  = shared_with_block (merged_block_shared now sf sd et) d.
Proof.
  unfold TemplateManager.mergeGeckoMetadata_in_place, shared_with_block.
  destruct (ensure (store d) (root d) "Metadata") as [[[st1 t1] md]|e] eqn:He;
    [|reflexivity].
  cbn [mbind result_bind]. unfold get.
  by rewrite (ensure_shared_not_nullish _ _ _ _ _ _ He).
Qed.

Lemma plain_merged_block now sf sd et st vs g v :
  consistent st vs → plain vs g = Ok v →
  plain vs (merged_block_shared now sf sd et st g)
  = Ok (merged_block now sf sd et v).
Proof.
  intros Hc Hg. unfold merged_block_shared, merged_block.
  rewrite plain_GObj.
  rewrite (plain_spread_then st vs _ (JS.or v (VObj [])) _ [
    ("sourceFile", VStr sf); ("sourceDir", VStr sd); ("eventType", VStr et);
    ("lastModified", VStr now); ("version", VStr "2.0") ] Hc);
    [done | by apply (plain_or st) | done].
Qed.

(** On a document whose Metadata is a node of its own, the statements
    that assign in place, followed by the dump, give what the statements
    on the tree give *)
Lemma mergeGeckoMetadata_unshared now sf sd et d t :
  dump d = Ok t → own_metadata d →
  (d' ← TemplateManager.mergeGeckoMetadata_in_place now sf sd et d; dump d')
  = TemplateManager.mergeGeckoMetadata now sf sd et t.
Proof.
  intros Hd Hown.
  rewrite mergeGeckoMetadata_shared_with_block, mergeGeckoMetadata_with_block.
  apply shared_with_block_unshared; [done..|].
  intros st vs g v. apply plain_merged_block.
Qed.

Lemma replaceGeckoMetadata_unshared now sf sd et d t :
  dump d = Ok t → own_metadata d →
  (d' ← ConfigManager.replaceGeckoMetadata_in_place now sf sd et d; dump d')
  = ConfigManager.replaceGeckoMetadata now sf sd et t.
Proof.
  intros Hd Hown.
  rewrite replaceGeckoMetadata_shared_with_block,
    replaceGeckoMetadata_with_block.
  by apply shared_with_block_unshared.
Qed.

(** On a manifest whose Metadata is a node of its own, each
    updateGeckoMetadata, as it assigns in place, writes what its version
    on trees writes *)
Lemma updateGeckoMetadata_unshared now dir sf sd et d t fs :
  TemplateManager.readTemplate dir fs = Ok t →
  dump d = Ok t → own_metadata d →
  TemplateManager.updateGeckoMetadata_in_place now dir sf sd et d fs
  = TemplateManager.updateGeckoMetadata now dir sf sd et fs
  ∧ ConfigManager.updateGeckoMetadata_in_place now dir sf sd et d fs
    = ConfigManager.updateGeckoMetadata now dir sf sd et fs.
Proof.
  intros Ht Hd Hown.
  unfold TemplateManager.updateGeckoMetadata_in_place,
    ConfigManager.updateGeckoMetadata_in_place,
    TemplateManager.updateGeckoMetadata, ConfigManager.updateGeckoMetadata.
  rewrite Ht. cbn [mbind result_bind].
  pose proof (mergeGeckoMetadata_unshared (iso now) sf sd et d t Hd Hown)
    as Hmerge.
  pose proof (replaceGeckoMetadata_unshared (iso now) sf sd et d t Hd Hown)
    as Hreplace.
  split.
  - rewrite <- Hmerge.
    by destruct (TemplateManager.mergeGeckoMetadata_in_place _ _ _ _ d).
  - rewrite <- Hreplace.
    by destruct (ConfigManager.replaceGeckoMetadata_in_place _ _ _ _ d).
Qed.

(** C4 (amended). For a manifest that yaml.load turns into the document
    [d], in which the root and Metadata are nodes of their own -- Metadata
    is not a node that an anchor and its aliases share with another place
    of the document -- either updateGeckoMetadata, assigning in place and
    dumping with noRefs, leaves every section other than the private
    metadata block as it was: each top-level section other than Metadata
    keeps its value, no key of the document is dropped or moved, every
    entry of Metadata other than the GeckoLambda block keeps its value,
    and no other file is touched. Nodes shared elsewhere in the document
    are written out in full, with the same meaning. Both writers succeed
    on every such manifest that is a mapping whose Metadata is a mapping
    or empty. *)
Theorem updateGeckoMetadata_frame_unshared now dir sf sd et d t fs :
  TemplateManager.readTemplate dir fs = Ok t →
  Shared.dump d = Ok t →
  own_metadata d →
  (∀ fs',
     ConfigManager.updateGeckoMetadata_in_place now dir sf sd et d fs = Ok fs'
     ∨ TemplateManager.updateGeckoMetadata_in_place now dir sf sd et d fs
       = Ok fs' →
     ∃ t',
       TemplateManager.readTemplate dir fs' = Ok t'
       ∧ frame t t'
       ∧ ∀ p, p ≠ path_join dir "template.yaml" → fs' !! p = fs !! p)
  ∧ (mapping_manifest t →
       is_ok (ConfigManager.updateGeckoMetadata_in_place now dir sf sd et d fs)
       = true
       ∧ is_ok (TemplateManager.updateGeckoMetadata_in_place now dir sf sd et
                  d fs) = true).
Proof.
  intros Ht Hd Hown.
  destruct (updateGeckoMetadata_unshared now dir sf sd et d t fs Ht Hd Hown)
    as [-> ->].
  destruct (updateGeckoMetadata_on_trees now dir sf sd et fs)
    as [Hframe Hsucceeds].
  split.
  - intros fs' Hfs'.
    destruct (Hframe fs' Hfs') as (t0 & t' & Ht0 & Ht' & Hf & Hother).
    exists t'. rewrite Ht in Ht0. injection Ht0 as <-. done.
  - intros Hm. by apply (Hsucceeds t).
Qed.

End SharedDocuments.

(** On the manifest whose function properties repeat the defaults of
    Globals through an alias *)
Lemma updateGeckoMetadata_frame_unshared_witness :
  ∃ t',
    TemplateManager.readTemplate "/ws/orders"
      (StoreExample.or_empty
         (TemplateManager.updateGeckoMetadata_in_place StoreExample.t2
            "/ws/orders" "/src/orders/main.go" "/src/orders" "sqs"
            AliasExample.anchored
            (AliasExample.workspace AliasExample.anchored))) = Ok t'
    ∧ frame (AliasExample.or_null (Shared.dump AliasExample.anchored)) t'
    ∧ ∀ p, p ≠ path_join "/ws/orders" "template.yaml" →
        StoreExample.or_empty
          (TemplateManager.updateGeckoMetadata_in_place StoreExample.t2
             "/ws/orders" "/src/orders/main.go" "/src/orders" "sqs"
             AliasExample.anchored
             (AliasExample.workspace AliasExample.anchored)) !! p
        = AliasExample.workspace AliasExample.anchored !! p.
Proof.
  apply (proj1 (updateGeckoMetadata_frame_unshared (H:=Posix.path)
    StoreExample.t2 "/ws/orders" "/src/orders/main.go" "/src/orders" "sqs"
    AliasExample.anchored
    (AliasExample.or_null (Shared.dump AliasExample.anchored))
    (AliasExample.workspace AliasExample.anchored)
    ltac:(vm_compute; reflexivity) ltac:(vm_compute; reflexivity)
    ltac:(split; reflexivity))).
  right. vm_compute. reflexivity.
Defined.

(** C4, as stated, fails on a manifest whose Metadata is shared: where
    the function resource repeats the top-level Metadata through an alias,
    both writers leave the private metadata block in the Metadata
    attribute of the resource as well, so the Resources section is not
    what it was. *)
Lemma updateGeckoMetadata_frame_counterexample :
  ∃ t fs1 fs2 t1 t2,
    TemplateManager.readTemplate "/ws/orders"
      (AliasExample.workspace AliasExample.manifest) = Ok t
    ∧ Shared.dump AliasExample.manifest = Ok t
    ∧ TemplateManager.updateGeckoMetadata_in_place StoreExample.t2
        "/ws/orders" "/src/orders/main.go" "/src/orders" "sqs"
        AliasExample.manifest (AliasExample.workspace AliasExample.manifest)
      = Ok fs1
    ∧ ConfigManager.updateGeckoMetadata_in_place StoreExample.t2
        "/ws/orders" "/src/orders/main.go" "/src/orders" "sqs"
        AliasExample.manifest (AliasExample.workspace AliasExample.manifest)
      = Ok fs2
    ∧ TemplateManager.readTemplate "/ws/orders" fs1 = Ok t1
    ∧ TemplateManager.readTemplate "/ws/orders" fs2 = Ok t2
    ∧ opt_get (opt_get (opt_get t "Resources") "OrdersFunction") "Metadata"
      = VObj [("Owner", VStr "orders-team")]
    ∧ opt_get (opt_get (opt_get t1 "Resources") "OrdersFunction") "Metadata"
      = VObj [("Owner", VStr "orders-team");
              ("GeckoLambda", VObj [
                 ("sourceFile", VStr "/src/orders/main.go");
                 ("sourceDir", VStr "/src/orders");
                 ("eventType", VStr "sqs");
                 ("lastModified", VStr (iso StoreExample.t2));
                 ("version", VStr "2.0")])]
    ∧ opt_get t2 "Resources" = opt_get t1 "Resources"
    ∧ ¬ frame t t1 ∧ ¬ frame t t2.
Proof.
  eexists _, _, _, _, _.
  split; [vm_compute; reflexivity|]. split; [vm_compute; reflexivity|].
  split; [vm_compute; reflexivity|]. split; [vm_compute; reflexivity|].
  split; [vm_compute; reflexivity|]. split; [vm_compute; reflexivity|].
  split; [vm_compute; reflexivity|]. split; [vm_compute; reflexivity|].
  split; [vm_compute; reflexivity|].
  split; intros [Hsections _]; specialize (Hsections "Resources");
    vm_compute in Hsections; by specialize (Hsections ltac:(discriminate)).
Qed.

(** ** Environment variables *)

Section Environment.
Context `{Path}.

Lemma setEnvironmentVariables_unfold now environment label t :
  TemplateManager.setEnvironmentVariables now environment label t =
    r0 ← get t "Resources";
    found ← TemplateManager.find_function (or r0 (VObj []));
    match found with
    | None => Throw MissingResource
    | Some (i, _, functionResource) =>
        functionResource2 ←
          update_child functionResource "Properties" (λ properties,
            update_child properties "Environment" (λ environment0,
              set environment0 "Variables" (VObj environment)));
        update_child
          (TemplateManager.write_back t "Resources"
             (TemplateManager.write_back_entry (or r0 (VObj [])) i
                functionResource2))
          "Metadata" (λ metadata,
            update_child metadata "GeckoLambda"
              (stamp now environment label))
    end.
Proof.
  unfold TemplateManager.setEnvironmentVariables.
  destruct (get t "Resources") as [r0|e]; simpl; [|done].
  destruct (TemplateManager.find_function (or r0 (VObj [])))
    as [[[[i key] res]|]|e]; simpl; try done.
  unfold update_child.
  destruct (TemplateManager.ensure res "Properties") as [[res1 props]|e];
    simpl; [|done].
  destruct (TemplateManager.ensure props "Environment") as [[props1 env0]|e];
    simpl; [|done].
  destruct (set env0 "Variables" (VObj environment)) as [env1|e]; simpl;
    [|done].
  destruct (TemplateManager.ensure _ "Metadata") as [[t2 md]|e]; simpl;
    [|done].
  destruct (TemplateManager.ensure md "GeckoLambda") as [[md1 g]|e]; simpl;
    [|done].
  unfold stamp, environmentInfo.
  destruct (set g "environmentInfo" _) as [g1|e]; simpl; [|done].
  destruct (set g1 "lastModified" _) as [g2|e]; simpl; done.
Qed.


Lemma update_child_own o k f o' :
  update_child o k f = Ok o' →
  is_sequence o = false → starts_with_digit k = false →
  ∃ c', f (child o k) = Ok c' ∧ opt_get o' k = c'.
Proof.
  unfold update_child, TemplateManager.ensure, get, child.
  destruct (nullish o) eqn:Hn; [discriminate|]. simpl.
  intros Hu Hseq Hk.
  destruct (truthy (opt_get o k)) eqn:Hc; simpl in Hu.
  - destruct (opt_get_name_mapping o k Hk) as [fs ->];
      [by apply truthy_defined|].
    destruct (f _) as [c'|]; simpl in Hu; [|discriminate].
    injection Hu as <-. exists c'. split; [done|].
    unfold opt_get. simpl. apply lookup_set_field_eq.
  - destruct (set o k (VObj [])) as [o1|] eqn:Hs; simpl in Hu; [|discriminate].
    destruct (f (VObj [])) as [c'|]; simpl in Hu; [|discriminate].
    injection Hu as <-. exists c'. split; [done|].
    destruct o; try done. simpl in Hs. injection Hs as <-.
    unfold opt_get. simpl. rewrite set_field_set_field.
    apply lookup_set_field_eq.
Qed.

Lemma child_not_sequence o k :
  is_sequence (opt_get o k) = false → is_sequence (child o k) = false.
Proof. unfold child. by destruct (truthy (opt_get o k)). Qed.







Lemma set_mapping_get o k x o' :
  set o k x = Ok o' → is_sequence o = false → opt_get o' k = x.
Proof.
  destruct o; simpl; try done. intros [= <-] _.
  unfold opt_get. simpl. apply lookup_set_field_eq.
Qed.

Lemma set_mapping_other o k x o' k' :
  set o k x = Ok o' → k' ≠ k → opt_get o' k' = opt_get o k'.
Proof.
  destruct o; simpl; try done; intros [= <-] Hk; [done|].
  unfold opt_get. simpl. by apply lookup_set_field_ne.
Qed.


Lemma opt_get_child o k k' : opt_get (child o k) k' = opt_get (opt_get o k) k'.
Proof.
  unfold child. destruct (truthy (opt_get o k)) eqn:Hc; [done|].
  by rewrite (falsy_opt_get _ _ Hc).
Qed.

Lemma get_Ok v k x : get v k = Ok x → nullish v = false ∧ x = opt_get v k.
Proof. unfold get. destruct (nullish v); [done|]. by intros [= <-]. Qed.







End Environment.



(** ** Validation and repair *)

Section Repair.
Context `{Path}.

Lemma gecko_not_nullish t : truthy (gecko t) = true → nullish t = false.
Proof. by destruct t. Qed.

Lemma missing_reported g field :
  truthy (opt_get g field) = false →
  missing_issue field ∈ TemplateManager.missing g field.
Proof. unfold TemplateManager.missing. intros ->. simpl. left. Qed.

Lemma validateGeckoMetadata_read dir fs t :
  TemplateManager.readTemplate dir fs = Ok t → nullish t = false →
  TemplateManager.validateGeckoMetadata dir fs =
    if truthy (gecko t) then
      let issues :=
        (TemplateManager.missing (gecko t) "sourceFile"
         ++ TemplateManager.missing (gecko t) "sourceDir"
         ++ TemplateManager.missing (gecko t) "eventType"
         ++ TemplateManager.missing (gecko t) "version")%list in
      {| TemplateManager.hasMetadata := true;
         TemplateManager.isValid := (length issues =? 0)%nat;
         TemplateManager.metadata := gecko t;
         TemplateManager.issues := issues |}
    else
      {| TemplateManager.hasMetadata := false;
         TemplateManager.isValid := false;
         TemplateManager.metadata := VUndef;
         TemplateManager.issues :=
           [TemplateManager.Issue
              "No Gecko Lambda metadata found in template.yaml"] |}.
Proof.
  intros Ht Hn.
  unfold TemplateManager.validateGeckoMetadata, TemplateManager.validateTemplate.
  rewrite Ht. simpl. rewrite get_not_nullish by done. simpl.
  fold (gecko t). by destruct (truthy (gecko t)).
Qed.

Lemma validateUnifiedTemplate_read dir fs t :
  TemplateManager.readTemplate dir fs = Ok t → nullish t = false →
  ConfigManager.validateUnifiedTemplate dir fs =
    {| ConfigManager.exists_ := true;
       ConfigManager.hasMetadata := truthy (gecko t);
       ConfigManager.metadata := gecko t |}.
Proof.
  intros Ht Hn. unfold ConfigManager.validateUnifiedTemplate.
  pose proof Ht as [mt Hl]%readTemplate_Ok.
  rewrite existsSync_lookup, Hl, Ht. simpl.
  by rewrite get_not_nullish.
Qed.

Lemma with_block_update_child block t :
  with_block block t
  = update_child t "Metadata" (λ metadata,
      set metadata "GeckoLambda" (block (opt_get metadata "GeckoLambda"))).
Proof. reflexivity. Qed.

Lemma with_block_written block t t' :
  with_block block t = Ok t' →
  is_sequence t = false → is_sequence (opt_get t "Metadata") = false →
  gecko t' = block (gecko t).
Proof.
  rewrite with_block_update_child. intros Hu Ht Hm.
  apply update_child_own in Hu as (md1 & Hset & Hmd); [|done..].
  unfold gecko. rewrite Hmd.
  rewrite (set_mapping_get _ _ _ _ Hset) by (by apply child_not_sequence).
  by rewrite opt_get_child.
Qed.

(** C7 (amended). A manifest whose private metadata is present but lacks
    a required field (sourceFile, sourceDir, eventType, version) is
    reported by TemplateManager.validateGeckoMetadata as having metadata
    that is not valid, with an issue for each missing field
    (ConfigManager.validateUnifiedTemplate checks presence only).
    ConfigManager.repairTemplate leaves such a manifest untouched: it
    writes a block -- a full replacement, through
    ConfigManager.updateGeckoMetadata -- only for a manifest without
    private metadata. TemplateManager.migrateToUnifiedSystem takes one path
    for both, TemplateManager.updateGeckoMetadata, which overwrites
    sourceFile, sourceDir, eventType, lastModified and version and keeps
    every other key of the existing block. *)
Theorem repair_paths now dir sf sd et fs t :
  TemplateManager.readTemplate dir fs = Ok t →
  (incomplete t →
     TemplateManager.hasMetadata (TemplateManager.validateGeckoMetadata dir fs)
       = true
     ∧ TemplateManager.isValid (TemplateManager.validateGeckoMetadata dir fs)
       = false
     ∧ (∀ field, field ∈ required_fields →
          truthy (opt_get (gecko t) field) = false →
          missing_issue field
            ∈ TemplateManager.issues
                (TemplateManager.validateGeckoMetadata dir fs))
     ∧ ConfigManager.hasMetadata (ConfigManager.validateUnifiedTemplate dir fs)
       = true
     ∧ ConfigManager.repairTemplate now dir sf sd et fs = Ok fs
     ∧ TemplateManager.migrateToUnifiedSystem now dir sf sd et fs
       = TemplateManager.updateGeckoMetadata now dir sf sd et fs
     ∧ ∃ fs' t',
         TemplateManager.updateGeckoMetadata now dir sf sd et fs = Ok fs'
         ∧ TemplateManager.readTemplate dir fs' = Ok t'
         ∧ opt_get (gecko t') "sourceFile" = VStr sf
         ∧ opt_get (gecko t') "sourceDir" = VStr sd
         ∧ opt_get (gecko t') "eventType" = VStr et
         ∧ opt_get (gecko t') "lastModified" = VStr (iso now)
         ∧ opt_get (gecko t') "version" = VStr "2.0"
         ∧ ∀ k, k ∉ written_fields →
             opt_get (gecko t') k = opt_get (gecko t) k)
  ∧ (lacks_metadata t →
     TemplateManager.hasMetadata (TemplateManager.validateGeckoMetadata dir fs)
       = false
     ∧ ConfigManager.repairTemplate now dir sf sd et fs
       = ConfigManager.updateGeckoMetadata now dir sf sd et fs
     ∧ TemplateManager.migrateToUnifiedSystem now dir sf sd et fs
       = TemplateManager.updateGeckoMetadata now dir sf sd et fs
     ∧ ∀ fs', ConfigManager.updateGeckoMetadata now dir sf sd et fs = Ok fs' →
         ∃ t', TemplateManager.readTemplate dir fs' = Ok t'
           ∧ (is_sequence t = false →
              is_sequence (opt_get t "Metadata") = false →
              gecko t' = VObj [ ("sourceFile", VStr sf);
                                ("sourceDir", VStr sd);
                                ("eventType", VStr et);
                                ("lastModified", VStr (iso now));
                                ("version", VStr "2.0") ])).
Proof.
  intros Ht. split.
  - intros [Hg (field & Hfield & Hmiss)].
    pose proof (gecko_not_nullish _ Hg) as Hn.
    rewrite (validateGeckoMetadata_read _ _ _ Ht Hn), Hg. simpl.
    assert (∀ field, field ∈ required_fields →
              truthy (opt_get (gecko t) field) = false →
              missing_issue field
                ∈ (TemplateManager.missing (gecko t) "sourceFile"
                   ++ TemplateManager.missing (gecko t) "sourceDir"
                   ++ TemplateManager.missing (gecko t) "eventType"
                   ++ TemplateManager.missing (gecko t) "version")%list)
      as Hissues.
    { intros f Hf Hm. unfold required_fields in Hf.
      rewrite !elem_of_cons, elem_of_nil in Hf. rewrite !elem_of_app.
      destruct Hf as [->|[->|[->|[->|[]]]]];
        [left | right; left | right; right; left | right; right; right];
        by apply missing_reported. }
    split; [done|]. split.
    { specialize (Hissues field Hfield Hmiss).
      destruct (_ ++ _)%list; [by apply elem_of_nil in Hissues | done]. }
    split; [done|].
    unfold ConfigManager.repairTemplate, TemplateManager.migrateToUnifiedSystem.
    rewrite (validateUnifiedTemplate_read _ _ _ Ht Hn), Hg.
    rewrite (validateGeckoMetadata_read _ _ _ Ht Hn), Hg. simpl.
    split; [done|]. split; [done|]. split.
    { specialize (Hissues field Hfield Hmiss).
      destruct (_ ++ _)%list; [by apply elem_of_nil in Hissues | done]. }
    destruct (with_block_succeeds (merged_block (iso now) sf sd et) t Hg)
      as [t' Hw].
    pose proof (with_block_block _ _ _ Hw Hg) as Hblock.
    fold (gecko t) (gecko t') in Hblock.
    pose proof (merged_block_written (iso now) sf sd et (gecko t))
      as (Wsf & Wsd & Wet & Wlm & Wv).
    eexists _, t'. split; [by eapply merge_update_Ok|].
    split; [apply readTemplate_insert|]. rewrite Hblock.
    repeat (split; [done|]).
    intros k Hk. by apply merged_block_other.
  - intros [Hn Hg].
    rewrite (validateGeckoMetadata_read _ _ _ Ht Hn), Hg. simpl.
    unfold ConfigManager.repairTemplate, TemplateManager.migrateToUnifiedSystem.
    rewrite (validateUnifiedTemplate_read _ _ _ Ht Hn), Hg.
    rewrite (validateGeckoMetadata_read _ _ _ Ht Hn), Hg. simpl.
    repeat (split; [done|]).
    intros fs' Hu. unfold ConfigManager.updateGeckoMetadata in Hu.
    rewrite Ht in Hu. simpl in Hu.
    apply bind_Ok in Hu as (t' & Hw & Hfs).
    apply writeYaml_Ok in Hfs as ->.
    exists t'. split; [apply readTemplate_insert|].
    intros Hseq Hmseq. rewrite replaceGeckoMetadata_with_block in Hw.
    by rewrite (with_block_written _ _ _ Hw Hseq Hmseq).
Qed.

End Repair.

Lemma repair_paths_witness :
  TemplateManager.isValid
    (TemplateManager.validateGeckoMetadata "/ws/partial" RepairExample.workspace)
  = false
  ∧ ConfigManager.repairTemplate StoreExample.t2 "/ws/partial"
      "/src/partial/main.go" "/src/partial" "sqs" RepairExample.workspace
    = Ok RepairExample.workspace
  ∧ ConfigManager.repairTemplate StoreExample.t2 "/ws/legacy"
      "" "" "apigateway" RepairExample.workspace
    = ConfigManager.updateGeckoMetadata StoreExample.t2 "/ws/legacy"
        "" "" "apigateway" RepairExample.workspace.
Proof.
  split; [|split].
  - apply (proj1 (repair_paths (H:=Posix.path) StoreExample.t2 "/ws/partial"
      "/src/partial/main.go" "/src/partial" "sqs" RepairExample.workspace
      RepairExample.partial_manifest ltac:(vm_compute; reflexivity))).
    split; [vm_compute; reflexivity|].
    exists "sourceDir". split; [|vm_compute; reflexivity].
    unfold required_fields. rewrite !elem_of_cons. tauto.
  - apply (proj1 (repair_paths (H:=Posix.path) StoreExample.t2 "/ws/partial"
      "/src/partial/main.go" "/src/partial" "sqs" RepairExample.workspace
      RepairExample.partial_manifest ltac:(vm_compute; reflexivity))).
    split; [vm_compute; reflexivity|].
    exists "sourceDir". split; [|vm_compute; reflexivity].
    unfold required_fields. rewrite !elem_of_cons. tauto.
  - apply (proj2 (repair_paths (H:=Posix.path) StoreExample.t2 "/ws/legacy"
      "" "" "apigateway" RepairExample.workspace
      RegistryExample.bare_manifest ltac:(vm_compute; reflexivity))).
    split; vm_compute; reflexivity.
Defined.

(** C7, as stated, fails for ConfigManager.repairTemplate: the manifest
    with incomplete private metadata is reported, but repairing it writes
    nothing, so it is as incomplete afterwards; the manifest without
    private metadata next to it is rewritten by the same call. *)
Lemma repair_paths_counterexample :
  TemplateManager.hasMetadata
    (TemplateManager.validateGeckoMetadata "/ws/partial" RepairExample.workspace)
  = true
  ∧ TemplateManager.isValid
      (TemplateManager.validateGeckoMetadata "/ws/partial" RepairExample.workspace)
    = false
  ∧ ConfigManager.repairTemplate StoreExample.t2 "/ws/partial"
      "/src/partial/main.go" "/src/partial" "sqs" RepairExample.workspace
    = Ok RepairExample.workspace
  ∧ ConfigManager.repairTemplate StoreExample.t2 "/ws/legacy"
      "/src/legacy/main.go" "/src/legacy" "sqs" RepairExample.workspace
    ≠ Ok RepairExample.workspace
  ∧ (fs ← ConfigManager.repairTemplate StoreExample.t2 "/ws/legacy"
            "/src/legacy/main.go" "/src/legacy" "sqs" RepairExample.workspace;
     Ok (TemplateManager.isValid
           (TemplateManager.validateGeckoMetadata "/ws/legacy" fs)))
    = Ok true.
Proof.
  split; [vm_compute; reflexivity|]. split; [vm_compute; reflexivity|].
  split; [vm_compute; reflexivity|]. split; [|vm_compute; reflexivity].
  intros E.
  apply (f_equal (λ r, fs ← r; TemplateManager.readTemplate "/ws/legacy" fs))
    in E.
  vm_compute in E. discriminate E.
Qed.

(** ** Event-type inference *)

Section Inference.
Context `{Path}.

Lemma event_type_of_known v : TemplateManager.event_type_of v ∈ known_tags.
Proof.
  unfold TemplateManager.event_type_of, known_tags.
  repeat (case_match; [rewrite !elem_of_cons; tauto|]).
  rewrite !elem_of_cons; tauto.
Qed.

Lemma event_type_of_unknown v :
  v ≠ VStr "Api" → v ≠ VStr "S3" → v ≠ VStr "DynamoDB" → v ≠ VStr "SQS" →
  TemplateManager.event_type_of v = "apigateway".
Proof.
  intros H1 H2 H3 H4. unfold TemplateManager.event_type_of.
  destruct v as [| |b|n|s|l|fs]; try reflexivity. simpl.
  assert (∀ lit, VStr s ≠ VStr lit → String.eqb s lit = false) as Hne.
  { intros lit Hlit. apply String.eqb_neq. congruence. }
  by rewrite !Hne.
Qed.

(** ConfigManager.detectEventTypeFromTemplate is total and answers with a
    known tag; on an empty trigger map, an unknown discriminator or an
    error the tag is "apigateway". *)
Lemma detectEventTypeFromTemplate_known t :
  ConfigManager.detectEventTypeFromTemplate t ∈ known_tags.
Proof.
  unfold ConfigManager.detectEventTypeFromTemplate.
  destruct (ConfigManager.detectEventType_body t) as [s|e] eqn:Hb;
    [|unfold known_tags; rewrite !elem_of_cons; tauto].
  unfold ConfigManager.detectEventType_body in Hb.
  apply bind_Ok in Hb as (r0 & _ & Hb).
  apply bind_Ok in Hb as (found & _ & Hb).
  destruct found as [[[i key] res]|];
    [|injection Hb as <-; unfold known_tags; rewrite !elem_of_cons; tauto].
  apply bind_Ok in Hb as (p & _ & Hb).
  destruct (truthy (opt_get p "Events"));
    [|injection Hb as <-; unfold known_tags; rewrite !elem_of_cons; tauto].
  apply bind_Ok in Hb as (ks & _ & Hb).
  destruct (0 <? length ks)%nat;
    [|injection Hb as <-; unfold known_tags; rewrite !elem_of_cons; tauto].
  apply bind_Ok in Hb as (firstEvent & _ & Hb).
  apply bind_Ok in Hb as (ty & _ & Hb).
  injection Hb as <-. apply event_type_of_known.
Qed.

(** TemplateManager.detectEventTypeFromEvents answers with a known tag
    whenever it returns. *)
Lemma detectEventTypeFromEvents_known events s :
  TemplateManager.detectEventTypeFromEvents events = Ok s → s ∈ known_tags.
Proof.
  unfold TemplateManager.detectEventTypeFromEvents.
  intros (ks & _ & Hb)%bind_Ok.
  destruct ks as [|k ks];
    [injection Hb as <-; unfold known_tags; rewrite !elem_of_cons; tauto|].
  apply bind_Ok in Hb as (firstEvent & _ & Hb).
  apply bind_Ok in Hb as (ty & _ & Hb).
  injection Hb as <-. apply event_type_of_known.
Qed.

(** It returns exactly when the first trigger is not null. *)
Lemma detectEventTypeFromEvents_returns events :
  nullish events = false →
  is_ok (TemplateManager.detectEventTypeFromEvents events)
  = match own_entries events with
    | [] => true
    | (_, firstEvent) :: _ => negb (nullish firstEvent)
    end.
Proof.
  intros Hn. unfold TemplateManager.detectEventTypeFromEvents, keys, get.
  rewrite Hn. simpl. unfold opt_get.
  destruct (own_entries events) as [|[k v] rest]; simpl; [done|].
  rewrite String.eqb_refl. by destruct (nullish v).
Qed.

End Inference.

(** C9. On a trigger map whose first entry is null,
    TemplateManager.detectEventTypeFromEvents raises a TypeError instead of
    answering "apigateway", and extractConfigFromTemplate fails with it;
    ConfigManager.detectEventTypeFromTemplate catches the same error and
    answers "apigateway". *)
Theorem detectEventTypeFromEvents_null_trigger :
  TemplateManager.detectEventTypeFromEvents InferenceExample.events
  = Throw TypeError
  ∧ TemplateManager.extractConfig "2024-06-01T00:00:00.000Z" "/ws/hello" VUndef
      InferenceExample.manifest = Throw TypeError
  ∧ ConfigManager.detectEventTypeFromTemplate InferenceExample.manifest
    = "apigateway".
Proof. vm_compute. repeat split; reflexivity. Qed.

(** ** Function names *)

Section Naming.
Context `{Path}.

Lemma length_app s1 s2 :
  String.length (s1 +:+ s2) = (String.length s1 + String.length s2)%nat.
Proof. induction s1 as [|c s1 IH]; simpl; [done | by rewrite IH]. Qed.

Lemma strip_Function_app p :
  TemplateManager.strip_Function (p +:+ "Function") = p.
Proof.
  induction p as [|c p IH]; [reflexivity|].
  change (String c p +:+ "Function") with (String c (p +:+ "Function")).
  unfold TemplateManager.strip_Function; fold TemplateManager.strip_Function.
  destruct (String.eqb (String c (p +:+ "Function")) "Function") eqn:E.
  - apply String.eqb_eq in E. apply (f_equal String.length) in E.
    simpl in E. rewrite length_app in E. simpl in E. lia.
  - by rewrite IH.
Qed.

Lemma toLowerCase_length s :
  String.length (StringUtils.toLowerCase s) = String.length s.
Proof. induction s as [|c s IH]; simpl; [done | by rewrite IH]. Qed.

Lemma capitalize_length s :
  String.length (StringUtils.capitalize s) = String.length s.
Proof. destruct s as [|c s]; simpl; [done|]. by destruct (StringUtils.is_word c). Qed.

Lemma replace_separators_length n s :
  (String.length s < n)%nat →
  (String.length (StringUtils.replace_separators s) ≤ String.length s)%nat
  ∧ (separator_before_word s = true →
     (String.length (StringUtils.replace_separators s) < String.length s)%nat).
Proof.
  revert s. induction n as [|n IH]; intros s Hn; [lia|].
  destruct s as [|c [|d r]]; simpl; [split; [lia|done] | split; [lia|done] |].
  destruct (StringUtils.is_sep c && StringUtils.is_word d) eqn:E; simpl.
  - destruct (IH r) as [Hle _]; [simpl in Hn; lia|]. split; [lia|]. lia.
  - destruct (IH (String d r)) as [Hle Hlt]; [simpl in *; lia|].
    simpl in Hle. split; [lia|]. intros Hs. specialize (Hlt Hs). simpl in Hlt. lia.
Qed.

Lemma replace_separators_nonempty s :
  s ≠ "" → StringUtils.replace_separators s ≠ "".
Proof.
  destruct s as [|c [|d r]]; simpl; [done | done |].
  by destruct (StringUtils.is_sep c && StringUtils.is_word d).
Qed.

Lemma lowered_pascal_nonempty name :
  name ≠ "" →
  StringUtils.toLowerCase (StringUtils.toPascalCase name) ≠ "".
Proof.
  intros Hname E. apply (f_equal String.length) in E.
  rewrite toLowerCase_length in E. unfold StringUtils.toPascalCase in E.
  rewrite capitalize_length in E.
  apply (replace_separators_nonempty _ Hname).
  by destruct (StringUtils.replace_separators name).
Qed.

Lemma lowered_pascal_shorter name :
  separator_before_word name = true →
  (String.length (StringUtils.toLowerCase (StringUtils.toPascalCase name))
   < String.length name)%nat.
Proof.
  intros Hs. rewrite toLowerCase_length. unfold StringUtils.toPascalCase.
  rewrite capitalize_length.
  by apply (replace_separators_length (S (String.length name))); [lia|].
Qed.

Lemma createTemplateObject_shape now config name t :
  functionName config = VStr name →
  TemplateManager.createTemplateObject now config = Ok t →
  nullish t = false
  ∧ opt_get (gecko t) "functionName" = VUndef
  ∧ truthy (opt_get (gecko t) "eventType") = true
  ∧ ∃ res,
      TemplateManager.find_function (or (opt_get t "Resources") (VObj []))
      = Ok (Some (0%nat, StringUtils.toPascalCase name +:+ "Function", res)).
Proof.
  intros Hname. unfold TemplateManager.createTemplateObject. rewrite Hname.
  intros (ev & _ & Ht)%bind_Ok. injection Ht as <-.
  split; [done|]. split; [reflexivity|]. split.
  - change (truthy (or (eventType config) (VStr "apigateway")) = true).
    unfold or. by destruct (truthy (eventType config)) eqn:E.
  - eexists. reflexivity.
Qed.

(** C10 (amended). When the private metadata of a manifest has no
    functionName -- the case of every manifest createTemplate writes --
    extractConfigFromTemplate takes the function name from the key of the
    function resource: the trailing "Function" is stripped and the rest is
    lowercased (the basename of the directory stands in when nothing is
    left). The key being the PascalCase form of the original name, a name
    in which a hyphen or an underscore is followed by a letter, a digit or
    an underscore is not recovered: for a function created under such a
    name the extracted functionName is the lowercased PascalCase form,
    which is shorter than the name of the function directory. *)
Theorem extracted_function_name :
  (∀ now dir fb t c,
     TemplateManager.extractConfig now dir fb t = Ok c →
     truthy (opt_get (gecko t) "functionName") = false →
     ∃ i key res,
       TemplateManager.find_function (or (opt_get t "Resources") (VObj []))
         = Ok (Some (i, key, res))
       ∧ functionName c
         = or (VStr (StringUtils.toLowerCase (TemplateManager.strip_Function key)))
              (VStr (path_basename dir)))
  ∧ (∀ now now' workspace name config fb fs fs',
       functionName config = VStr name →
       separator_before_word name = true →
       TemplateManager.createTemplate now (path_join workspace name) config fs
         = Ok fs' →
       ∃ c,
         TemplateManager.extractConfigFromTemplate now'
           (path_join workspace name) fb fs' = Ok c
         ∧ functionName c
           = VStr (StringUtils.toLowerCase (StringUtils.toPascalCase name))
         ∧ functionName c ≠ VStr name).
Proof.
  split.
  - intros now dir fb t c Hc Hfn.
    apply extractConfig_Ok in Hc as (i & key & res & ev & _ & Hf & _ & ->).
    exists i, key, res. split; [done|]. simpl. fold (gecko t).
    by rewrite (or_falsy (opt_get (gecko t) "functionName")).
  - intros now now' ws name config fb fs fs' Hname Hsep Hcreate.
    unfold TemplateManager.createTemplate in Hcreate.
    apply bind_Ok in Hcreate as (t & Ht & Hw). apply writeYaml_Ok in Hw as ->.
    unfold TemplateManager.extractConfigFromTemplate.
    rewrite readTemplate_insert. simpl.
    destruct (createTemplateObject_shape _ _ _ _ Hname Ht)
      as (Hnull & Hfn & Hev & res & Hf).
    rewrite (extractConfig_found _ _ _ _ _ _ _ Hnull Hf
               (key_Function_not_empty _)).
    fold (gecko t). rewrite read_eventType_truthy by done. simpl.
    eexists. split; [reflexivity|].
    assert (name ≠ "") as Hne by (by intros ->).
    assert (functionName (view (iso now') (path_join ws name) fb t
              (StringUtils.toPascalCase name +:+ "Function") res
              (opt_get (gecko t) "eventType"))
            = VStr (StringUtils.toLowerCase (StringUtils.toPascalCase name)))
      as Hfun.
    { simpl. fold (gecko t). rewrite Hfn, strip_Function_app.
      rewrite (or_falsy VUndef) by done. apply or_truthy. simpl.
      apply negb_true_iff, String.eqb_neq. by apply lowered_pascal_nonempty. }
    split; [done|]. rewrite Hfun. intros [= E].
    pose proof (lowered_pascal_shorter name Hsep) as Hlt.
    rewrite E in Hlt. lia.
Qed.

End Naming.

Lemma extracted_function_name_witness :
  ∃ c,
    TemplateManager.extractConfigFromTemplate StoreExample.t2
      (path_join "/ws" "order-events") VUndef
      (NamingExample.created "order-events") = Ok c
    ∧ functionName c = VStr "orderevents"
    ∧ functionName c ≠ VStr "order-events".
Proof.
  apply (proj2 (extracted_function_name (H:=Posix.path)) StoreExample.t0
    StoreExample.t2 "/ws" "order-events" (NamingExample.named "order-events")
    VUndef NamingExample.empty_fs (NamingExample.created "order-events"));
    [reflexivity | reflexivity | vm_compute; reflexivity].
Defined.

(** C10, as stated, fails for a name whose separator is not followed by
    a word character: "orders_" contains an underscore, is accepted by the
    wizard, and is recovered as it is. *)
Lemma extracted_function_name_counterexample :
  contains_separator "orders_" = true
  ∧ NamingExample.extracted_name "orders_" = Ok (VStr "orders_")
  ∧ path_basename (path_join "/ws" "orders_") = "orders_"
  ∧ NamingExample.extracted_name "order-events" = Ok (VStr "orderevents").
Proof. vm_compute. repeat split; reflexivity. Qed.

(** ** Migration from the legacy global registry *)

Section Migration.
Context `{Path}.

(** Without a legacy registry file, migration changes nothing, forced
    or not. *)
Lemma migration_without_registry force ws fs :
  fs !! legacy_path ws = None →
  Extension.performUnifiedSystemMigration force ws fs = fs.
Proof.
  intros Hnone.
  unfold Extension.performUnifiedSystemMigration,
    ConfigManager.cleanupGlobalConfig, LambdaDetector.migrateFromGlobalConfig.
  rewrite existsSync_lookup. fold (legacy_path ws). rewrite Hnone.
  by destruct force.
Qed.

(** Migration touches the registry file and its backup only: no manifest
    is created or repaired. *)
Lemma migration_touches_registry_only force ws fs p :
  p ≠ legacy_path ws → p ≠ backup_path ws →
  Extension.performUnifiedSystemMigration force ws fs !! p = fs !! p.
Proof.
  intros Hl Hb.
  unfold Extension.performUnifiedSystemMigration,
    ConfigManager.cleanupGlobalConfig, LambdaDetector.migrateFromGlobalConfig,
    Fs.renameSync.
  rewrite existsSync_lookup. fold (legacy_path ws) (backup_path ws).
  destruct (fs !! legacy_path ws) as [n|] eqn:Hn; simpl;
    [|by destruct force].
  destruct n, (fs !! backup_path ws) as [[]|]; simpl; try done;
    by rewrite lookup_insert_ne, lookup_delete_ne.
Qed.

(** The registry file is renamed, never deleted: its node is found under
    the backup name, or it is still where it was. *)
Lemma migration_keeps_registry force ws fs n :
  legacy_path ws ≠ backup_path ws →
  fs !! legacy_path ws = Some n →
  let fs' := Extension.performUnifiedSystemMigration force ws fs in
  (fs' !! legacy_path ws = None ∧ fs' !! backup_path ws = Some n)
  ∨ fs' = fs.
Proof.
  intros Hne Hn.
  unfold Extension.performUnifiedSystemMigration,
    ConfigManager.cleanupGlobalConfig, LambdaDetector.migrateFromGlobalConfig,
    Fs.renameSync.
  rewrite existsSync_lookup. fold (legacy_path ws) (backup_path ws).
  rewrite Hn. simpl.
  destruct n, (fs !! backup_path ws) as [[]|]; simpl; auto; left;
    (split; [by rewrite lookup_insert_ne, lookup_delete_eq
            |by rewrite lookup_insert_eq]).
Qed.

End Migration.

(** C3. Migration of a workspace whose legacy registry has one entry
    renames the registry to its backup name and creates no manifest for the
    entry: migrateFromGlobalConfig has an empty body. The function is not
    found afterwards, and a second run changes nothing. *)
Theorem migration_creates_no_manifest :
  MigrationExample.migrated !! "/ws/.gecko-lambda-config.json" = None
  ∧ MigrationExample.migrated !! "/ws/.gecko-lambda-config.json.backup"
    = Some (File 2 (Some MigrationExample.registry))
  ∧ MigrationExample.migrated !! "/ws/orders/template.yaml" = None
  ∧ LambdaDetector.getConfiguration StoreExample.t2 "/ws" "/src/orders/main.go"
      MigrationExample.migrated = None
  ∧ Extension.performUnifiedSystemMigration false "/ws"
      MigrationExample.migrated = MigrationExample.migrated.
Proof. vm_compute. repeat split; reflexivity. Qed.

(** ** Function names: sanitizing and simplifying *)

Section FunctionNames.
Context `{Path}.

Lemma lower_plain c :
  StringUtils.is_name_char c = true →
  is_plain_char (StringUtils.lower c) = true.
Proof. each_char c. Qed.

Lemma lower_hyphen c : StringUtils.lower c = "-"%char → c = "-"%char.
Proof. each_char c. Qed.

Lemma plain_lower c : is_plain_char c = true → StringUtils.lower c = c.
Proof. each_char c. Qed.

Lemma plain_name_char c :
  is_plain_char c = true → StringUtils.is_name_char c = true.
Proof. each_char c. Qed.

Lemma all_chars_replace s :
  StringUtils.all_chars StringUtils.is_name_char
    (LambdaDetector.replace_chars StringUtils.is_name_char "-" s) = true.
Proof.
  induction s as [|c s IH]; simpl; [done|]. rewrite IH, andb_true_r.
  by destruct (StringUtils.is_name_char c) eqn:E.
Qed.

Lemma all_chars_strip_leading class c s :
  StringUtils.all_chars class s = true →
  StringUtils.all_chars class (LambdaDetector.strip_leading c s) = true.
Proof.
  induction s as [|x s IH]; simpl; [done|].
  intros [Hx Hs]%andb_true_iff.
  destruct (Ascii.eqb x c); [by apply IH|]. simpl. by rewrite Hx, Hs.
Qed.

Lemma all_chars_strip_trailing class c s :
  StringUtils.all_chars class s = true →
  StringUtils.all_chars class (LambdaDetector.strip_trailing c s) = true.
Proof.
  induction s as [|x s IH]; simpl; [done|].
  intros [Hx Hs]%andb_true_iff. specialize (IH Hs).
  destruct (LambdaDetector.strip_trailing c s) as [|y r] eqn:E.
  - destruct (Ascii.eqb x c); simpl; [done|]. by rewrite Hx.
  - simpl in *. by rewrite Hx, IH.
Qed.

Lemma all_chars_lower s :
  StringUtils.all_chars StringUtils.is_name_char s = true →
  StringUtils.all_chars is_plain_char (StringUtils.toLowerCase s) = true.
Proof.
  induction s as [|x s IH]; simpl; [done|].
  intros [Hx Hs]%andb_true_iff. by rewrite lower_plain, IH.
Qed.

Lemma first_strip_leading c s :
  first_char (LambdaDetector.strip_leading c s) ≠ Some c.
Proof.
  induction s as [|x s IH]; simpl; [done|].
  destruct (Ascii.eqb x c) eqn:E; [done|]. simpl.
  intros [= ->]. by rewrite Ascii.eqb_refl in E.
Qed.

Lemma first_strip_trailing c s :
  first_char s ≠ Some c →
  first_char (LambdaDetector.strip_trailing c s) ≠ Some c.
Proof.
  destruct s as [|x s]; simpl; [done|]. intros Hx.
  destruct (LambdaDetector.strip_trailing c s); [|done].
  destruct (Ascii.eqb x c) eqn:E; [done|]. done.
Qed.

Lemma last_strip_trailing c s :
  last_char (LambdaDetector.strip_trailing c s) ≠ Some c.
Proof.
  induction s as [|x s IH]; simpl; [done|].
  destruct (LambdaDetector.strip_trailing c s) as [|y r] eqn:E.
  - destruct (Ascii.eqb x c) eqn:Ex; simpl; [done|].
    intros [= ->]. by rewrite Ascii.eqb_refl in Ex.
  - exact IH.
Qed.

Lemma first_lower s :
  first_char s ≠ Some "-"%char →
  first_char (StringUtils.toLowerCase s) ≠ Some "-"%char.
Proof.
  destruct s as [|x s]; simpl; [done|].
  intros Hx [= E]. apply lower_hyphen in E. by subst.
Qed.

Lemma last_lower s :
  last_char s ≠ Some "-"%char →
  last_char (StringUtils.toLowerCase s) ≠ Some "-"%char.
Proof.
  induction s as [|x s IH]; simpl; [done|].
  destruct s as [|y r]; simpl in *.
  - intros Hx [= E]. apply lower_hyphen in E. by subst.
  - exact IH.
Qed.

Lemma sanitizeFunctionName_sanitized name :
  sanitized (LambdaDetector.sanitizeFunctionName name).
Proof.
  unfold LambdaDetector.sanitizeFunctionName.
  set (r := StringUtils.toLowerCase _).
  destruct (String.eqb r "") eqn:E.
  - repeat split; done.
  - apply String.eqb_neq in E. split; [done|]. subst r. split; [|split].
    + apply all_chars_lower, all_chars_strip_trailing, all_chars_strip_leading,
        all_chars_replace.
    + apply first_lower, first_strip_trailing, first_strip_leading.
    + apply last_lower, last_strip_trailing.
Qed.

Lemma replace_chars_id class c s :
  StringUtils.all_chars class s = true →
  LambdaDetector.replace_chars class c s = s.
Proof.
  induction s as [|x s IH]; simpl; [done|].
  intros [Hx Hs]%andb_true_iff. by rewrite Hx, IH.
Qed.

Lemma strip_leading_id c s :
  first_char s ≠ Some c → LambdaDetector.strip_leading c s = s.
Proof.
  destruct s as [|x s]; simpl; [done|]. intros Hx.
  destruct (Ascii.eqb x c) eqn:E; [|done].
  apply Ascii.eqb_eq in E. by subst.
Qed.

Lemma strip_trailing_id c s :
  last_char s ≠ Some c → LambdaDetector.strip_trailing c s = s.
Proof.
  induction s as [|x s IH]; simpl; [done|].
  destruct s as [|y r].
  - simpl. intros Hx. destruct (Ascii.eqb x c) eqn:E; [|done].
    apply Ascii.eqb_eq in E. by subst.
  - intros Hl. rewrite IH by done. done.
Qed.

Lemma toLowerCase_id s :
  StringUtils.all_chars is_plain_char s = true → StringUtils.toLowerCase s = s.
Proof.
  induction s as [|x s IH]; simpl; [done|].
  intros [Hx Hs]%andb_true_iff. by rewrite plain_lower, IH.
Qed.

Lemma all_chars_weaken (P Q : ascii → bool) s :
  (∀ c, P c = true → Q c = true) →
  StringUtils.all_chars P s = true → StringUtils.all_chars Q s = true.
Proof.
  intros HPQ. induction s as [|x s IH]; simpl; [done|].
  intros [Hx Hs]%andb_true_iff. by rewrite HPQ, IH.
Qed.

Lemma sanitized_fixed s :
  sanitized s → LambdaDetector.sanitizeFunctionName s = s.
Proof.
  intros (Hne & Hall & Hfirst & Hlast).
  unfold LambdaDetector.sanitizeFunctionName.
  rewrite replace_chars_id
    by (eapply all_chars_weaken; [apply plain_name_char | done]).
  rewrite strip_leading_id, strip_trailing_id, toLowerCase_id by done.
  by apply String.eqb_neq in Hne as ->.
Qed.

(** *** The wizard's validator *)

Lemma name_char_not_space c :
  StringUtils.is_name_char c = true → is_space c = false.
Proof. each_char c. Qed.

Lemma simple_name_char c :
  StringUtils.is_simple c = true → StringUtils.is_name_char c = true.
Proof. each_char c. Qed.

Lemma trim_start_id s :
  (∀ c, first_char s = Some c → is_space c = false) → trim_start s = s.
Proof. destruct s as [|x s]; simpl; [done|]. intros Hx. by rewrite Hx. Qed.

Lemma trim_end_id s :
  StringUtils.all_chars StringUtils.is_name_char s = true → trim_end s = s.
Proof.
  induction s as [|x s IH]; simpl; [done|].
  intros [Hx Hs]%andb_true_iff. rewrite IH by done.
  destruct s; [|done]. by rewrite name_char_not_space.
Qed.

Lemma trim_name s :
  StringUtils.all_chars StringUtils.is_name_char s = true → trim s = s.
Proof.
  intros Hs. unfold trim. rewrite trim_start_id; [by apply trim_end_id|].
  destruct s as [|x s]; simpl in *; [done|].
  intros c [= <-]. apply andb_true_iff in Hs as [Hx _].
  by apply name_char_not_space.
Qed.

Lemma validateInput_accepts s :
  s ≠ "" → StringUtils.all_chars StringUtils.is_name_char s = true →
  ConfigCommand.validateInput s = None.
Proof.
  intros Hne Hs. unfold ConfigCommand.validateInput, StringUtils.one_or_more.
  rewrite trim_name, Hs by done.
  by apply String.eqb_neq in Hne as ->.
Qed.

(** *** simplifyFunctionName *)

Lemma split_nonempty sep s : split sep s ≠ [].
Proof.
  destruct s as [|c s]; simpl; [done|].
  destruct (Ascii.eqb c sep); [done|]. by destruct (split sep s).
Qed.

Lemma split_no_separator sep s :
  Forall (λ segment, count_char sep segment = 0%nat) (split sep s).
Proof.
  induction s as [|c s IH]; simpl; [by repeat constructor|].
  destruct (Ascii.eqb c sep) eqn:E; [by constructor|].
  destruct (split sep s) as [|segment rest]; [repeat constructor; simpl; by rewrite E|].
  inversion IH as [|? ? Hseg Hrest]; subst.
  constructor; [|done]. simpl. by rewrite E, Hseg.
Qed.

Lemma count_char_app c s1 s2 :
  count_char c (s1 +:+ s2) = (count_char c s1 + count_char c s2)%nat.
Proof. induction s1 as [|x s1 IH]; simpl; [done|]. rewrite IH. lia. Qed.

Lemma count_join c l :
  Forall (λ segment, count_char c segment = 0%nat) l →
  count_char c (join (String c EmptyString) l) = (length l - 1)%nat.
Proof.
  induction l as [|s l IH]; [done|]. intros Hl.
  inversion Hl as [|? ? Hs Hrest]; subst.
  destruct l as [|s' l]; [simpl; by rewrite Hs|].
  change (join (String c "") (s :: s' :: l))
    with (s +:+ String c "" +:+ join (String c "") (s' :: l)).
  rewrite !count_char_app, Hs, IH by done. simpl.
  rewrite Ascii.eqb_refl. lia.
Qed.

Lemma slice_last_length {A} n (l : list A) : (length (slice_last n l) ≤ n)%nat.
Proof. unfold slice_last. rewrite length_drop. lia. Qed.

Lemma slice_last_Forall {A} (P : A → Prop) n l :
  Forall P l → Forall P (slice_last n l).
Proof. apply Forall_drop. Qed.

Lemma count_keep_chars keep c s :
  (count_char c (StringUtils.keep_chars keep s) ≤ count_char c s)%nat.
Proof.
  induction s as [|x s IH]; simpl; [done|].
  destruct (keep x); simpl; lia.
Qed.

Lemma all_chars_keep keep s :
  StringUtils.all_chars keep (StringUtils.keep_chars keep s) = true.
Proof.
  induction s as [|x s IH]; simpl; [done|].
  destruct (keep x) eqn:E; simpl; [by rewrite E|done].
Qed.

Lemma substring_0_length m s : (String.length (String.substring 0 m s) ≤ m)%nat.
Proof.
  revert s. induction m as [|m IH]; intros [|c s]; simpl; try lia.
  specialize (IH s). lia.
Qed.

Lemma substring_0_count c m s :
  (count_char c (String.substring 0 m s) ≤ count_char c s)%nat.
Proof.
  revert s. induction m as [|m IH]; intros [|x s]; simpl; try lia.
  specialize (IH s). lia.
Qed.

Lemma substring_0_all class m s :
  StringUtils.all_chars class s = true →
  StringUtils.all_chars class (String.substring 0 m s) = true.
Proof.
  revert s. induction m as [|m IH]; intros [|x s]; simpl; try done.
  intros [Hx Hs]%andb_true_iff. by rewrite Hx, IH.
Qed.

Lemma substring_0_short m s :
  (String.length s ≤ m)%nat → String.substring 0 m s = s.
Proof.
  revert s. induction m as [|m IH]; intros [|x s]; simpl; try done; [lia|].
  intros Hl. rewrite IH; [done | lia].
Qed.

Lemma simplifyFunctionName_simple suggested :
  StringUtils.simplifyFunctionName suggested ≠ ""
  ∧ StringUtils.all_chars StringUtils.is_simple
      (StringUtils.simplifyFunctionName suggested) = true.
Proof.
  unfold StringUtils.simplifyFunctionName.
  set (r := String.substring 0 30 _).
  destruct (String.eqb r "") eqn:E; [done|].
  apply String.eqb_neq in E. split; [done|]. subst r.
  apply substring_0_all, all_chars_keep.
Qed.


(** X1. The function name proposed for a source file is never empty, is
    made of small letters, digits, hyphens and underscores only, and
    neither starts nor ends with a hyphen, whatever the path of the
    file. *)
Theorem getFunctionNameFromPath_sanitized fsPath :
  let name := LambdaDetector.getFunctionNameFromPath fsPath in
  name ≠ ""
  ∧ StringUtils.all_chars is_plain_char name = true
  ∧ first_char name ≠ Some "-"%char
  ∧ last_char name ≠ Some "-"%char.
Proof.
  unfold LambdaDetector.getFunctionNameFromPath.
  destruct (String.eqb _ "cmd"); apply sanitizeFunctionName_sanitized.
Qed.

(** X2. sanitizeFunctionName leaves a name as it is exactly when the name
    is not empty, is made of small letters, digits, hyphens and
    underscores, and neither starts nor ends with a hyphen; so
    sanitizing twice is sanitizing once. *)
Theorem sanitizeFunctionName_fixed_points name :
  (LambdaDetector.sanitizeFunctionName name = name ↔ sanitized name)
  ∧ LambdaDetector.sanitizeFunctionName
      (LambdaDetector.sanitizeFunctionName name)
    = LambdaDetector.sanitizeFunctionName name.
Proof.
  split; [split|].
  - intros <-. apply sanitizeFunctionName_sanitized.
  - apply sanitized_fixed.
  - apply sanitized_fixed, sanitizeFunctionName_sanitized.
Qed.

(** X3. The name the wizard suggests is never empty, has at most 30
    characters, all of them letters, digits or hyphens, and at most one
    hyphen. *)
Theorem simplifyFunctionName_shape suggested :
  let name := StringUtils.simplifyFunctionName suggested in
  name ≠ ""
  ∧ (String.length name ≤ 30)%nat
  ∧ StringUtils.all_chars StringUtils.is_simple name = true
  ∧ (count_char "-" name ≤ 1)%nat.
Proof.
  destruct (simplifyFunctionName_simple suggested) as [Hne Hall].
  split; [done|]. split; [|split; [done|]];
    unfold StringUtils.simplifyFunctionName;
    set (segments := slice_last 2 (split "-" suggested));
    set (r := String.substring 0 30 _);
    (destruct (String.eqb r "") eqn:E; [simpl; lia|]); subst r.
  - apply substring_0_length.
  - etransitivity; [apply substring_0_count|].
    etransitivity; [apply count_keep_chars|].
    rewrite (count_join "-" segments).
    + pose proof (slice_last_length 2 (split "-" suggested)) as Hlen.
      fold segments in Hlen. lia.
    + apply slice_last_Forall, split_no_separator.
Qed.

(** X4. The input box of the wizard accepts its own suggestion: the
    validator has no message for simplifyFunctionName of any string, the
    name proposed for a source file among them, and none for the
    proposed name as it is. *)
Theorem suggestion_accepted suggested fsPath :
  ConfigCommand.validateInput (StringUtils.simplifyFunctionName suggested)
    = None
  ∧ ConfigCommand.validateInput
      (LambdaDetector.getFunctionNameFromPath fsPath) = None.
Proof.
  split.
  { destruct (simplifyFunctionName_simple suggested) as [Hne Hall].
    apply validateInput_accepts; [done|].
    eapply all_chars_weaken; [apply simple_name_char | done]. }
  unfold LambdaDetector.getFunctionNameFromPath.
  destruct (String.eqb _ "cmd");
    match goal with
    | |- context [LambdaDetector.sanitizeFunctionName ?n] =>
        pose proof (sanitizeFunctionName_sanitized n) as (Hne & Hall & _)
    end;
    (apply validateInput_accepts; [done|];
     eapply all_chars_weaken; [apply plain_name_char | done]).
Qed.

End FunctionNames.

(** ** Detection of Lambda sources *)

Section SourceDetection.
Context `{Path}.

Lemma append_cons x (a b : string) : String x a +:+ b = String x (a +:+ b).
Proof. reflexivity. Qed.

Lemma append_assoc (a b c : string) : (a +:+ b) +:+ c = a +:+ (b +:+ c).
Proof.
  induction a as [|x a IH]; [done|]. by rewrite !append_cons, IH.
Qed.

Lemma prefix_occurs pattern s :
  String.prefix pattern s = true ↔ ∃ after, s = pattern +:+ after.
Proof.
  revert s. induction pattern as [|x pattern IH]; intros [|y s]; simpl.
  - split; [intros _; by exists "" | done].
  - split; [intros _; by exists (String y s) | done].
  - split; [done | by intros [? ?]].
  - destruct (ascii_dec x y) as [->|Hne].
    + rewrite IH. split; intros [after E]; exists after.
      * by rewrite append_cons, E.
      * rewrite append_cons in E. by injection E.
    + split; [done|]. intros [after E]. rewrite append_cons in E.
      injection E as E1 E2. done.
Qed.

Lemma includes_cons x s pattern :
  includes (String x s) pattern
  = String.prefix pattern (String x s) || includes s pattern.
Proof. reflexivity. Qed.

Lemma includes_nil pattern :
  includes "" pattern = String.prefix pattern "" || false.
Proof. reflexivity. Qed.

Lemma includes_occurs s pattern :
  includes s pattern = true ↔ occurs pattern s.
Proof.
  unfold occurs. induction s as [|x s IH].
  - rewrite includes_nil, orb_false_r, prefix_occurs. split.
    + intros [after E]. by exists "", after.
    + intros (before & after & E). destruct before; [by exists after|].
      by rewrite append_cons in E.
  - rewrite includes_cons, orb_true_iff, prefix_occurs, IH. split.
    + intros [[after E]|(before & after & E)].
      * by exists "", after.
      * exists (String x before), after. by rewrite append_cons, E.
    + intros (before & after & E). destruct before as [|y before].
      * left. by exists after.
      * right. rewrite append_cons in E. injection E as <- E.
        by exists before, after.
Qed.

Lemma occurs_inside pattern left right s :
  occurs (left +:+ pattern +:+ right) s → occurs pattern s.
Proof.
  intros (before & after & ->).
  exists (before +:+ left), (right +:+ after).
  by rewrite !append_assoc.
Qed.

Lemma includes_inside pattern left right s :
  includes s (left +:+ pattern +:+ right) = true → includes s pattern = true.
Proof. rewrite !includes_occurs. apply occurs_inside. Qed.

Lemma find_pattern content patterns :
  match List.find (λ entry : string * string, includes content (fst entry))
          patterns with
  | Some (pattern, type) =>
      ∃ earlier later,
        patterns = (earlier ++ (pattern, type) :: later)%list
        ∧ occurs pattern content
        ∧ Forall (λ entry, ¬ occurs (fst entry) content) earlier
  | None => Forall (λ entry, ¬ occurs (fst entry) content) patterns
  end.
Proof.
  induction patterns as [|[p t] rest IH]; simpl; [done|].
  destruct (includes content p) eqn:E.
  - exists [], rest. split; [done|]. split; [by apply includes_occurs|done].
  - assert (¬ occurs p content) as Hp.
    { intros Ho%includes_occurs. congruence. }
    destruct (List.find _ rest) as [[p' t']|].
    + destruct IH as (earlier & later & -> & Ho & He).
      exists ((p, t) :: earlier), later. split; [done|]. split; [done|].
      by constructor.
    + by constructor.
Qed.

(** X5. A document is taken for a Lambda source exactly when its language
    is Go, the base name of its path is main.go and its text contains the
    import path of the Lambda library somewhere: the quoted forms among
    LAMBDA_IMPORT_PATTERNS add nothing to the bare path. *)
Theorem isLambdaFile_iff document :
  LambdaDetector.isLambdaFile document = true
  ↔ LambdaDetector.languageId document = "go"
    ∧ path_basename (LambdaDetector.fileName document) = "main.go"
    ∧ occurs "github.com/aws/aws-lambda-go/lambda"
        (LambdaDetector.getText document).
Proof.
  assert (∀ content,
    LambdaDetector.hasLambdaImport content = true
    ↔ occurs "github.com/aws/aws-lambda-go/lambda" content) as Himport.
  { intros content. unfold LambdaDetector.hasLambdaImport,
      LambdaDetector.LAMBDA_IMPORT_PATTERNS. simpl.
    rewrite orb_false_r, !orb_true_iff. split.
    - intros [Hi|[Hi|Hi]].
      + by apply includes_occurs.
      + apply includes_inside in Hi. by apply includes_occurs.
      + apply (includes_inside "github.com/aws/aws-lambda-go/lambda" "`" "`")
          in Hi.
        by apply includes_occurs.
    - intros Ho. left. by apply includes_occurs. }
  unfold LambdaDetector.isLambdaFile.
  destruct (String.eqb_spec (LambdaDetector.languageId document) "go")
    as [Hgo|Hgo]; simpl.
  - destruct (String.eqb_spec
                (path_basename (LambdaDetector.fileName document)) "main.go")
      as [Hmain|Hmain]; simpl.
    + rewrite Himport. tauto.
    + split; [done | tauto].
  - split; [done | tauto].
Qed.

(** X6. detectEventType answers with the type of the first of its four
    patterns, in the order API Gateway, S3, DynamoDB, SQS, that occurs in
    the source text, and with nothing when none occurs; what it answers is
    one of the four event types. *)
Theorem detectEventType_first_pattern content :
  let a := occurs "events.APIGatewayProxyRequest" content in
  let s := occurs "events.S3Event" content in
  let d := occurs "events.DynamoDBEvent" content in
  let q := occurs "events.SQSEvent" content in
  (LambdaDetector.detectEventType content = Some "apigateway" ↔ a)
  ∧ (LambdaDetector.detectEventType content = Some "s3" ↔ ¬ a ∧ s)
  ∧ (LambdaDetector.detectEventType content = Some "dynamodb"
     ↔ ¬ a ∧ ¬ s ∧ d)
  ∧ (LambdaDetector.detectEventType content = Some "sqs"
     ↔ ¬ a ∧ ¬ s ∧ ¬ d ∧ q)
  ∧ (LambdaDetector.detectEventType content = None
     ↔ ¬ a ∧ ¬ s ∧ ¬ d ∧ ¬ q)
  ∧ ∀ type, LambdaDetector.detectEventType content = Some type →
      type ∈ known_tags.
Proof.
  intros a s d q. unfold LambdaDetector.detectEventType.
  pose proof (find_pattern content LambdaDetector.eventTypePatterns) as Hfind.
  unfold LambdaDetector.eventTypePatterns in *.
  destruct (List.find _ _) as [[pattern type]|] eqn:Hf; simpl.
  - destruct Hfind as (earlier & later & Hsplit & Ho & Hearlier).
    destruct earlier as [|e1 [|e2 [|e3 [|e4 [|e5 earlier]]]]];
      simplify_eq/=; repeat match goal with
        | H : Forall _ (_ :: _) |- _ => apply Forall_cons in H as [? H]
        end; simpl in *; unfold known_tags;
      repeat split; try done; try tauto;
      try (intros type [= <-]; rewrite !elem_of_cons; tauto).
  - repeat match goal with
      | H : Forall _ (_ :: _) |- _ => apply Forall_cons in H as [? H]
      end; simpl in *.
    repeat split; try done; tauto.
Qed.

End SourceDetection.

(** ** Manifests that createTemplate writes *)

Section Created.
Context `{Path}.

(** What createTemplate writes, as the readers see it *)
Lemma createTemplateObject_Ok now config t :
  TemplateManager.createTemplateObject now config = Ok t →
  ∃ name events properties,
    functionName config = VStr name
    ∧ TemplateManager.getEventConfiguration (eventType config)
        (StringUtils.toPascalCase name) = Ok events
    ∧ nullish t = false
    ∧ gecko t = VObj [
        ("sourceFile", or (sourceMainFile config) (VStr ""));
        ("sourceDir", or (sourceDir config) (VStr ""));
        ("eventType", or (eventType config) (VStr "apigateway"));
        ("lastModified", VStr now);
        ("version", VStr "2.0");
        ("buildMethod", or (buildMethod config) (VStr "direct"));
        ("architecture", or (architecture config) (VStr "arm64"));
        ("runtime", or (runtime config) (VStr "provided.al2023")) ]
    ∧ TemplateManager.find_function (or (opt_get t "Resources") (VObj []))
      = Ok (Some (0%nat, StringUtils.toPascalCase name +:+ "Function",
                  VObj [("Type", VStr TemplateManager.FUNCTION_TYPE);
                        ("Properties", VObj properties)]))
    ∧ lookup_field "Events" properties = events
    ∧ lookup_field "Runtime" properties
      = or (runtime config) (VStr "provided.al2023")
    ∧ lookup_field "Architectures" properties
      = VArr [or (architecture config) (VStr "arm64")]
    ∧ lookup_field "Timeout" properties = VUndef
    ∧ lookup_field "MemorySize" properties = VUndef
    ∧ opt_get (lookup_field "Environment" properties) "Variables"
      = written_variables (environment config)
    ∧ opt_get (opt_get t "Globals") "Function"
      = VObj [
          ("Timeout", or (TemplateManager.template_field timeout (template config))
                         (VNum 30));
          ("MemorySize",
             or (TemplateManager.template_field memorySize (template config))
                (VNum 128));
          ("Runtime", or (runtime config) (VStr "provided.al2023")) ]
    ∧ opt_get t "Description"
      = VStr (name +:+ TemplateManager.nl +:+ TemplateManager.nl
              +:+ to_string
                    (or (TemplateManager.template_field description
                           (template config))
                        (VStr ("Lambda function for "
                               +:+ to_string (eventType config) +:+ " events")))).
Proof.
  unfold TemplateManager.createTemplateObject.
  destruct (functionName config) as [| | | |name| |]; try discriminate.
  intros (events & Hev & Ht)%bind_Ok. injection Ht as <-.
  eexists name, events, _. split; [done|]. split; [done|].
  split; [done|]. split; [reflexivity|]. split; [reflexivity|].
  unfold TemplateManager.generateEnvironmentSection, written_variables.
  destruct (environment config) as [e|]; simpl.
  - destruct (truthy (variables e)); simpl;
      [destruct (length (own_entries (variables e)) =? 0)%nat|]; simpl;
      repeat split; reflexivity.
  - repeat split; reflexivity.
Qed.

Lemma or_or_default a b : truthy b = true → or (or a b) b = or a b.
Proof. unfold or. intros Hb. destruct (truthy a) eqn:Ha; by rewrite ?Ha, ?Hb. Qed.

Lemma or_default_truthy a b : truthy b = true → truthy (or a b) = true.
Proof. unfold or. intros Hb. by destruct (truthy a) eqn:Ha. Qed.

(** extractConfigFromTemplate, by cases on what it meets *)
Lemma extractConfig_cases now lambdaDir fb t :
  TemplateManager.extractConfig now lambdaDir fb t =
    if nullish t then Throw TypeError
    else
      match TemplateManager.find_function
              (or (opt_get t "Resources") (VObj [])) with
      | Ok (Some (_, key, res)) =>
          if String.eqb key "" then Throw MissingResource
          else
            ev ← read_eventType (gecko t)
                   (or (opt_get res "Properties") (VObj []));
            Ok (view now lambdaDir fb t key res ev)
      | Ok None => Throw MissingResource
      | Throw e => Throw e
      end.
Proof.
  destruct (nullish t) eqn:Ht.
  { unfold TemplateManager.extractConfig.
    by rewrite (get_nullish t "Metadata"). }
  destruct (TemplateManager.find_function (or (opt_get t "Resources") (VObj [])))
    as [[[[i key] res]|]|e] eqn:Hf.
  - destruct (String.eqb key "") eqn:Hkey.
    + unfold TemplateManager.extractConfig.
      rewrite !(get_not_nullish t) by done. simpl. rewrite Hf. simpl.
      by rewrite Hkey.
    + by rewrite (extractConfig_found _ _ _ _ _ _ _ Ht Hf Hkey).
  - unfold TemplateManager.extractConfig.
    rewrite !(get_not_nullish t) by done. simpl. by rewrite Hf.
  - unfold TemplateManager.extractConfig.
    rewrite !(get_not_nullish t) by done. simpl. by rewrite Hf.
Qed.

(** The fallback matters through the two source fields only *)
Lemma extractConfig_fallback now lambdaDir fb fb' t :
  or (or (opt_get (gecko t) "sourceFile") (opt_get fb "sourceMainFile")) (VStr "")
  = or (or (opt_get (gecko t) "sourceFile") (opt_get fb' "sourceMainFile"))
       (VStr "") →
  or (or (opt_get (gecko t) "sourceDir") (opt_get fb "sourceDir")) (VStr "")
  = or (or (opt_get (gecko t) "sourceDir") (opt_get fb' "sourceDir")) (VStr "") →
  TemplateManager.extractConfig now lambdaDir fb t
  = TemplateManager.extractConfig now lambdaDir fb' t.
Proof.
  intros Hsf Hsd. rewrite !extractConfig_cases.
  destruct (nullish t); [done|].
  destruct (TemplateManager.find_function _) as [[[[i key] res]|]|e]; try done.
  destruct (String.eqb key ""); [done|].
  destruct (read_eventType _ _) as [ev|e]; [|done]. simpl.
  unfold view. fold (gecko t). by rewrite Hsf, Hsd.
Qed.

Lemma or_or_self a : or (or a (or a (VStr ""))) (VStr "") = or (or a VUndef) (VStr "").
Proof. unfold or. destruct (truthy a) eqn:Ha; by rewrite ?Ha. Qed.

(** On a manifest that is read, the fallback that readLocalConfig
    passes on plays no part *)
Lemma readLocalConfig_read now lambdaDir fs t :
  TemplateManager.readTemplate lambdaDir fs = Ok t →
  ConfigManager.readLocalConfig now lambdaDir fs
  = TemplateManager.extractConfig (iso now) lambdaDir VUndef t.
Proof.
  intros Hread. pose proof Hread as [mt Hfile]%readTemplate_Ok.
  unfold ConfigManager.readLocalConfig,
    TemplateManager.extractConfigFromTemplate,
    ConfigManager.extractSourceInfoFromTemplate.
  rewrite existsSync_lookup, Hfile, Hread. simpl.
  destruct (nullish t) eqn:Ht.
  { rewrite (get_nullish t "Metadata") by done. simpl.
    by rewrite extractConfig_cases, Ht. }
  rewrite (get_not_nullish t "Metadata") by done. simpl. fold (gecko t).
  destruct (truthy (gecko t)) eqn:Hg.
  - rewrite !(get_not_nullish (gecko t)) by (by apply truthy_not_nullish).
    simpl. apply extractConfig_fallback; apply or_or_self.
  - simpl. apply extractConfig_fallback;
      rewrite !(falsy_opt_get (gecko t)) by done; reflexivity.
Qed.

(** X7. readLocalConfig returns a configuration exactly when
    extractConfigFromTemplate returns one without a fallback, and then the
    same one: the source information that readLocalConfig first extracts
    from the same manifest and passes on as the fallback never shows in
    the configuration. *)
Theorem readLocalConfig_without_fallback now lambdaDir fs c :
  ConfigManager.readLocalConfig now lambdaDir fs = Ok c
  ↔ TemplateManager.extractConfigFromTemplate now lambdaDir VUndef fs = Ok c.
Proof.
  unfold TemplateManager.extractConfigFromTemplate.
  destruct (TemplateManager.readTemplate lambdaDir fs) as [t|e] eqn:Hread.
  { by rewrite (readLocalConfig_read _ _ _ _ Hread). }
  unfold ConfigManager.readLocalConfig,
    ConfigManager.extractSourceInfoFromTemplate.
  rewrite Hread. simpl.
  by destruct (Fs.existsSync fs (path_join lambdaDir "template.yaml")).
Qed.

Lemma createTemplate_Ok now dir config fs fs' :
  TemplateManager.createTemplate now dir config fs = Ok fs' →
  ∃ t, TemplateManager.createTemplateObject (iso now) config = Ok t
    ∧ fs' = <[path_join dir "template.yaml" := File (ms now) (Some t)]> fs.
Proof.
  unfold TemplateManager.createTemplate.
  intros (t & Ht & Hw)%bind_Ok. apply writeYaml_Ok in Hw. eauto.
Qed.

(** X8. Reading back a manifest that createTemplate has just written
    gives the configuration it was created from, with the defaults
    filled in: source file and directory, event type, runtime,
    architecture, build method, limits and variable set. Three things
    are not given back: the description, which comes back with the
    function name and an empty line in front, the workspace path, which
    is the parent of the function directory, and the provenance of the
    environment, which is reset to manual. *)
Theorem create_then_read now later dir config fs fs' :
  TemplateManager.createTemplate now dir config fs = Ok fs' →
  iso now ≠ "" →
  ∃ c name,
    ConfigManager.readLocalConfig later dir fs' = Ok c
    ∧ functionName config = VStr name
    ∧ sourceMainFile c = or (sourceMainFile config) (VStr "")
    ∧ sourceDir c = or (sourceDir config) (VStr "")
    ∧ eventType c = or (eventType config) (VStr "apigateway")
    ∧ runtime c = or (runtime config) (VStr "provided.al2023")
    ∧ architecture c = or (architecture config) (VStr "arm64")
    ∧ buildMethod c = or (buildMethod config) (VStr "direct")
    ∧ lastModified c = VStr (iso now)
    ∧ workspacePath c = VStr (path_dirname dir)
    ∧ environment c
      = Some {| variables := or (written_variables (environment config)) (VObj []);
                lastUpdated := VStr ""; source := VStr "manual";
                awsFunctionName := VUndef |}
    ∧ template c
      = Some {|
          timeout :=
            or (TemplateManager.template_field timeout (template config))
               (VNum 30);
          memorySize :=
            or (TemplateManager.template_field memorySize (template config))
               (VNum 128);
          description :=
            VStr (name +:+ TemplateManager.nl +:+ TemplateManager.nl
                  +:+ to_string
                        (or (TemplateManager.template_field description
                               (template config))
                            (VStr ("Lambda function for "
                                   +:+ to_string (eventType config)
                                   +:+ " events")))) |}.
Proof.
  intros (t & Ht & ->)%createTemplate_Ok Hclock.
  apply createTemplateObject_Ok in Ht
    as (name & events & properties & Hname & _ & Hnull & Hgecko & Hfind
        & _ & Hrt & Harch & Hto & Hms & Henv & Hglobals & Hdesc).
  rewrite (readLocalConfig_read _ _ _ t) by apply readTemplate_insert.
  rewrite extractConfig_cases, Hnull, Hfind, key_Function_not_empty.
  assert (truthy (or (eventType config) (VStr "apigateway")) = true) as Hev
    by (by apply or_default_truthy).
  rewrite read_eventType_truthy by (by rewrite Hgecko).
  simpl. eexists _, name. split; [reflexivity|]. split; [done|].
  unfold view, gecko, opt_get in *. simpl.
  rewrite Hgecko, Hglobals, Hdesc. simpl.
  rewrite Hrt, Harch, Hto, Hms, Henv. simpl.
  assert (∀ a b, or (or (or a b) VUndef) b = or a b) as Hor1.
  { intros a b. unfold or.
    destruct (truthy a) eqn:Ha, (truthy b) eqn:Hb; by rewrite ?Ha, ?Hb. }
  assert (∀ a b, or (or a b) b = or a b) as Hor2.
  { intros a b. unfold or.
    destruct (truthy a) eqn:Ha, (truthy b) eqn:Hb; by rewrite ?Ha, ?Hb. }
  assert (∀ a b, or (or a b) (or a b) = or a b) as Hor3.
  { intros a b. unfold or.
    destruct (truthy a) eqn:Ha, (truthy b) eqn:Hb; by rewrite ?Ha, ?Hb. }
  rewrite !Hor1, !Hor3, !Hor2, !(or_falsy VUndef) by done. rewrite !Hor2.
  repeat split.
  - apply or_truthy. simpl. by apply negb_true_iff, String.eqb_neq.
  - f_equal. f_equal. apply or_truthy. by destruct name.
Qed.

End Created.

Lemma create_then_read_witness :
  ∃ c,
    ConfigManager.readLocalConfig StoreExample.t2 "/ws/orders"
      StoreExample.created = Ok c
    ∧ sourceMainFile c = VStr "/src/orders/main.go"
    ∧ eventType c = VStr "sqs"
    ∧ architecture c = VStr "x86_64"
    ∧ lastModified c = VStr (iso StoreExample.t0)
    ∧ workspacePath c = VStr "/ws".
Proof.
  destruct (create_then_read (H:=Posix.path) StoreExample.t0 StoreExample.t2
              "/ws/orders" StoreExample.wizard
              (<["/ws/orders" := Dir 40 []]> ∅) StoreExample.created)
    as (c & name & Hread & _ & Hsf & _ & Het & _ & Harch & _ & Hlm & Hws & _).
  - vm_compute. reflexivity.
  - discriminate.
  - exists c. repeat split; assumption.
Defined.

(** ** The trigger of a created manifest *)

Section TriggerRoundTrip.
Context `{Path}.

Lemma getEventConfiguration_inferred eventType functionName events :
  TemplateManager.getEventConfiguration eventType functionName = Ok events →
  truthy events = true
  ∧ TemplateManager.detectEventTypeFromEvents events
    = Ok (inferred_tag (to_string eventType)).
Proof.
  unfold TemplateManager.getEventConfiguration, inferred_tag.
  set (key := to_string eventType). clearbody key.
  destruct (existsb _ _); [done|].
  destruct (String.eqb key "__proto__") eqn:Hproto.
  { apply String.eqb_eq in Hproto as ->. by intros [= <-]. }
  unfold TemplateManager.configurations. simpl.
  repeat match goal with
  | |- context [String.eqb ?lit key] =>
      let E := fresh "E" in
      destruct (String.eqb lit key) eqn:E;
        [apply String.eqb_eq in E as <-; intros [= <-]; split;
         [reflexivity | vm_compute; reflexivity] |]
  end.
  intros [= <-]. rewrite bool_decide_eq_false_2; [split; reflexivity|].
  unfold known_tags. rewrite !elem_of_cons, elem_of_nil.
  intros [->|[->|[->|[->|[]]]]]; discriminate.
Qed.

(** On a manifest whose function resource has triggers, the two
    detectors read the same *)
Lemma detectEventType_body_found t i key res :
  nullish t = false →
  TemplateManager.find_function (or (opt_get t "Resources") (VObj []))
    = Ok (Some (i, key, res)) →
  nullish res = false →
  truthy (opt_get (opt_get res "Properties") "Events") = true →
  ConfigManager.detectEventType_body t
  = TemplateManager.detectEventTypeFromEvents
      (opt_get (opt_get res "Properties") "Events").
Proof.
  intros Ht Hf Hres Hev. unfold ConfigManager.detectEventType_body.
  rewrite (get_not_nullish t) by done. simpl. rewrite Hf. simpl.
  rewrite (get_not_nullish res) by done. simpl. rewrite Hev.
  unfold TemplateManager.detectEventTypeFromEvents.
  destruct (keys _) as [[|k ks]|e]; reflexivity.
Qed.

(** X9. The event type read back from the trigger of a created manifest
    is the event type the function was created for when that is one of
    apigateway, s3, dynamodb and sqs, and apigateway for every other
    one: createTemplate writes a Schedule trigger for an event type it
    does not know, and both detectors read a Schedule trigger as
    apigateway. *)
Theorem created_trigger_round_trip now lambdaDir config fs fs' :
  TemplateManager.createTemplate now lambdaDir config fs = Ok fs' →
  ∃ t key res,
    TemplateManager.readTemplate lambdaDir fs' = Ok t
    ∧ TemplateManager.find_function (or (opt_get t "Resources") (VObj []))
      = Ok (Some (0%nat, key, res))
    ∧ ConfigManager.detectEventTypeFromTemplate t
      = inferred_tag (to_string (eventType config))
    ∧ TemplateManager.detectEventTypeFromEvents
        (opt_get (opt_get res "Properties") "Events")
      = Ok (inferred_tag (to_string (eventType config))).
Proof.
  unfold TemplateManager.createTemplate.
  intros (t & Ht & ->%writeYaml_Ok)%bind_Ok.
  pose proof (createTemplateObject_Ok _ _ _ Ht)
    as (name & events & properties & _ & Hev & Hnull & _ & Hf & Hevents & _).
  apply getEventConfiguration_inferred in Hev as [Htruthy Hdetected].
  eexists t, _, _. split; [apply readTemplate_insert|].
  split; [exact Hf|].
  assert (opt_get (opt_get (VObj [("Type", VStr TemplateManager.FUNCTION_TYPE);
                                  ("Properties", VObj properties)])
                     "Properties") "Events" = events) as Hread by done.
  rewrite Hread. split; [|done].
  unfold ConfigManager.detectEventTypeFromTemplate.
  rewrite (detectEventType_body_found _ _ _ _ Hnull Hf) by (by rewrite ?Hread).
  by rewrite Hread, Hdetected.
Qed.

End TriggerRoundTrip.

Lemma created_trigger_round_trip_witness :
  ∃ t,
    TemplateManager.readTemplate "/ws/stream" TriggerExample.created = Ok t
    ∧ ConfigManager.detectEventTypeFromTemplate t = "apigateway".
Proof.
  destruct (created_trigger_round_trip (H:=Posix.path) StoreExample.t0
              "/ws/stream" TriggerExample.stream ∅ TriggerExample.created)
    as (t & key & res & Hread & _ & Hdetected & _).
  - vm_compute. reflexivity.
  - exists t. split; assumption.
Defined.

(** ** The resource that the run command invokes *)

Section Invocation.
Context `{Path}.

Lemma replace_separators_id s :
  separator_before_word s = false → StringUtils.replace_separators s = s.
Proof.
  induction s as [|c s IH]; [done|].
  destruct s as [|d r]; [done|].
  change (separator_before_word (String c (String d r)))
    with ((StringUtils.is_sep c && StringUtils.is_word d)
          || separator_before_word (String d r)).
  intros [Hc Hr]%orb_false_iff.
  change (StringUtils.replace_separators (String c (String d r)))
    with (if StringUtils.is_sep c && StringUtils.is_word d
          then String (StringUtils.upper d) (StringUtils.replace_separators r)
          else String c (StringUtils.replace_separators (String d r))).
  rewrite Hc. by rewrite (IH Hr).
Qed.

Lemma lower_upper c :
  StringUtils.lower c = c → StringUtils.lower (StringUtils.upper c) = c.
Proof. each_char c. Qed.

Lemma lower_capitalize s :
  StringUtils.toLowerCase s = s →
  StringUtils.toLowerCase (StringUtils.capitalize s) = s.
Proof.
  destruct s as [|c s]; [done|]. simpl. intros [= Hc Hs].
  destruct (StringUtils.is_word c); simpl; [|by rewrite Hc, Hs].
  by rewrite (lower_upper _ Hc), Hs.
Qed.

(** X10. A function created under a name in small letters in which no
    hyphen or underscore is followed by a letter, a digit or an
    underscore is read back under that name, and the command line of
    runWithSAMInvoke names the function resource that the manifest
    declares. *)
Theorem created_function_invoked now later dir name config fb eventFilePath
    fs fs' :
  functionName config = VStr name →
  name ≠ "" →
  StringUtils.toLowerCase name = name →
  separator_before_word name = false →
  TemplateManager.createTemplate now dir config fs = Ok fs' →
  ∃ c t key res,
    TemplateManager.extractConfigFromTemplate later dir fb fs' = Ok c
    ∧ functionName c = VStr name
    ∧ TemplateManager.readTemplate dir fs' = Ok t
    ∧ TemplateManager.find_function (or (opt_get t "Resources") (VObj []))
      = Ok (Some (0%nat, key, res))
    ∧ RunCommand.samInvokeCommand c eventFilePath
      = Ok ("sam local invoke " +:+ LambdaDetector.double_quote +:+ key
            +:+ LambdaDetector.double_quote +:+ " --event "
            +:+ LambdaDetector.double_quote +:+ eventFilePath
            +:+ LambdaDetector.double_quote).
Proof.
  intros Hname Hne Hlower Hsep Hcreate.
  unfold TemplateManager.createTemplate in Hcreate.
  apply bind_Ok in Hcreate as (t & Ht & ->%writeYaml_Ok).
  destruct (createTemplateObject_shape _ _ _ _ Hname Ht)
    as (Hnull & Hfn & Hev & res & Hf).
  assert (StringUtils.toLowerCase (StringUtils.toPascalCase name) = name)
    as Hback.
  { unfold StringUtils.toPascalCase. rewrite (replace_separators_id _ Hsep).
    by apply lower_capitalize. }
  eexists _, t, _, res.
  split; [|split; [|split; [apply readTemplate_insert|split; [exact Hf|]]]].
  - unfold TemplateManager.extractConfigFromTemplate.
    rewrite readTemplate_insert. simpl.
    rewrite (extractConfig_found _ _ _ _ _ _ _ Hnull Hf
               (key_Function_not_empty _)).
    fold (gecko t). rewrite read_eventType_truthy by done. reflexivity.
  - simpl. fold (gecko t). rewrite Hfn, strip_Function_app, Hback.
    rewrite (or_falsy VUndef) by done. apply or_truthy. simpl.
    by apply negb_true_iff, String.eqb_neq.
  - unfold RunCommand.samInvokeCommand.
    assert (functionName (view (iso later) dir fb t
              (StringUtils.toPascalCase name +:+ "Function") res
              (opt_get (gecko t) "eventType")) = VStr name) as ->; [|done].
    simpl. fold (gecko t). rewrite Hfn, strip_Function_app, Hback.
    rewrite (or_falsy VUndef) by done. apply or_truthy. simpl.
    by apply negb_true_iff, String.eqb_neq.
Qed.

End Invocation.

Lemma created_function_invoked_witness :
  ∃ c,
    TemplateManager.extractConfigFromTemplate StoreExample.t2 "/ws/orders"
      VUndef (NamingExample.created "orders") = Ok c
    ∧ functionName c = VStr "orders"
    ∧ RunCommand.samInvokeCommand c "/ws/orders/event.json"
      = Ok ("sam local invoke " +:+ LambdaDetector.double_quote
            +:+ "OrdersFunction" +:+ LambdaDetector.double_quote
            +:+ " --event " +:+ LambdaDetector.double_quote
            +:+ "/ws/orders/event.json" +:+ LambdaDetector.double_quote).
Proof.
  destruct (created_function_invoked (H:=Posix.path) StoreExample.t0
              StoreExample.t2 "/ws/orders" "orders"
              (NamingExample.named "orders") VUndef "/ws/orders/event.json"
              NamingExample.empty_fs (NamingExample.created "orders"))
    as (c & t & key & res & Hc & Hname & Hread & Hfind & Hcommand).
  - reflexivity.
  - discriminate.
  - reflexivity.
  - reflexivity.
  - vm_compute. reflexivity.
  - exists c. split; [assumption|]. split; [assumption|].
    rewrite Hcommand.
    vm_compute in Hread. injection Hread as <-.
    vm_compute in Hfind. injection Hfind as <- _.
    reflexivity.
Defined.

(** ** The registry and the validator of the workspace *)

Section RegistryAndValidator.
Context `{Path}.

Lemma validateUnifiedTemplate_block ws fs d :
  ConfigManager.hasMetadata
    (ConfigManager.validateUnifiedTemplate (path_join ws d) fs)
  = has_block ws fs d
  ∧ ConfigManager.exists_
      (ConfigManager.validateUnifiedTemplate (path_join ws d) fs)
    = has_manifest ws fs d.
Proof.
  unfold ConfigManager.validateUnifiedTemplate, has_block, has_manifest,
    private_metadata, TemplateManager.readTemplate, Fs.readYaml.
  rewrite existsSync_lookup.
  destruct (fs !! path_join (path_join ws d) "template.yaml")
    as [[mt [t|]|mt es]|]; simpl; try done.
  unfold get. destruct (nullish t); simpl; [done|].
  by destruct (truthy (opt_get (opt_get t "Metadata") "GeckoLambda")).
Qed.

Lemma has_block_manifest ws fs d :
  has_block ws fs d = true → has_manifest ws fs d = true.
Proof.
  unfold has_block, has_manifest, private_metadata.
  rewrite existsSync_lookup.
  by destruct (fs !! path_join (path_join ws d) "template.yaml").
Qed.

Lemma getAllLambdaDirectories_filter ws fs :
  ConfigManager.getAllLambdaDirectories ws fs
  = List.filter (has_manifest ws fs) (subdirectories ws fs).
Proof.
  unfold ConfigManager.getAllLambdaDirectories, subdirectories,
    Fs.readdirSync, LambdaDetector.directory_names.
  rewrite existsSync_lookup.
  destruct (fs !! ws) as [[mt c|mt es]|]; simpl; try done.
  induction es as [|[name isdir] es IH]; simpl; [done|].
  destruct isdir; simpl; [|exact IH].
  fold (has_manifest ws fs name).
  destruct (has_manifest ws fs name); simpl; by rewrite IH.
Qed.

Lemma listed_names now ws fs l :
  map LambdaDetector.functionName (omap (listing now ws fs) l)
  = List.filter (has_block ws fs) l.
Proof.
  induction l as [|d l IH]; [done|].
  change (omap (listing now ws fs) (d :: l))
    with (match listing now ws fs d with
          | Some c => c :: omap (listing now ws fs) l
          | None => omap (listing now ws fs) l
          end).
  change (List.filter (has_block ws fs) (d :: l))
    with (if has_block ws fs d then d :: List.filter (has_block ws fs) l
          else List.filter (has_block ws fs) l).
  unfold listing at 1, has_block at 1.
  destruct (private_metadata ws fs d); simpl; by rewrite IH.
Qed.

Lemma filter_filter_implied {A} (P Q : A → bool) l :
  (∀ x, P x = true → Q x = true) →
  List.filter P (List.filter Q l) = List.filter P l.
Proof.
  intros HPQ. induction l as [|x l IH]; simpl; [done|].
  destruct (Q x) eqn:HQ; simpl.
  - by rewrite IH.
  - destruct (P x) eqn:HP; [|done]. apply HPQ in HP. congruence.
Qed.

Lemma getAllLambdaFunctions_listing now ws fs :
  LambdaDetector.getAllLambdaFunctions now ws fs
  = omap (listing now ws fs) (subdirectories ws fs).
Proof.
  unfold LambdaDetector.getAllLambdaFunctions.
  destruct (getAllLambdaFunctions_collect now ws fs) as [->|[-> ->]];
    [apply collect_listing | done].
Qed.

Lemma registry_names now ws fs :
  map LambdaDetector.functionName (LambdaDetector.getAllLambdaFunctions now ws fs)
  = List.filter (has_block ws fs) (ConfigManager.getAllLambdaDirectories ws fs).
Proof.
  rewrite getAllLambdaFunctions_listing, listed_names,
    getAllLambdaDirectories_filter.
  symmetry. apply filter_filter_implied, has_block_manifest.
Qed.

(** X11. The functions that the registry lists are, in the same order,
    the function directories that validateUnifiedTemplate finds with
    private metadata: the two scans of the workspace agree on which
    directories count. *)
Theorem registry_matches_validator now ws fs :
  map LambdaDetector.functionName (LambdaDetector.getAllLambdaFunctions now ws fs)
  = List.filter
      (λ lambdaDir,
         ConfigManager.hasMetadata
           (ConfigManager.validateUnifiedTemplate (path_join ws lambdaDir) fs))
      (ConfigManager.getAllLambdaDirectories ws fs)
  ∧ ∀ lambdaDir,
      lambdaDir ∈ ConfigManager.getAllLambdaDirectories ws fs →
      ConfigManager.exists_
        (ConfigManager.validateUnifiedTemplate (path_join ws lambdaDir) fs)
      = true.
Proof.
  split.
  - rewrite registry_names. apply filter_ext. intros d.
    by destruct (validateUnifiedTemplate_block ws fs d) as [-> _].
  - intros d Hd. rewrite getAllLambdaDirectories_filter in Hd.
    apply list_elem_of_In, filter_In in Hd as [_ Hd].
    by destruct (validateUnifiedTemplate_block ws fs d) as [_ ->].
Qed.

Lemma validateAll_counts ws fs l :
  Forall (λ d, has_manifest ws fs d = true) l →
  Extension.validateAll ws fs l
  = (length (List.filter (has_block ws fs) l),
     length (List.filter (λ d, negb (has_block ws fs d)) l),
     map invalid_issue (List.filter (λ d, negb (has_block ws fs d)) l)).
Proof.
  induction l as [|d l IH]; [done|]. intros Hl.
  inversion Hl as [|? ? Hd Hrest]; subst. simpl.
  rewrite (IH Hrest).
  destruct (validateUnifiedTemplate_block ws fs d) as [-> ->].
  rewrite Hd. simpl. by destruct (has_block ws fs d).
Qed.

Lemma filter_partition_length {A} (P : A → bool) l :
  (length (List.filter P l) + length (List.filter (λ x, negb (P x)) l)
   = length l)%nat.
Proof.
  induction l as [|x l IH]; simpl; [done|].
  destruct (P x); simpl; lia.
Qed.

(** X12. validateUnifiedSystem counts as valid exactly the functions the
    registry lists, and as invalid the remaining function directories
    that hold a manifest, with one issue line for each of them in the
    order of the listing; it says that there are no functions only when
    no directory holds a manifest, and offers the repair only when
    something is invalid. *)
Theorem validateUnifiedSystem_counts now ws fs :
  let lambdaDirs := ConfigManager.getAllLambdaDirectories ws fs in
  let listed := LambdaDetector.getAllLambdaFunctions now ws fs in
  match Extension.validateUnifiedSystem ws fs with
  | Extension.NoFunctions => lambdaDirs = []
  | Extension.AllValid validCount =>
      validCount = length listed ∧ validCount = length lambdaDirs
      ∧ (0 < validCount)%nat
  | Extension.SomeInvalid validCount invalidCount issues =>
      validCount = length listed
      ∧ (validCount + invalidCount)%nat = length lambdaDirs
      ∧ (0 < invalidCount)%nat
      ∧ issues
        = map invalid_issue
            (List.filter (λ d, negb (has_block ws fs d)) lambdaDirs)
  end.
Proof.
  intros lambdaDirs listed. unfold Extension.validateUnifiedSystem.
  fold lambdaDirs.
  destruct (length lambdaDirs =? 0)%nat eqn:Hlen.
  { apply Nat.eqb_eq in Hlen. by destruct lambdaDirs. }
  apply Nat.eqb_neq in Hlen.
  rewrite validateAll_counts.
  2:{ apply Forall_forall. intros d Hd. subst lambdaDirs.
      rewrite getAllLambdaDirectories_filter in Hd.
      by apply list_elem_of_In, filter_In in Hd as [_ Hd]. }
  assert (length (List.filter (has_block ws fs) lambdaDirs) = length listed)
    as Hvalid.
  { subst lambdaDirs listed. by rewrite <- (registry_names now), length_map. }
  pose proof (filter_partition_length (has_block ws fs) lambdaDirs) as Hsum.
  destruct (0 <? _)%nat eqn:Hinv.
  - apply Nat.ltb_lt in Hinv. repeat split; try done.
  - apply Nat.ltb_ge in Hinv. repeat split; try done; lia.
Qed.

End RegistryAndValidator.

(** ** Writing private metadata, then looking the file up *)

Section WriteThenLookup.
Context `{Path}.

Lemma scan_for_Some now ws s fs l c :
  LambdaDetector.scan_for (iso now) ws s fs l = Some c →
  ∃ d, d ∈ l ∧ answer now ws s fs d = Some c.
Proof.
  induction l as [|d l IH]; [done|]. rewrite scan_for_cons.
  destruct (answer now ws s fs d) as [c'|] eqn:Ha.
  - intros [= <-]. exists d. split; [left | done].
  - intros (d' & Hd' & Ha')%IH. exists d'. split; [by right | done].
Qed.

Lemma answer_Some now ws s fs d c :
  answer now ws s fs d = Some c →
  ∃ block, private_metadata ws fs d = Some block
    ∧ c = found_config now ws s d block.
Proof.
  unfold answer. destruct (private_metadata ws fs d) as [block|]; [|done].
  destruct (str_eq _ s); [|done]. intros [= <-]. eauto.
Qed.

(** The manifest of one directory is rewritten: what the registry sees
    of each directory afterwards *)
Lemma private_metadata_insert ws fs d mt t d' :
  private_metadata ws (<[manifest_path ws d := File mt (Some t)]> fs) d'
  = if bool_decide (manifest_path ws d' = manifest_path ws d)
    then (if nullish t then None
          else if truthy (gecko t) then Some (gecko t) else None)
    else private_metadata ws fs d'.
Proof.
  unfold private_metadata. fold (manifest_path ws d').
  case_bool_decide as Hp.
  - rewrite Hp, lookup_insert_eq. reflexivity.
  - by rewrite lookup_insert_ne.
Qed.

Lemma subdirectories_insert_file ws fs p mt content mt0 content0 :
  fs !! p = Some (File mt0 content0) →
  subdirectories ws (<[p := File mt content]> fs) = subdirectories ws fs.
Proof.
  intros Hp. unfold subdirectories.
  destruct (decide (ws = p)) as [->|Hne].
  - by rewrite lookup_insert_eq, Hp.
  - by rewrite lookup_insert_ne.
Qed.

Lemma mapping_manifest_shape t :
  mapping_manifest t →
  nullish t = false ∧ is_sequence t = false
  ∧ is_sequence (opt_get t "Metadata") = false.
Proof.
  intros [[ts ->] [Hm|[ms Hm]]]; repeat split; try done.
  - by destruct (opt_get (VObj ts) "Metadata").
  - by rewrite Hm.
Qed.

Lemma with_block_not_nullish block t t' :
  with_block block t = Ok t' → nullish t' = false.
Proof.
  unfold with_block, TemplateManager.ensure, get.
  destruct t as [| |b|n|s|l|ts]; simpl; try done.
  - destruct (truthy _); simpl; [|done].
    destruct (set _ _ _); simpl; [|done]. by intros [= <-].
  - destruct (truthy _); simpl.
    + destruct (set _ _ _); simpl; [|done]. by intros [= <-].
    + by intros [= <-].
  - destruct (truthy _); simpl.
    + destruct (set _ _ _); simpl; [|done]. by intros [= <-].
    + by intros [= <-].
Qed.

(** After the manifest of [d] is rewritten with a block that names
    [sf], the registry answers for [sf]; with the directory [d] when no
    manifest claimed [sf] before. *)
Lemma lookup_after_write now later ws d sf fs mt0 t0 t' :
  d ∈ subdirectories ws fs →
  distinct_manifests ws fs →
  fs !! manifest_path ws d = Some (File mt0 t0) →
  nullish t' = false → truthy (gecko t') = true →
  opt_get (gecko t') "sourceFile" = VStr sf →
  let fs' := <[manifest_path ws d := File (ms now) (Some t')]> fs in
  (∃ c, LambdaDetector.getConfiguration later ws sf fs' = Some c
     ∧ LambdaDetector.sourceFile c = VStr sf)
  ∧ (LambdaDetector.getConfiguration later ws sf fs = None →
     LambdaDetector.getConfiguration later ws sf fs'
     = Some (found_config later ws sf d (gecko t'))).
Proof.
  intros Hd Hdistinct Hfile Hnull Hg Hsf fs'.
  assert (subdirectories ws fs' = subdirectories ws fs) as Hsub
    by (by eapply subdirectories_insert_file).
  assert (private_metadata ws fs' d = Some (gecko t')) as Hpm.
  { unfold fs'. rewrite private_metadata_insert.
    rewrite bool_decide_eq_true_2 by done. by rewrite Hnull, Hg. }
  assert (claims ws sf fs' d = true) as Hclaims.
  { unfold claims. rewrite Hpm, Hsf. simpl. apply String.eqb_refl. }
  split.
  - rewrite getConfiguration_scan, Hsub.
    destruct (LambdaDetector.scan_for (iso later) ws sf fs'
                (subdirectories ws fs)) as [c|] eqn:Hscan.
    + exists c. split; [done|].
      apply scan_for_Some in Hscan as (d' & _ & Ha).
      by apply answer_Some in Ha as (block & _ & ->).
    + rewrite scan_for_None in Hscan. specialize (Hscan d Hd). congruence.
  - rewrite !getConfiguration_scan, Hsub. intros Hnone.
    rewrite scan_for_None in Hnone.
    apply list_elem_of_split_l in Hd as (l1 & l2 & Hl & Hnot).
    rewrite Hl. rewrite scan_for_first.
    + rewrite scan_for_cons. unfold answer. rewrite Hpm, Hsf. simpl.
      by rewrite String.eqb_refl.
    + intros d' Hd'. unfold claims, fs'. rewrite private_metadata_insert.
      rewrite bool_decide_eq_false_2.
      * apply Hnone. rewrite Hl. apply elem_of_app. by left.
      * intros Hp. apply Hdistinct in Hp.
        -- by subst.
        -- rewrite Hl. apply elem_of_app. by left.
        -- rewrite Hl. apply elem_of_app. right. left.
Qed.

(** X13. Writing the private metadata of a function directory, with
    either updateGeckoMetadata, registers the source file: afterwards
    getConfiguration answers for that file, and when no manifest claimed
    the file before, the answer is the directory written, with the event
    type and source directory written ("apigateway" and the directory of
    the file standing in for empty ones). *)
Theorem metadata_write_then_lookup now later ws d sf sd et fs t :
  d ∈ subdirectories ws fs →
  distinct_manifests ws fs →
  TemplateManager.readTemplate (path_join ws d) fs = Ok t →
  mapping_manifest t →
  ∃ fs1 fs2,
    ConfigManager.updateGeckoMetadata now (path_join ws d) sf sd et fs = Ok fs1
    ∧ TemplateManager.updateGeckoMetadata now (path_join ws d) sf sd et fs
      = Ok fs2
    ∧ ∀ fs', fs' = fs1 ∨ fs' = fs2 →
        (∃ c, LambdaDetector.getConfiguration later ws sf fs' = Some c
           ∧ LambdaDetector.sourceFile c = VStr sf)
        ∧ (LambdaDetector.getConfiguration later ws sf fs = None →
           LambdaDetector.getConfiguration later ws sf fs'
           = Some {|
               LambdaDetector.functionName := d;
               LambdaDetector.workspacePath := ws;
               LambdaDetector.eventType := or (VStr et) (VStr "apigateway");
               LambdaDetector.lastModified :=
                 or (VStr (iso now)) (VStr (iso later));
               LambdaDetector.sourceFile := VStr sf;
               LambdaDetector.sourceDir :=
                 or (VStr sd) (VStr (path_dirname sf)) |}).
Proof.
  intros Hd Hdistinct Ht Hm.
  pose proof (mapping_manifest_shape _ Hm) as (Hnull & Hseq & Hmseq).
  destruct (with_block_mapping (λ _, fresh_block (iso now) sf sd et) t Hm)
    as [t1 H1].
  destruct (with_block_mapping (merged_block (iso now) sf sd et) t Hm)
    as [t2 H2].
  pose proof Ht as [mt0 Hfile]%readTemplate_Ok.
  eexists _, _. split; [by eapply replace_update_Ok|].
  split; [by eapply merge_update_Ok|].
  pose proof (merged_block_written (iso now) sf sd et (gecko t))
    as (Wsf & Wsd & Wet & Wlm & Wv).
  intros fs' [->| ->].
  - pose proof (with_block_written _ _ _ H1 Hseq Hmseq) as Hg.
    destruct (lookup_after_write now later ws d sf fs mt0 (Some t) t1)
      as [Hsome Hfirst]; try done.
    + by eapply with_block_not_nullish.
    + by rewrite Hg.
    + by rewrite Hg.
    + unfold manifest_path in Hsome, Hfirst.
      split; [exact Hsome|]. intros Hnone. rewrite (Hfirst Hnone).
      unfold found_config. by rewrite Hg.
  - pose proof (with_block_written _ _ _ H2 Hseq Hmseq) as Hg.
    destruct (lookup_after_write now later ws d sf fs mt0 (Some t) t2)
      as [Hsome Hfirst]; try done.
    + by eapply with_block_not_nullish.
    + by rewrite Hg.
    + by rewrite Hg.
    + unfold manifest_path in Hsome, Hfirst.
      split; [exact Hsome|]. intros Hnone. rewrite (Hfirst Hnone).
      unfold found_config. by rewrite Hg, Wsd, Wet, Wlm.
Qed.

End WriteThenLookup.

Lemma distinct_manifests_registry :
  distinct_manifests (H:=Posix.path) "/ws" RegistryExample.workspace.
Proof.
  intros d d' Hd Hd' Hp. vm_compute in Hd, Hd'.
  repeat (apply elem_of_cons in Hd as [->|Hd]);
    try (by apply elem_of_nil in Hd);
    repeat (apply elem_of_cons in Hd' as [->|Hd']);
    try (by apply elem_of_nil in Hd');
    first [reflexivity | vm_compute in Hp; discriminate Hp].
Qed.

Lemma metadata_write_then_lookup_witness :
  ∃ fs1,
    ConfigManager.updateGeckoMetadata StoreExample.t1 "/ws/legacy"
      "/src/legacy/main.go" "/src/legacy" "s3" RegistryExample.workspace
    = Ok fs1
    ∧ LambdaDetector.getConfiguration StoreExample.t2 "/ws"
        "/src/legacy/main.go" fs1
      = Some {|
          LambdaDetector.functionName := "legacy";
          LambdaDetector.workspacePath := "/ws";
          LambdaDetector.eventType := VStr "s3";
          LambdaDetector.lastModified := VStr (iso StoreExample.t1);
          LambdaDetector.sourceFile := VStr "/src/legacy/main.go";
          LambdaDetector.sourceDir := VStr "/src/legacy" |}.
Proof.
  destruct (metadata_write_then_lookup (H:=Posix.path) StoreExample.t1
              StoreExample.t2 "/ws" "legacy" "/src/legacy/main.go"
              "/src/legacy" "s3" RegistryExample.workspace
              RegistryExample.bare_manifest)
    as (fs1 & fs2 & H1 & _ & Hlookup).
  - vm_compute. apply elem_of_cons. right. apply elem_of_cons. by left.
  - apply distinct_manifests_registry.
  - vm_compute. reflexivity.
  - split; [by eexists | by left].
  - exists fs1. split; [exact H1|].
    destruct (Hlookup fs1 (or_introl eq_refl)) as [_ Hfirst].
    apply Hfirst. vm_compute. reflexivity.
Defined.

(** ** saveConfiguration *)

Section SaveThenGet.
Context `{Path}.

Lemma file_at_insert_dir fs p mt es q :
  file_at fs p = None →
  file_at (<[p := Dir mt es]> fs) q = file_at fs q.
Proof.
  unfold file_at. intros Hp. destruct (decide (p = q)) as [<-|Hne].
  - by rewrite lookup_insert_eq.
  - by rewrite lookup_insert_ne.
Qed.

(** Making directories changes no file *)
Lemma mkdir_p_files fuel now p fs fs' :
  Fs.mkdir_p fuel now p fs = Ok fs' → ∀ q, file_at fs' q = file_at fs q.
Proof.
  revert p fs fs'. induction fuel as [|fuel IH]; intros p fs fs'; simpl.
  - destruct (fs !! p) as [[mt c|mt es]|] eqn:Hp; try done.
    + by intros [= <-].
    + intros [= <-] q. apply file_at_insert_dir. unfold file_at. by rewrite Hp.
  - destruct (fs !! p) as [[mt c|mt es]|] eqn:Hp; try done.
    + by intros [= <-].
    + destruct (String.eqb _ p).
      * intros [= <-] q. apply file_at_insert_dir. unfold file_at.
        by rewrite Hp.
      * intros (fs1 & H1 & Hrest)%bind_Ok.
        destruct (fs1 !! path_dirname p) as [[mt c|mt es]|] eqn:Hparent;
          try done.
        injection Hrest as <-. intros q.
        pose proof (IH _ _ _ H1) as Hfiles.
        assert (file_at fs1 p = None) as Hp1.
        { rewrite Hfiles. unfold file_at. by rewrite Hp. }
        rewrite file_at_insert_dir.
        -- rewrite file_at_insert_dir; [apply Hfiles|].
           unfold file_at. by rewrite Hparent.
        -- destruct (decide (path_dirname p = p)) as [Heq|Hne].
           ++ unfold file_at. rewrite Heq. by rewrite lookup_insert_eq.
           ++ unfold file_at in *. by rewrite lookup_insert_ne.
Qed.

Lemma private_metadata_files ws fs fs' d :
  (∀ q, file_at fs' q = file_at fs q) →
  private_metadata ws fs' d = private_metadata ws fs d.
Proof.
  intros Hfiles. unfold private_metadata.
  specialize (Hfiles (path_join (path_join ws d) "template.yaml")).
  unfold file_at in Hfiles.
  destruct (fs' !! _) as [[mt' c'|mt' es']|], (fs !! _) as [[mt c|mt es]|];
    try done.
  by injection Hfiles as -> ->.
Qed.

Lemma lookup_dumped k entries :
  NoDup (map fst entries) →
  lookup_field k (dumped entries) = lookup_field k entries.
Proof.
  induction entries as [|[k' v] entries IH]; [done|].
  intros [Hk' Hnodup]%NoDup_cons. specialize (IH Hnodup).
  unfold dumped in *. simpl.
  destruct (String.eqb k' k) eqn:E.
  - apply String.eqb_eq in E as ->.
    destruct v; simpl; rewrite ?String.eqb_refl; try done.
    rewrite IH. clear IH Hnodup.
    induction entries as [|[k2 v2] entries IH2]; [done|]. simpl in *.
    destruct (String.eqb k2 k) eqn:E2.
    + apply String.eqb_eq in E2 as ->. exfalso. apply Hk'. left.
    + apply IH2. intros Hin. apply Hk'. by right.
  - destruct v; simpl; rewrite ?E; done.
Qed.

(** The first directory of the listing that claims the file answers *)
Lemma scan_for_only now ws s fs l d c :
  d ∈ l →
  (∀ d', d' ∈ l → d' ≠ d → claims ws s fs d' = false) →
  answer now ws s fs d = Some c →
  LambdaDetector.scan_for (iso now) ws s fs l = Some c.
Proof.
  intros Hd Hothers Ha.
  apply list_elem_of_split_l in Hd as (l1 & l2 & -> & Hnot).
  rewrite scan_for_first.
  - by rewrite scan_for_cons, Ha.
  - intros d' Hd'. apply Hothers.
    + apply elem_of_app. by left.
    + by intros ->.
Qed.

(** What saveConfiguration does when it returns *)
Lemma saveConfiguration_Ok now config fs fs' :
  let lambdaDir :=
    path_join (LambdaDetector.workspacePath config)
      (LambdaDetector.functionName config) in
  let templatePath := path_join lambdaDir "template.yaml" in
  run (LambdaDetector.saveConfiguration now config) fs = (fs', Ok tt) →
  ∃ fs1 template updated,
    (∀ q, file_at fs1 q = file_at fs q)
    ∧ template = match Fs.readYaml fs1 templatePath with
                 | Ok template => template
                 | Throw _ => VObj []
                 end
    ∧ LambdaDetector.withConfiguration config template = Ok updated
    ∧ fs' = <[templatePath := File (ms now) (Some updated)]> fs1.
Proof.
  intros lambdaDir templatePath.
  unfold LambdaDetector.saveConfiguration. fold lambdaDir. fold templatePath.
  unfold mbind, io_bind, mret, io_ret, inspect, modify, attempt. simpl.
  assert (∀ fs1,
    (let (fs'1, r0) :=
       run (if Fs.existsSync fs1 templatePath
            then IO (λ fs0, (fs0, Ok match Fs.readYaml fs0 templatePath with
                                     | Ok template => template
                                     | Throw _ => VObj []
                                     end))
            else IO (λ fs0, (fs0, Ok (VObj [])))) fs1 in
     match r0 with
     | Ok a0 =>
         match LambdaDetector.withConfiguration config a0 with
         | Ok a1 =>
             match Fs.writeYaml now templatePath a1 fs'1 with
             | Ok fs'2 => (fs'2, Ok ())
             | Throw e => (fs'1, Throw e)
             end
         | Throw e => (fs'1, Throw e)
         end
     | Throw e => (fs'1, Throw e)
     end) = (fs', Ok ()) →
    ∃ updated,
      LambdaDetector.withConfiguration config
        match Fs.readYaml fs1 templatePath with
        | Ok template => template
        | Throw _ => VObj []
        end = Ok updated
      ∧ fs' = <[templatePath := File (ms now) (Some updated)]> fs1) as Hrest.
  { intros fs1.
    assert (match Fs.readYaml fs1 templatePath with
            | Ok template => template
            | Throw _ => VObj []
            end
            = if Fs.existsSync fs1 templatePath
              then match Fs.readYaml fs1 templatePath with
                   | Ok template => template
                   | Throw _ => VObj []
                   end
              else VObj []) as ->.
    { rewrite existsSync_lookup. unfold Fs.readYaml.
      by destruct (fs1 !! templatePath). }
    destruct (Fs.existsSync fs1 templatePath); cbn [run];
      (destruct (LambdaDetector.withConfiguration config _) as [updated|e];
         [|done];
       destruct (Fs.writeYaml now templatePath updated fs1) as [fs2|e] eqn:Hw;
         [|done];
       intros [= <-]; apply writeYaml_Ok in Hw as ->; by eexists). }
  destruct (negb (Fs.existsSync fs lambdaDir)); simpl.
  - destruct (Fs.mkdirSync now lambdaDir fs) as [fs1|e] eqn:Hmk; [|done].
    intros (updated & Hw & ->)%Hrest.
    eexists fs1, _, updated. split; [by eapply mkdir_p_files | done].
  - intros (updated & Hw & ->)%Hrest.
    eexists fs, _, updated. done.
Qed.

Lemma withConfiguration_with_block config t :
  LambdaDetector.withConfiguration config t
  = with_block (λ _, saved_block config) t.
Proof. reflexivity. Qed.

Lemma saved_block_fields config :
  opt_get (saved_block config) "sourceFile" = LambdaDetector.sourceFile config
  ∧ opt_get (saved_block config) "sourceDir" = LambdaDetector.sourceDir config
  ∧ opt_get (saved_block config) "eventType" = LambdaDetector.eventType config
  ∧ opt_get (saved_block config) "lastModified"
    = LambdaDetector.lastModified config.
Proof.
  unfold saved_block, opt_get. cbn [own_entries].
  rewrite !lookup_dumped by (by apply (bool_decide_unpack _); vm_compute).
  done.
Qed.

Lemma readYaml_files fs fs' p :
  file_at fs' p = file_at fs p →
  match Fs.readYaml fs' p with Ok t => t | Throw _ => VObj [] end
  = match Fs.readYaml fs p with Ok t => t | Throw _ => VObj [] end.
Proof.
  unfold file_at, Fs.readYaml.
  destruct (fs' !! p) as [[mt' c'|mt' es']|], (fs !! p) as [[mt c|mt es]|];
    try done.
  by intros [= -> ->].
Qed.

Lemma readTemplate_readYaml dir fs :
  match TemplateManager.readTemplate dir fs with
  | Ok t => t
  | Throw _ => VObj []
  end
  = match Fs.readYaml fs (path_join dir "template.yaml") with
    | Ok t => t
    | Throw _ => VObj []
    end.
Proof.
  unfold TemplateManager.readTemplate, Fs.readYaml. rewrite existsSync_lookup.
  by destruct (fs !! path_join dir "template.yaml") as [[mt [c|]|mt es]|].
Qed.

(** X14. After saveConfiguration the manifest of the function
    directory is readable. Of a manifest that was there and parsed, no
    top-level key is dropped or moved and every entry of Metadata other
    than the GeckoLambda block keeps its value; when it is a mapping whose
    Metadata is a mapping or empty, the block is the saved one, with
    nothing of the old block. When there was no manifest, or one that
    did not parse, the manifest written holds the private metadata and
    nothing else. *)
Theorem saveConfiguration_manifest now config fs fs' :
  let lambdaDir :=
    path_join (LambdaDetector.workspacePath config)
      (LambdaDetector.functionName config) in
  run (LambdaDetector.saveConfiguration now config) fs = (fs', Ok tt) →
  ∃ t', TemplateManager.readTemplate lambdaDir fs' = Ok t'
    ∧ match TemplateManager.readTemplate lambdaDir fs with
      | Ok t =>
          (∃ extra, map fst (own_entries t')
                    = (map fst (own_entries t) ++ extra)%list)
          ∧ (∀ k, k ≠ "GeckoLambda" →
               opt_get (opt_get t' "Metadata") k
               = opt_get (opt_get t "Metadata") k)
          ∧ (mapping_manifest t → gecko t' = saved_block config)
      | Throw _ =>
          t' = VObj [("Metadata", VObj [("GeckoLambda", saved_block config)])]
      end.
Proof.
  intros lambdaDir (fs1 & template & t' & Hfiles & Htemplate & Hw & ->)
    %saveConfiguration_Ok.
  fold lambdaDir in Htemplate |- *.
  exists t'. split; [apply readTemplate_insert|].
  rewrite (readYaml_files fs fs1) in Htemplate by apply Hfiles.
  rewrite <- readTemplate_readYaml in Htemplate. subst template.
  rewrite withConfiguration_with_block in Hw.
  destruct (TemplateManager.readTemplate lambdaDir fs) as [t|e].
  - pose proof (with_block_frame _ _ _ Hw) as (_ & Hkeys & Hentries).
    split; [done|]. split; [done|]. intros Hm.
    pose proof (mapping_manifest_shape _ Hm) as (_ & Hseq & Hmseq).
    by rewrite (with_block_written _ _ _ Hw Hseq Hmseq).
  - by injection Hw as <-.
Qed.

(** X15. saveConfiguration registers the source file: when no manifest
    of the workspace claimed the file before, getConfiguration afterwards
    answers with the function saved, "apigateway", the time of the lookup
    and the directory of the file standing in for an event type, a time
    and a source directory that are empty. *)
Theorem saveConfiguration_registers now later config sf fs fs' :
  let ws := LambdaDetector.workspacePath config in
  let d := LambdaDetector.functionName config in
  run (LambdaDetector.saveConfiguration now config) fs = (fs', Ok tt) →
  LambdaDetector.sourceFile config = VStr sf →
  (∀ t, TemplateManager.readTemplate (path_join ws d) fs = Ok t →
        mapping_manifest t) →
  (∀ d', claims ws sf fs d' = false) →
  d ∈ subdirectories ws fs' →
  distinct_manifests ws fs' →
  LambdaDetector.getConfiguration later ws sf fs'
  = Some {|
      LambdaDetector.functionName := d;
      LambdaDetector.workspacePath := ws;
      LambdaDetector.eventType :=
        or (LambdaDetector.eventType config) (VStr "apigateway");
      LambdaDetector.lastModified :=
        or (LambdaDetector.lastModified config) (VStr (iso later));
      LambdaDetector.sourceFile := VStr sf;
      LambdaDetector.sourceDir :=
        or (LambdaDetector.sourceDir config) (VStr (path_dirname sf)) |}.
Proof.
  intros ws d Hrun Hsf Hmapping Hnone Hd Hdistinct.
  pose proof Hrun
    as (fs1 & template & t' & Hfiles & Htemplate & Hw & Hfs')
         %saveConfiguration_Ok.
  fold ws d in Htemplate, Hfs'. fold (manifest_path ws d) in Htemplate, Hfs'.
  rewrite (readYaml_files fs fs1) in Htemplate by apply Hfiles.
  unfold manifest_path in Htemplate.
  rewrite <- readTemplate_readYaml in Htemplate.
  rewrite withConfiguration_with_block in Hw.
  assert (nullish t' = false) as Hnull by (by eapply with_block_not_nullish).
  assert (gecko t' = saved_block config) as Hg.
  { subst template.
    destruct (TemplateManager.readTemplate (path_join ws d) fs) as [t|e] eqn:Ht.
    - pose proof (mapping_manifest_shape _ (Hmapping _ eq_refl))
        as (_ & Hseq & Hmseq).
      by rewrite (with_block_written _ _ _ Hw Hseq Hmseq).
    - by injection Hw as <-. }
  pose proof (saved_block_fields config) as (Bsf & Bsd & Bet & Blm).
  assert (private_metadata ws fs' d = Some (saved_block config)) as Hpm.
  { rewrite Hfs', private_metadata_insert.
    rewrite bool_decide_eq_true_2 by done. by rewrite Hnull, Hg. }
  rewrite getConfiguration_scan.
  apply (scan_for_only later ws sf fs' _ d); [done| |].
  - intros d' Hd' Hne. unfold claims.
    rewrite Hfs', private_metadata_insert.
    rewrite bool_decide_eq_false_2.
    + rewrite (private_metadata_files ws fs fs1) by done. apply Hnone.
    + intros Hp. apply Hne. by apply Hdistinct.
  - unfold answer. rewrite Hpm, Bsf, Hsf. simpl. rewrite String.eqb_refl.
    unfold found_config. by rewrite Bet, Blm, Bsd.
Qed.

End SaveThenGet.

Lemma saveConfiguration_manifest_witness :
  TemplateManager.readTemplate "/ws/orders" WizardExample.saved
  = Ok (VObj [("Metadata", VObj [("GeckoLambda", VObj [
          ("sourceFile", VStr "/src/orders/main.go");
          ("sourceDir", VStr "/src/orders");
          ("eventType", VStr "sqs");
          ("lastModified", VStr (iso StoreExample.t0));
          ("version", VStr "2.0")])])]).
Proof.
  destruct (saveConfiguration_manifest (H:=Posix.path) StoreExample.t0
              WizardExample.config WizardExample.workspace
              WizardExample.saved)
    as (t' & Hread & Hwritten).
  - vm_compute. reflexivity.
  - vm_compute in Hwritten. subst t'. exact Hread.
Defined.

Lemma saveConfiguration_registers_witness :
  LambdaDetector.getConfiguration StoreExample.t2 "/ws" "/src/orders/main.go"
    WizardExample.saved
  = Some {|
      LambdaDetector.functionName := "orders";
      LambdaDetector.workspacePath := "/ws";
      LambdaDetector.eventType := VStr "sqs";
      LambdaDetector.lastModified := VStr (iso StoreExample.t0);
      LambdaDetector.sourceFile := VStr "/src/orders/main.go";
      LambdaDetector.sourceDir := VStr "/src/orders" |}.
Proof.
  apply (saveConfiguration_registers (H:=Posix.path) StoreExample.t0
           StoreExample.t2 WizardExample.config "/src/orders/main.go"
           WizardExample.workspace WizardExample.saved).
  - vm_compute. reflexivity.
  - reflexivity.
  - intros t Ht. vm_compute in Ht. discriminate Ht.
  - intros d'. unfold claims, private_metadata, WizardExample.workspace.
    rewrite lookup_insert_ne by (simpl; discriminate).
    by rewrite lookup_empty.
  - vm_compute. by left.
  - intros d d' Hd Hd' _. vm_compute in Hd, Hd'.
    apply elem_of_cons in Hd as [->|Hd]; [|by apply elem_of_nil in Hd].
    apply elem_of_cons in Hd' as [->|Hd']; [|by apply elem_of_nil in Hd'].
    reflexivity.
Defined.

(** ** The configuration flows *)

Section Sequences.

Lemma run_bind_Ok {A B} (m : io A) (k : A → io B) fs fs' b :
  run (m ≫= k) fs = (fs', Ok b) →
  ∃ fs1 a, run m fs = (fs1, Ok a) ∧ run (k a) fs1 = (fs', Ok b).
Proof.
  unfold mbind, io_bind. cbn [run].
  destruct (run m fs) as [fs1 [a|e]]; [eauto | done].
Qed.

Lemma run_modify_Ok f fs fs' u :
  run (modify f) fs = (fs', Ok u) → f fs = Ok fs'.
Proof.
  unfold modify. cbn [run]. destruct (f fs); [|done]. by intros [= ->].
Qed.

Lemma run_inspect_Ok {A} (f : gmap string node → A) fs fs' a :
  run (inspect f) fs = (fs', Ok a) → fs' = fs ∧ a = f fs.
Proof. unfold inspect. cbn [run]. by intros [= -> ->]. Qed.

Lemma run_ret_Ok {A} (x : A) fs fs' a :
  run (mret x) fs = (fs', Ok a) → fs' = fs ∧ a = x.
Proof. unfold mret, io_ret. cbn [run]. by intros [= -> ->]. Qed.

End Sequences.

Section Flows.
Context `{Path}.

Lemma mkdirSync_plain_files now p fs fs' :
  Fs.mkdirSync_plain now p fs = Ok fs' → ∀ q, file_at fs' q = file_at fs q.
Proof.
  unfold Fs.mkdirSync_plain.
  destruct (fs !! p) eqn:Hp; [done|].
  destruct (fs !! path_dirname p) as [[mt c|mt es]|] eqn:Hparent; try done.
  intros [= <-] q.
  rewrite file_at_insert_dir.
  - rewrite file_at_insert_dir; [done|]. unfold file_at. by rewrite Hparent.
  - unfold file_at. destruct (decide (path_dirname p = p)) as [Heq|Hne].
    + rewrite Heq. by rewrite lookup_insert_eq.
    + rewrite lookup_insert_ne by done. by rewrite Hp.
Qed.

Lemma cleanupConfigJson_files lambdaDir fs q :
  q ≠ path_join lambdaDir "config.json" →
  file_at (ConfigManager.cleanupConfigJson lambdaDir fs) q = file_at fs q.
Proof.
  intros Hq. unfold ConfigManager.cleanupConfigJson, Fs.unlinkSync.
  destruct (Fs.existsSync _ _); [|done].
  destruct (fs !! path_join lambdaDir "config.json") as [[mt c|mt es]|];
    try done.
  unfold file_at. by rewrite lookup_delete_ne.
Qed.

Lemma createEventFile_files now p eventType fs fs' q :
  ConfigManager.createEventFile now p eventType fs = Ok fs' →
  q ≠ p → file_at fs' q = file_at fs q.
Proof.
  unfold ConfigManager.createEventFile, Fs.writeJson.
  destruct (EventTemplates.getTemplate eventType); [|done].
  intros Hw Hq. unfold file_at.
  destruct (fs !! p) as [[mt c|mt es]|]; try done;
    injection Hw as <-; by rewrite lookup_insert_ne.
Qed.

Lemma file_at_readTemplate dir fs mt t :
  file_at fs (path_join dir "template.yaml") = Some (mt, Some t) →
  TemplateManager.readTemplate dir fs = Ok t.
Proof.
  unfold file_at. intros Hf. apply readTemplate_Ok. exists mt.
  destruct (fs !! _) as [[mt' c'|mt' es']|]; try done. by injection Hf as -> ->.
Qed.

Lemma createTemplate_file now dir config fs fs' :
  TemplateManager.createTemplate now dir config fs = Ok fs' →
  ∃ t, TemplateManager.createTemplateObject (iso now) config = Ok t
    ∧ file_at fs' (path_join dir "template.yaml") = Some (ms now, Some t).
Proof.
  unfold TemplateManager.createTemplate.
  intros (t & Ht & ->%writeYaml_Ok)%bind_Ok. exists t. split; [done|].
  unfold file_at. by rewrite lookup_insert_eq.
Qed.

(** X16. Both configuration flows, the wizard's
    createLambdaConfiguration and the auto-configuration's
    createLambdaStructure, leave in the function directory the manifest
    that createTemplate builds from the configuration: nothing of an
    earlier manifest, and nothing of what saveConfiguration wrote first,
    is kept. *)
Theorem configured_manifest now config architecture fs fs' :
  let lambdaDir :=
    path_join (LambdaDetector.workspacePath config)
      (LambdaDetector.functionName config) in
  path_join lambdaDir "config.json" ≠ path_join lambdaDir "template.yaml" →
  path_join lambdaDir "event.json" ≠ path_join lambdaDir "template.yaml" →
  (run (ConfigCommand.createLambdaConfiguration now config architecture) fs
     = (fs', Ok tt) →
   ∃ t, TemplateManager.createTemplateObject (iso (now 1%nat))
          (ConfigCommand.localConfig config architecture) = Ok t
     ∧ TemplateManager.readTemplate lambdaDir fs' = Ok t)
  ∧ (run (RunCommand.createLambdaStructure now config) fs = (fs', Ok tt) →
     ∃ t, TemplateManager.createTemplateObject (iso (now 1%nat))
            (RunCommand.localConfig config) = Ok t
       ∧ TemplateManager.readTemplate lambdaDir fs' = Ok t).
Proof.
  intros lambdaDir Hconfig Hevent. split.
  - unfold ConfigCommand.createLambdaConfiguration. fold lambdaDir.
    intros Hrun.
    apply run_bind_Ok in Hrun as (fs1 & ? & Hsave & Hrun).
    apply run_bind_Ok in Hrun as (fs2 & ? & Hexists & Hrun).
    apply run_bind_Ok in Hrun as (fs3 & ? & Hmkdir & Hrun).
    apply run_bind_Ok in Hrun as (fs4 & ? & Hcreate & Hrun).
    apply run_bind_Ok in Hrun as (fs5 & ? & Hcleanup & Hrun).
    apply run_bind_Ok in Hrun as (fs6 & ? & Hevents & Hrun).
    apply run_bind_Ok in Hrun as (fs7 & ? & Hbuild & Hrun).
    apply run_modify_Ok in Hcreate as (t & Ht & Hfile)%createTemplate_file.
    exists t. split; [done|]. apply (file_at_readTemplate _ _ (ms (now 1%nat))).
    assert (file_at fs5 (path_join lambdaDir "template.yaml")
            = Some (ms (now 1%nat), Some t)) as H5.
    { apply run_modify_Ok in Hcleanup. injection Hcleanup as <-.
      rewrite cleanupConfigJson_files; done. }
    assert (file_at fs6 (path_join lambdaDir "template.yaml")
            = Some (ms (now 1%nat), Some t)) as H6.
    { destruct (negb (str_eq _ _)).
      - apply run_modify_Ok in Hevents.
        by rewrite (createEventFile_files _ _ _ _ _ _ Hevents).
      - by apply run_ret_Ok in Hevents as [-> _]. }
    apply run_inspect_Ok in Hbuild as [-> ->].
    destruct (negb (Fs.existsSync fs6 _)).
    + apply run_modify_Ok in Hrun.
      by rewrite (mkdir_p_files _ _ _ _ _ Hrun).
    + by apply run_ret_Ok in Hrun as [-> _].
  - unfold RunCommand.createLambdaStructure. fold lambdaDir.
    intros Hrun.
    apply run_bind_Ok in Hrun as (fs1 & ? & Hsave & Hrun).
    apply run_bind_Ok in Hrun as (fs2 & ? & Hexists & Hrun).
    apply run_bind_Ok in Hrun as (fs3 & ? & Hmkdir & Hrun).
    apply run_bind_Ok in Hrun as (fs4 & ? & Hcreate & Hrun).
    apply run_bind_Ok in Hrun as (fs6 & ? & Hevents & Hrun).
    apply run_bind_Ok in Hrun as (fs7 & ? & Hbuild & Hrun).
    apply run_modify_Ok in Hcreate as (t & Ht & Hfile)%createTemplate_file.
    exists t. split; [done|]. apply (file_at_readTemplate _ _ (ms (now 1%nat))).
    assert (file_at fs6 (path_join lambdaDir "template.yaml")
            = Some (ms (now 1%nat), Some t)) as H6.
    { destruct (negb (str_eq _ _)).
      - apply run_modify_Ok in Hevents.
        by rewrite (createEventFile_files _ _ _ _ _ _ Hevents).
      - by apply run_ret_Ok in Hevents as [-> _]. }
    apply run_inspect_Ok in Hbuild as [-> ->].
    destruct (negb (Fs.existsSync fs6 _)).
    + apply run_modify_Ok in Hrun.
      by rewrite (mkdirSync_plain_files _ _ _ _ Hrun).
    + by apply run_ret_Ok in Hrun as [-> _].
Qed.

End Flows.

Lemma configured_manifest_witness :
  ∃ t,
    TemplateManager.createTemplateObject (iso StoreExample.t1)
      (ConfigCommand.localConfig WizardExample.config "arm64") = Ok t
    ∧ TemplateManager.readTemplate "/ws/orders" WizardExample.configured
      = Ok t.
Proof.
  apply (proj1 (configured_manifest (H:=Posix.path) WizardExample.now
                  WizardExample.config "arm64" WizardExample.workspace
                  WizardExample.configured
                  ltac:(vm_compute; discriminate)
                  ltac:(vm_compute; discriminate))).
  vm_compute. reflexivity.
Defined.

(** ** The event file *)

Section EventFile.
Context `{Path}.

Lemma getTemplate_inferred eventType sample :
  EventTemplates.getTemplate eventType = Some sample →
  to_string eventType ≠ "__proto__" →
  sample = lookup_field (inferred_tag (to_string eventType))
             EventTemplates.templates.
Proof.
  unfold EventTemplates.getTemplate, inferred_tag.
  set (key := to_string eventType). clearbody key.
  destruct (existsb _ _); [done|].
  destruct (String.eqb key "__proto__") eqn:Hproto.
  { by apply String.eqb_eq in Hproto. }
  intros Hs _. injection Hs as <-.
  unfold EventTemplates.templates. cbn [lookup_field].
  repeat match goal with
  | |- context [String.eqb ?lit key] =>
      let E := fresh "E" in
      destruct (String.eqb lit key) eqn:E;
        [apply String.eqb_eq in E as <-; vm_compute; reflexivity |]
  end.
  rewrite bool_decide_eq_false_2; [reflexivity|].
  unfold known_tags. rewrite !elem_of_cons, elem_of_nil.
  intros [->|[->|[->|[->|[]]]]]; discriminate.
Qed.

(** X17. createEventFile writes the sample event of the event type when
    that is one of apigateway, s3, dynamodb and sqs, and the API Gateway
    sample for every other one -- the event type that the detectors read
    from the trigger createTemplate writes for it -- and it writes
    nothing else. *)
Theorem createEventFile_sample now eventFilePath eventType fs fs' :
  ConfigManager.createEventFile now eventFilePath eventType fs = Ok fs' →
  to_string eventType ≠ "__proto__" →
  file_at fs' eventFilePath
  = Some (ms now,
          Some (lookup_field (inferred_tag (to_string eventType))
                  EventTemplates.templates))
  ∧ ∀ p, p ≠ eventFilePath → fs' !! p = fs !! p.
Proof.
  unfold ConfigManager.createEventFile, Fs.writeJson.
  destruct (EventTemplates.getTemplate eventType) as [sample|] eqn:Hs; [|done].
  intros Hw Hproto.
  rewrite <- (getTemplate_inferred _ _ Hs Hproto).
  assert (fs' = <[eventFilePath := File (ms now) (Some sample)]> fs) as ->.
  { destruct (fs !! eventFilePath) as [[mt c|mt es]|]; congruence. }
  split.
  - unfold file_at. by rewrite lookup_insert_eq.
  - intros p Hp. by rewrite lookup_insert_ne.
Qed.

End EventFile.

Lemma createEventFile_sample_witness :
  file_at TriggerExample.with_event_file "/ws/stream/event.json"
  = Some (ms StoreExample.t1,
          Some (lookup_field "apigateway" EventTemplates.templates)).
Proof.
  apply (proj1 (createEventFile_sample StoreExample.t1
                  "/ws/stream/event.json" (VStr "kinesis")
                  TriggerExample.created TriggerExample.with_event_file
                  ltac:(vm_compute; reflexivity)
                  ltac:(vm_compute; discriminate))).
Defined.

(** ** Environment updates and the registry *)

Section EnvironmentAndRegistry.
Context `{Path}.

Lemma update_child_sequence l k f o' :
  update_child (VArr l) k f = Ok o' → starts_with_digit k = false →
  o' = VArr l.
Proof.
  unfold update_child, TemplateManager.ensure, get. simpl. intros Hu Hk.
  assert (opt_get (VArr l) k = VUndef) as Hundef.
  { unfold opt_get. simpl. apply (lookup_indexed_name k id _ Hk). }
  rewrite Hundef in Hu. simpl in Hu.
  destruct (f (VObj [])); simpl in Hu; congruence.
Qed.

Lemma update_child_mapping os k f o' :
  update_child (VObj os) k f = Ok o' → ∃ os', o' = VObj os'.
Proof.
  unfold update_child, TemplateManager.ensure, get. simpl.
  destruct (truthy (opt_get (VObj os) k)); simpl;
    destruct (f _); simpl; intros [= <-]; eauto.
Qed.

Lemma stamp_other now environment label g g2 k :
  stamp now environment label g = Ok g2 →
  k ≠ "environmentInfo" → k ≠ "lastModified" →
  opt_get g2 k = opt_get g k ∧ truthy g2 = true.
Proof.
  unfold stamp. intros (g1 & H1 & H2)%bind_Ok Hk1 Hk2. split.
  - rewrite (set_mapping_other _ _ _ _ k H2) by done.
    by rewrite (set_mapping_other _ _ _ _ k H1).
  - destruct g1; simpl in H2; try done; by injection H2 as <-.
Qed.

(** What updateEnvironmentVariables leaves of the private metadata *)
Lemma setEnvironmentVariables_gecko now environment label t t' :
  TemplateManager.setEnvironmentVariables now environment label t = Ok t' →
  nullish t = false ∧ nullish t' = false
  ∧ (truthy (gecko t) = true → truthy (gecko t') = true)
  ∧ ∀ k, k ≠ "environmentInfo" → k ≠ "lastModified" →
      opt_get (gecko t') k = opt_get (gecko t) k.
Proof.
  rewrite setEnvironmentVariables_unfold.
  intros (r0 & [Hnull ->]%get_Ok & Hu)%bind_Ok.
  apply bind_Ok in Hu as (found & Hf & Hu).
  destruct found as [[[i key] res]|]; [|discriminate].
  apply bind_Ok in Hu as (res2 & Hres2 & Ht').
  pose proof (find_function_found _ _ _ _ Hf) as (_ & Hty & Hl).
  assert (truthy (opt_get t "Resources") = true) as Hr0.
  { destruct (truthy (opt_get t "Resources")) eqn:E; [done|].
    rewrite or_falsy in Hl by done. by destruct i. }
  destruct (opt_get_name_mapping t "Resources") as [ts ->];
    [done | by apply truthy_defined|].
  split; [done|].
  set (t1 := TemplateManager.write_back (VObj ts) "Resources" _) in Ht'.
  assert (∃ ts1, t1 = VObj ts1) as [ts1 Ht1] by (unfold t1; simpl; eauto).
  assert (child t1 "Metadata" = child (VObj ts) "Metadata") as Hchild.
  { unfold t1, child, opt_get. simpl.
    by rewrite !lookup_set_field_ne by done. }
  clearbody t1. subst t1.
  destruct (update_child_mapping _ _ _ _ Ht') as [ts' ->].
  split; [done|].
  apply update_child_own in Ht' as (md2 & Hmd2 & Hmd); [|done..].
  rewrite Hchild in Hmd2. unfold gecko. rewrite Hmd.
  assert (∀ k, opt_get (opt_get (child (VObj ts) "Metadata") "GeckoLambda") k
               = opt_get (opt_get (opt_get (VObj ts) "Metadata") "GeckoLambda") k)
    as Hsame.
  { intros k. unfold child.
    destruct (truthy (opt_get (VObj ts) "Metadata")) eqn:E; [done|].
    by rewrite (falsy_opt_get (opt_get (VObj ts) "Metadata")). }
  assert (truthy (opt_get (opt_get (VObj ts) "Metadata") "GeckoLambda") = true →
          opt_get (child (VObj ts) "Metadata") "GeckoLambda"
          = opt_get (opt_get (VObj ts) "Metadata") "GeckoLambda") as Hsame'.
  { intros Hg. unfold child.
    destruct (truthy (opt_get (VObj ts) "Metadata")) eqn:E; [done|].
    by rewrite (falsy_opt_get (opt_get (VObj ts) "Metadata")) in Hg. }
  remember (child (VObj ts) "Metadata") as md eqn:Emd.
  destruct (is_sequence md) eqn:Hseq.
  - destruct md as [| | | | |l|]; try done.
    apply update_child_sequence in Hmd2 as ->; [|done].
    split.
    + intros Hg. by rewrite (Hsame' Hg).
    + intros k _ _. apply Hsame.
  - apply update_child_own in Hmd2 as (g2 & Hg2 & ->); [|done..].
    split.
    + intros _. by eapply (stamp_other _ _ _ _ _ "x").
    + intros k Hk1 Hk2.
      destruct (stamp_other _ _ _ _ _ k Hg2 Hk1 Hk2) as [-> _].
      rewrite opt_get_child. apply Hsame.
Qed.

Lemma answer_after_environment now later ws d environment label s fs t t' d' :
  TemplateManager.readTemplate (path_join ws d) fs = Ok t →
  TemplateManager.setEnvironmentVariables (iso now) environment label t = Ok t' →
  forget_time <$> answer later ws s
      (<[manifest_path ws d := File (ms now) (Some t')]> fs) d'
  = forget_time <$> answer later ws s fs d'.
Proof.
  intros [mt0 Hfile]%readTemplate_Ok Hset.
  apply setEnvironmentVariables_gecko in Hset as (Hnull & Hnull' & Hg & Hk).
  unfold answer. rewrite private_metadata_insert.
  case_bool_decide as Hp; [|done].
  unfold private_metadata. fold (manifest_path ws d').
  rewrite Hp. unfold manifest_path. rewrite Hfile, Hnull, Hnull'.
  fold (gecko t) (gecko t').
  destruct (truthy (gecko t)) eqn:Hgt.
  - rewrite (Hg eq_refl). rewrite (Hk "sourceFile") by done.
    destruct (str_eq _ s); [|done]. simpl. f_equal.
    unfold forget_time, found_config. simpl.
    by rewrite (Hk "eventType"), (Hk "sourceDir") by done.
  - assert (str_eq (opt_get (gecko t') "sourceFile") s = false) as Hno.
    { rewrite (Hk "sourceFile") by done. by rewrite falsy_opt_get. }
    destruct (truthy (gecko t')); [by rewrite Hno | done].
Qed.

Lemma scan_for_forget now ws s fs fs' l :
  (∀ d, forget_time <$> answer now ws s fs' d
        = forget_time <$> answer now ws s fs d) →
  forget_time <$> LambdaDetector.scan_for (iso now) ws s fs' l
  = forget_time <$> LambdaDetector.scan_for (iso now) ws s fs l.
Proof.
  intros Ha. induction l as [|d l IH]; [done|].
  rewrite !scan_for_cons. specialize (Ha d).
  destruct (answer now ws s fs' d), (answer now ws s fs d); done.
Qed.

(** X18. Downloading environment variables into the manifest of a
    function directory changes no answer of the registry: for every
    source file, getConfiguration finds the same function, with the same
    event type and source directory, before and after
    updateEnvironmentVariables; only the time of the last modification
    may differ. *)
Theorem environment_update_keeps_registry now later ws d environment label s
    fs fs' :
  TemplateManager.updateEnvironmentVariables now (path_join ws d)
    environment label fs = Ok fs' →
  forget_time <$> LambdaDetector.getConfiguration later ws s fs'
  = forget_time <$> LambdaDetector.getConfiguration later ws s fs.
Proof.
  unfold TemplateManager.updateEnvironmentVariables.
  intros (t & Ht & (t' & Hset & ->%writeYaml_Ok)%bind_Ok)%bind_Ok.
  pose proof Ht as [mt0 Hfile]%readTemplate_Ok.
  rewrite !getConfiguration_scan.
  rewrite (subdirectories_insert_file _ _ _ _ _ _ _ Hfile).
  apply scan_for_forget. intros d'.
  by eapply answer_after_environment.
Qed.

End EnvironmentAndRegistry.

Lemma environment_update_keeps_registry_witness :
  forget_time <$> LambdaDetector.getConfiguration StoreExample.t2 "/ws"
                    "/src/orders/main.go" SyncExample.synced
  = forget_time <$> LambdaDetector.getConfiguration StoreExample.t2 "/ws"
                      "/src/orders/main.go" RegistryExample.workspace.
Proof.
  apply (environment_update_keeps_registry (H:=Posix.path) StoreExample.t1
           StoreExample.t2 "/ws" "orders" [("TABLE", VStr "orders")]
           (Some "orders-prod") "/src/orders/main.go"
           RegistryExample.workspace SyncExample.synced).
  vm_compute. reflexivity.
Defined.

(** ** ConfigManager.updateEnvironmentVariables *)

Section WriteThenReadBack.
Context `{Path}.




End WriteThenReadBack.


(** ** Manifest updates and the build *)

Section Staleness.
Context `{Path}.

Lemma needsRebuild_after_write cfg dir fs mt content :
  path_join (path_join dir "build") "bootstrap" ≠ path_join dir "template.yaml" →
  (∀ a, artifact_mtime dir fs = Some a → a < mt) →
  BuildUtils.needsRebuild cfg dir
    (<[path_join dir "template.yaml" := File mt content]> fs) = true.
Proof.
  intros Hne Hold. rewrite needsRebuild_unfold.
  destruct (source_mtime cfg _); [|done].
  destruct (negb _); [done|].
  unfold artifact_mtime, manifest_mtime in *.
  rewrite lookup_insert_ne by done. rewrite lookup_insert_eq. simpl.
  destruct (fs !! path_join (path_join dir "build") "bootstrap") as [n|];
    simpl in *; [|done].
  specialize (Hold _ eq_refl).
  apply orb_true_iff. left. by apply Z.ltb_lt.
Qed.

(** A successful update of the manifest is one write of the manifest *)
Lemma manifest_writers now dir sf sd et environment label fs fs' :
  TemplateManager.updateEnvironmentVariables now dir environment label fs
    = Ok fs'
  ∨ TemplateManager.updateGeckoMetadata now dir sf sd et fs = Ok fs'
  ∨ ConfigManager.updateGeckoMetadata now dir sf sd et fs = Ok fs' →
  ∃ t', fs' = <[path_join dir "template.yaml" := File (ms now) (Some t')]> fs.
Proof.
  unfold TemplateManager.updateEnvironmentVariables,
    TemplateManager.updateGeckoMetadata, ConfigManager.updateGeckoMetadata.
  intros [Hu|[Hu|Hu]];
    apply bind_Ok in Hu as (t & _ & (t' & _ & ->%writeYaml_Ok)%bind_Ok);
    eauto.
Qed.

(** X20. Every update of the manifest makes the build stale: after
    updateEnvironmentVariables or either updateGeckoMetadata has written
    the manifest of a function directory, needsRebuild answers true for
    that directory whatever the configuration, when the bootstrap artifact,
    if there is one, was built before the write. *)
Theorem manifest_update_forces_rebuild now dir sf sd et environment label cfg
    fs fs' :
  TemplateManager.updateEnvironmentVariables now dir environment label fs
    = Ok fs'
  ∨ TemplateManager.updateGeckoMetadata now dir sf sd et fs = Ok fs'
  ∨ ConfigManager.updateGeckoMetadata now dir sf sd et fs = Ok fs' →
  path_join (path_join dir "build") "bootstrap" ≠ path_join dir "template.yaml" →
  (∀ a, artifact_mtime dir fs = Some a → a < ms now) →
  BuildUtils.needsRebuild cfg dir fs' = true.
Proof.
  intros [t' ->]%manifest_writers Hne Hold.
  by apply needsRebuild_after_write.
Qed.

End Staleness.

Lemma manifest_update_forces_rebuild_witness :
  BuildUtils.needsRebuild FreshnessExample.cfg "/ws/orders"
    (FreshnessExample.built 5) = false
  ∧ BuildUtils.needsRebuild FreshnessExample.cfg "/ws/orders"
      SyncExample.touched = true.
Proof.
  split; [vm_compute; reflexivity|].
  apply (manifest_update_forces_rebuild (H:=Posix.path) RegistryExample.now
           "/ws/orders" "/src/orders/main.go" "/src/orders" "sqs" [] None
           FreshnessExample.cfg (FreshnessExample.built 5)
           SyncExample.touched).
  - right. left. vm_compute. reflexivity.
  - vm_compute. discriminate.
  - intros a Ha. vm_compute in Ha. injection Ha as <-. reflexivity.
Defined.

(** ** The repair commands *)

Section RepairCommands.
Context `{Path}.

Lemma getConfiguration_Some now ws s fs c :
  LambdaDetector.getConfiguration now ws s fs = Some c →
  ∃ d block,
    d ∈ subdirectories ws fs
    ∧ private_metadata ws fs d = Some block
    ∧ c = found_config now ws s d block.
Proof.
  rewrite getConfiguration_scan.
  intros (d & Hd & Ha)%scan_for_Some.
  apply answer_Some in Ha as (block & Hb & ->). eauto.
Qed.

Lemma repairTemplate_of_configured now ws d sf sd et fs block :
  private_metadata ws fs d = Some block →
  ConfigManager.repairTemplate_of now (path_join ws d) sf sd et fs = Ok fs.
Proof.
  intros Hb. unfold ConfigManager.repairTemplate_of.
  destruct (validateUnifiedTemplate_block ws fs d) as [-> ->].
  assert (has_block ws fs d = true) as Hblock
    by (unfold has_block; by rewrite Hb).
  by rewrite Hblock, (has_block_manifest _ _ _ Hblock).
Qed.

(** X21. repairCurrentTemplate never changes a file. It goes on to
    repairTemplate only for a function that getConfiguration finds, and
    such a function has private metadata, so repairTemplate finds nothing
    to do; the command reports a repair whenever the active document is
    a configured Lambda source. *)
Theorem repairCurrentTemplate_writes_nothing now ws activeEditor fs :
  fst (Extension.repairCurrentTemplate now ws activeEditor fs) = fs
  ∧ (snd (Extension.repairCurrentTemplate now ws activeEditor fs)
     = Extension.Repaired
     ↔ ∃ document,
         activeEditor = Some document
         ∧ LambdaDetector.isLambdaFile document = true
         ∧ LambdaDetector.isConfigured now ws
             (LambdaDetector.fileName document) fs = true).
Proof.
  unfold Extension.repairCurrentTemplate, LambdaDetector.isConfigured.
  destruct activeEditor as [document|]; simpl.
  2:{ split; [done|]. split; [done | by intros (? & ? & _)]. }
  destruct (LambdaDetector.isLambdaFile document) eqn:Hlambda; simpl.
  2:{ split; [done|]. split; [done|].
      intros (? & [= <-] & ? & _). congruence. }
  destruct (LambdaDetector.getConfiguration now ws
              (LambdaDetector.fileName document) fs) as [config|] eqn:Hc.
  2:{ split; [done|]. split; [done|].
      intros (? & [= <-] & _ & Hs). rewrite Hc in Hs.
      apply bool_decide_eq_true in Hs. by destruct Hs. }
  pose proof Hc as (d & block & Hd & Hb & ->)%getConfiguration_Some.
  simpl. rewrite (repairTemplate_of_configured _ _ _ _ _ _ _ _ Hb). simpl.
  split; [done|]. split; [|done]. intros _. exists document.
  split; [done|]. split; [done|]. apply bool_decide_eq_true.
  rewrite Hc. eauto.
Qed.

(** *** repairAllTemplates *)

Lemma has_block_blocked ws fs d :
  has_block ws fs d = blocked (fs !! manifest_path ws d).
Proof.
  unfold has_block, private_metadata, blocked, manifest_path, gecko.
  destruct (fs !! _) as [[mt [t|]|mt es]|]; try done.
  destruct (nullish t); [done|]. simpl.
  by destruct (truthy _).
Qed.

Lemma repair_step now ws d sf sd et fs fs1 :
  has_block ws fs d = false →
  ConfigManager.repairTemplate now (path_join ws d) sf sd et fs = Ok fs1 →
  (∀ p, p ≠ manifest_path ws d → fs1 !! p = fs !! p)
  ∧ (repairable ws fs d → blocked (fs1 !! manifest_path ws d) = true).
Proof.
  intros Hno Hrepair. unfold ConfigManager.repairTemplate in Hrepair.
  destruct (validateUnifiedTemplate_block ws fs d) as [Hm He].
  rewrite Hm, He, Hno in Hrepair. simpl in Hrepair.
  destruct (has_manifest ws fs d) eqn:Hex; simpl in Hrepair; [|done].
  unfold ConfigManager.updateGeckoMetadata in Hrepair.
  apply bind_Ok in Hrepair as (t & Ht & Hu).
  apply bind_Ok in Hu as (t1 & Hw & Hfs). apply writeYaml_Ok in Hfs as ->.
  fold (manifest_path ws d). split.
  - intros p Hp. by rewrite lookup_insert_ne.
  - rewrite lookup_insert_eq. simpl.
    rewrite replaceGeckoMetadata_with_block in Hw.
    rewrite (with_block_not_nullish _ _ _ Hw). simpl.
    rewrite has_block_blocked in Hno.
    intros [Hb|(mt & t' & Hfile & Hmap)]; [congruence|].
    apply readTemplate_Ok in Ht as [mt' Ht]. fold (manifest_path ws d) in Ht.
    rewrite Hfile in Ht. injection Ht as _ <-.
    pose proof (mapping_manifest_shape _ Hmap) as (_ & Hseq & Hmseq).
    by rewrite (with_block_written _ _ _ Hw Hseq Hmseq).
Qed.

Lemma repair_step_succeeds now ws d sf sd et fs :
  has_block ws fs d = false → repairable ws fs d →
  is_ok (ConfigManager.repairTemplate now (path_join ws d) sf sd et fs) = true.
Proof.
  intros Hno [Hb|(mt & t & Hfile & Hmap)].
  { rewrite has_block_blocked in Hno. congruence. }
  unfold ConfigManager.repairTemplate.
  destruct (validateUnifiedTemplate_block ws fs d) as [-> ->].
  rewrite Hno. unfold has_manifest. fold (manifest_path ws d).
  rewrite existsSync_lookup, Hfile. simpl.
  assert (TemplateManager.readTemplate (path_join ws d) fs = Ok t) as Ht
    by (apply readTemplate_Ok; eauto).
  destruct (with_block_mapping (λ _, fresh_block (iso now) sf sd et) t Hmap)
    as [t1 H1].
  by rewrite (replace_update_Ok _ _ _ _ _ _ _ _ Ht H1).
Qed.

Lemma repairEach_spec now ws l n fs :
  ∃ fs' n',
    Extension.repairEach now ws l n fs = (fs', n')
    ∧ (∀ p, fs' !! p = fs !! p
            ∨ (blocked (fs !! p) = false ∧ ∃ d, d ∈ l ∧ p = manifest_path ws d))
    ∧ (∀ d, d ∈ l → repairable ws fs d →
         blocked (fs' !! manifest_path ws d) = true)
    ∧ (n ≤ n')%nat ∧ (n' ≤ n + length (unblocked ws fs l))%nat.
Proof.
  revert n fs. induction l as [|d l IH]; intros n fs.
  { exists fs, n. simpl. repeat split; try done; try lia; [by left|].
    intros d Hd. inversion Hd. }
  simpl Extension.repairEach.
  destruct (validateUnifiedTemplate_block ws fs d) as [-> ->].
  assert (∀ fs1 n1,
    (∀ p, fs1 !! p = fs !! p
          ∨ (blocked (fs !! p) = false ∧ p = manifest_path ws d)) →
    (repairable ws fs d → blocked (fs1 !! manifest_path ws d) = true) →
    (n ≤ n1)%nat →
    (n1 ≤ n + (if has_block ws fs d then 0 else 1))%nat →
    ∃ fs' n',
      Extension.repairEach now ws l n1 fs1 = (fs', n')
      ∧ (∀ p, fs' !! p = fs !! p
              ∨ (blocked (fs !! p) = false
                 ∧ ∃ d', d' ∈ d :: l ∧ p = manifest_path ws d'))
      ∧ (∀ d', d' ∈ d :: l → repairable ws fs d' →
           blocked (fs' !! manifest_path ws d') = true)
      ∧ (n ≤ n')%nat ∧ (n' ≤ n + length (unblocked ws fs (d :: l)))%nat)
    as Hrest.
  { intros fs1 n1 Hframe Hd Hn Hn1.
    assert (∀ p, blocked (fs !! p) = true → fs1 !! p = fs !! p) as Hkeep.
    { intros p Hp. destruct (Hframe p) as [?|[? _]]; [done | congruence]. }
    assert (∀ d', repairable ws fs d' → repairable ws fs1 d') as Hgood.
    { intros d' Hd'. destruct (Hframe (manifest_path ws d')) as [E|[_ E]].
      - unfold repairable. by rewrite E.
      - left. rewrite E. apply Hd. unfold repairable. by rewrite <- E. }
    assert (length (unblocked ws fs1 l) ≤ length (unblocked ws fs l))%nat
      as Hcount.
    { unfold unblocked. clear IH. induction l as [|d' l IHl]; simpl; [done|].
      destruct (has_block ws fs d') eqn:Hb; simpl.
      - rewrite has_block_blocked in Hb.
        rewrite (has_block_blocked ws fs1), (Hkeep _ Hb), Hb. simpl. exact IHl.
      - destruct (has_block ws fs1 d'); simpl; lia. }
    destruct (IH n1 fs1) as (fs' & n' & Hrun & Hframe' & Hall & Hle & Hub).
    exists fs', n'. split; [done|]. split; [|split; [|split]].
    - intros p. destruct (Hframe' p) as [E|[Hb (d' & Hd' & ->)]].
      + rewrite E. destruct (Hframe p) as [?|[? ?]]; [by left|].
        right. split; [done|]. exists d. split; [left | done].
      + destruct (Hframe (manifest_path ws d')) as [E|[Hb1 E]].
        * right. rewrite <- E. split; [done|]. exists d'. split; [by right|done].
        * right. split; [done|]. exists d'. split; [by right|done].
    - intros d' [->|Hd']%elem_of_cons Hrep.
      + destruct (Hframe' (manifest_path ws d)) as [E|[Hb _]].
        * rewrite E. by apply Hd.
        * rewrite (Hd Hrep) in Hb. done.
      + apply Hall; [done|]. by apply Hgood.
    - lia.
    - unfold unblocked in *. simpl.
      destruct (has_block ws fs d); simpl in *; lia. }
  destruct (has_manifest ws fs d && negb (has_block ws fs d)) eqn:Hcond.
  - apply andb_true_iff in Hcond as [Hex Hno%negb_true_iff].
    destruct (ConfigManager.repairTemplate _ _ _ _ _ fs) as [fs1|e] eqn:Hrep.
    + destruct (repair_step _ _ _ _ _ _ _ _ Hno Hrep) as [Hother Hown].
      apply Hrest; [|done|lia|rewrite Hno; lia].
      intros p. destruct (decide (p = manifest_path ws d)) as [->|Hp].
      * right. by rewrite <- has_block_blocked.
      * left. by apply Hother.
    + apply Hrest; [by left| |lia|rewrite Hno; lia].
      intros Hgood.
      pose proof (repair_step_succeeds (now d) ws d "" "" "apigateway" fs
                    Hno Hgood) as Hok.
      by rewrite Hrep in Hok.
  - apply Hrest; [by left| |lia|lia].
    intros [Hb|(mt & t & Hfile & Hmap)]; [done|].
    apply andb_false_iff in Hcond as [Hex|Hno].
    + unfold has_manifest in Hex. fold (manifest_path ws d) in Hex.
      by rewrite existsSync_lookup, Hfile in Hex.
    + apply negb_false_iff in Hno. by rewrite <- has_block_blocked.
Qed.

(** X22. After repairAllTemplates, every function directory whose
    manifest is a mapping (with a Metadata that is a mapping or empty)
    has private metadata. A manifest that had private metadata is not
    touched, nothing but manifests of function directories is written,
    and the count reported is at most the number of directories that
    lacked private metadata. *)
Theorem repairAllTemplates_repairs now ws fs :
  let lambdaDirs := ConfigManager.getAllLambdaDirectories ws fs in
  let fs' := fst (Extension.repairAllTemplates now ws fs) in
  let repairedCount := snd (Extension.repairAllTemplates now ws fs) in
  (∀ d t, d ∈ lambdaDirs →
     TemplateManager.readTemplate (path_join ws d) fs = Ok t →
     mapping_manifest t →
     ConfigManager.hasMetadata
       (ConfigManager.validateUnifiedTemplate (path_join ws d) fs') = true)
  ∧ (∀ d,
       ConfigManager.hasMetadata
         (ConfigManager.validateUnifiedTemplate (path_join ws d) fs) = true →
       fs' !! manifest_path ws d = fs !! manifest_path ws d)
  ∧ (∀ p, (∀ d, d ∈ lambdaDirs → p ≠ manifest_path ws d) →
       fs' !! p = fs !! p)
  ∧ (repairedCount
     ≤ length (List.filter
                 (λ d, negb (ConfigManager.hasMetadata
                               (ConfigManager.validateUnifiedTemplate
                                  (path_join ws d) fs)))
                 lambdaDirs))%nat.
Proof.
  intros lambdaDirs fs' repairedCount.
  unfold Extension.repairAllTemplates in fs', repairedCount.
  fold lambdaDirs in fs', repairedCount.
  destruct (repairEach_spec now ws lambdaDirs 0 fs)
    as (fs1 & n1 & Hrun & Hframe & Hall & _ & Hcount).
  subst fs' repairedCount. rewrite Hrun. simpl.
  split; [|split; [|split]].
  - intros d t Hd Ht Hmap.
    destruct (validateUnifiedTemplate_block ws fs1 d) as [-> _].
    rewrite has_block_blocked. apply Hall; [done|]. right.
    apply readTemplate_Ok in Ht as [mt Ht]. eauto.
  - intros d Hd.
    destruct (validateUnifiedTemplate_block ws fs d) as [Hm _].
    rewrite Hm, has_block_blocked in Hd.
    destruct (Hframe (manifest_path ws d)) as [?|[? _]]; [done | congruence].
  - intros p Hp. destruct (Hframe p) as [?|[_ (d & Hd & ->)]]; [done|].
    by destruct (Hp d Hd).
  - etransitivity; [exact Hcount|]. simpl. unfold unblocked.
    apply Nat.eq_le_incl. f_equal. apply filter_ext. intros d.
    by destruct (validateUnifiedTemplate_block ws fs d) as [-> _].
Qed.

End RepairCommands.

(** ** Validity of written manifests *)

Section ValidityOfWritten.
Context `{Path}.

Lemma missing_unless g field :
  TemplateManager.missing g field
  = issue_unless (truthy (opt_get g field)) field.
Proof.
  unfold TemplateManager.missing, issue_unless.
  by destruct (truthy (opt_get g field)).
Qed.

Lemma truthy_or_empty v : truthy (or v (VStr "")) = truthy v.
Proof. unfold or. by destruct (truthy v) eqn:E. Qed.

Lemma length_issue_unless a b fa fb :
  (length (issue_unless a fa ++ issue_unless b fb ++ [] ++ []) =? 0)%nat
  = a && b.
Proof. by destruct a, b. Qed.

(** X23. A manifest that createTemplate has written carries private
    metadata; validateGeckoMetadata finds it valid exactly when the
    configuration named a source file and a source directory, and
    reports the one that is missing otherwise. The event type and the
    version are never missing. *)
Theorem created_manifest_validity now dir config fs fs' :
  TemplateManager.createTemplate now dir config fs = Ok fs' →
  let validation := TemplateManager.validateGeckoMetadata dir fs' in
  TemplateManager.hasMetadata validation = true
  ∧ TemplateManager.isValid validation
    = truthy (sourceMainFile config) && truthy (sourceDir config)
  ∧ TemplateManager.issues validation
    = (issue_unless (truthy (sourceMainFile config)) "sourceFile"
       ++ issue_unless (truthy (sourceDir config)) "sourceDir")%list
  ∧ ConfigManager.hasMetadata (ConfigManager.validateUnifiedTemplate dir fs')
    = true.
Proof.
  intros Hcreate validation. subst validation.
  unfold TemplateManager.createTemplate in Hcreate.
  apply bind_Ok in Hcreate as (t & Ht & ->%writeYaml_Ok).
  pose proof (createTemplateObject_Ok _ _ _ Ht)
    as (name & events & properties & _ & _ & Hnull & Hg & _).
  rewrite (validateGeckoMetadata_read _ _ t (readTemplate_insert _ _ _ _) Hnull).
  rewrite (validateUnifiedTemplate_read _ _ t (readTemplate_insert _ _ _ _) Hnull).
  rewrite Hg. cbn [truthy]. cbv zeta.
  rewrite !missing_unless.
  change (opt_get (VObj _) "sourceFile")
    with (or (sourceMainFile config) (VStr "")).
  change (opt_get (VObj _) "sourceDir") with (or (sourceDir config) (VStr "")).
  change (opt_get (VObj _) "eventType")
    with (or (eventType config) (VStr "apigateway")).
  change (opt_get (VObj _) "version") with (VStr "2.0").
  rewrite !truthy_or_empty.
  rewrite (or_default_truthy (eventType config) (VStr "apigateway")) by done.
  cbn [truthy issue_unless String.eqb Ascii.eqb Bool.eqb negb].
  cbn [TemplateManager.hasMetadata TemplateManager.isValid
       TemplateManager.issues ConfigManager.hasMetadata].
  rewrite length_issue_unless.
  split; [done|]. split; [done|]. split; [|done].
  by rewrite !app_nil_r.
Qed.

(** X24. A manifest without private metadata that repairTemplate has
    repaired has private metadata, and validateGeckoMetadata finds it
    valid exactly when the source file, the source directory and the
    event type passed are not empty: repairAllTemplates, which passes an
    empty source file and source directory, leaves manifests that are
    reported with both missing. *)
Theorem repaired_manifest_validity now dir sf sd et fs t :
  TemplateManager.readTemplate dir fs = Ok t →
  mapping_manifest t →
  truthy (gecko t) = false →
  ∃ fs',
    ConfigManager.repairTemplate now dir sf sd et fs = Ok fs'
    ∧ let validation := TemplateManager.validateGeckoMetadata dir fs' in
      TemplateManager.hasMetadata validation = true
      ∧ TemplateManager.isValid validation
        = negb (String.eqb sf "") && negb (String.eqb sd "")
          && negb (String.eqb et "")
      ∧ TemplateManager.issues validation
        = (issue_unless (negb (String.eqb sf "")) "sourceFile"
           ++ issue_unless (negb (String.eqb sd "")) "sourceDir"
           ++ issue_unless (negb (String.eqb et "")) "eventType")%list.
Proof.
  intros Ht Hmap Hg.
  pose proof (mapping_manifest_shape _ Hmap) as (Hnull & Hseq & Hmseq).
  destruct (with_block_mapping (λ _, fresh_block (iso now) sf sd et) t Hmap)
    as [t' Hw].
  eexists. split.
  { unfold ConfigManager.repairTemplate.
    rewrite (validateUnifiedTemplate_read _ _ _ Ht Hnull), Hg. simpl.
    by eapply replace_update_Ok. }
  pose proof (with_block_written _ _ _ Hw Hseq Hmseq) as Hblock.
  rewrite (validateGeckoMetadata_read _ _ t' (readTemplate_insert _ _ _ _)
             (with_block_not_nullish _ _ _ Hw)).
  rewrite Hblock. unfold fresh_block. cbn [truthy]. cbv zeta.
  rewrite !missing_unless.
  cbn [TemplateManager.hasMetadata TemplateManager.isValid
       TemplateManager.issues].
  change (opt_get (VObj _) "sourceFile") with (VStr sf).
  change (opt_get (VObj _) "sourceDir") with (VStr sd).
  change (opt_get (VObj _) "eventType") with (VStr et).
  change (opt_get (VObj _) "version") with (VStr "2.0").
  cbn [truthy]. split; [done|].
  destruct (String.eqb sf ""), (String.eqb sd ""), (String.eqb et ""); done.
Qed.

End ValidityOfWritten.

Lemma created_manifest_validity_witness :
  TemplateManager.isValid
    (TemplateManager.validateGeckoMetadata "/ws/orders" StoreExample.created)
  = true
  ∧ TemplateManager.issues
      (TemplateManager.validateGeckoMetadata "/ws/orders" StoreExample.created)
    = [].
Proof.
  destruct (created_manifest_validity (H:=Posix.path) StoreExample.t0
              "/ws/orders" StoreExample.wizard
              (<["/ws/orders" := Dir 40 []]> ∅) StoreExample.created)
    as (_ & Hvalid & Hissues & _).
  - vm_compute. reflexivity.
  - split; [exact Hvalid | exact Hissues].
Defined.

Lemma repaired_manifest_validity_witness :
  ∃ fs',
    ConfigManager.repairTemplate StoreExample.t1 "/ws/legacy" "" ""
      "apigateway" RegistryExample.workspace = Ok fs'
    ∧ TemplateManager.isValid
        (TemplateManager.validateGeckoMetadata "/ws/legacy" fs') = false
    ∧ TemplateManager.issues
        (TemplateManager.validateGeckoMetadata "/ws/legacy" fs')
      = [missing_issue "sourceFile"; missing_issue "sourceDir"].
Proof.
  destruct (repaired_manifest_validity (H:=Posix.path) StoreExample.t1
              "/ws/legacy" "" "" "apigateway" RegistryExample.workspace
              RegistryExample.bare_manifest)
    as (fs' & Hrepair & _ & Hvalid & Hissues).
  - vm_compute. reflexivity.
  - split; [by eexists | by left].
  - reflexivity.
  - exists fs'. split; [exact Hrepair|]. split; [exact Hvalid | exact Hissues].
Defined.
